(** * Organizer: a shallow embedding of [Organizer.py]

    The script sorts the files of a directory into
    [<target>/<Category>/<extension>/<filename>].  This development embeds

    - the classifier ([EXTENSION_CATEGORIES], [guess_category_by_mime],
      [get_category]),
    - the conflict resolver ([safe_destination]),
    - the relocator ([move_file], [organize_directory]),

    over a model of the parts of [pathlib], [shutil] and the file system that
    the script calls, and proves properties of them.

    Conventions.
    - A Python [str] is a [string], a sequence of bytes.  [PyStr.lower] is
      [str.lower] on the strings of ASCII characters ([PyStr.isascii]);
      the statements about a lower-cased extension are made for those.
    - A [pathlib.Path] is the list of its [parts]; an absolute path starts
      with the part ["/"].
    - [mimetypes.guess_type] depends on the host's configuration: it is a
      parameter [guess_type] of the development.
    - The file system is an association list from paths to nodes, in the
      order in which the operating system enumerates the entries.  The
      iterator of a run is the list of the entries below the target when
      the run starts; the lemmas about the loop ([organize_paths]) hold for
      any list of paths.
    - Every entry of the tree can be examined: [exists], [is_dir] and the
      enumeration of a directory return.  The errors that a missing
      permission or an over-long name give these calls are not modelled.
    - Statements that print are recorded as messages in the run's state;
      exceptions are explicit outcomes. *)

From Stdlib Require Import Ascii.
From stdpp Require Import base strings list gmap pretty.

(** ** Python strings *)

Module PyStr.

(** Truth value of a string: [if s:]. *)
Definition truthy (s : string) : bool := negb (String.eqb s "").

(** [a or b] on strings. *)
Definition or_else (a b : string) : string := if truthy a then a else b.

(** [s.startswith(pre)]. *)
Definition startswith (pre s : string) : bool := String.prefix pre s.

Definition lower_char (c : ascii) : ascii :=
  let n := nat_of_ascii c in
  if (65 <=? n)%nat && (n <=? 90)%nat then ascii_of_nat (n + 32) else c.

(** [s.lower()] for a string of ASCII characters: the letters A-Z are
    lowered, every other character is kept.  [str.lower] also lowers the
    cased characters outside ASCII, which this function leaves alone. *)
Fixpoint lower (s : string) : string :=
  match s with
  | EmptyString => EmptyString
  | String c s' => String (lower_char c) (lower s')
  end.

(** [s.isascii()]. *)
Fixpoint isascii (s : string) : bool :=
  match s with
  | EmptyString => true
  | String c s' => (nat_of_ascii c <? 128)%nat && isascii s'
  end.

(** [s.lstrip(c)] for a one-character argument. *)
Fixpoint lstrip (c : ascii) (s : string) : string :=
  match s with
  | EmptyString => EmptyString
  | String a s' => if Ascii.eqb a c then lstrip c s' else s
  end.

(** [s.rfind(c)]: the index of the last occurrence of [c]; Python's [-1]
    is [None]. *)
Fixpoint rfind (c : ascii) (s : string) : option nat :=
  match s with
  | EmptyString => None
  | String a s' =>
      match rfind c s' with
      | Some i => Some (S i)
      | None => if Ascii.eqb a c then Some 0%nat else None
      end
  end.

(** The slices [s[i:]] and [s[:i]]. *)
Definition slice_from (i : nat) (s : string) : string :=
  String.substring i (String.length s - i) s.
Definition slice_to (i : nat) (s : string) : string :=
  String.substring 0 i s.

(** ["sep".join(l)]. *)
Fixpoint join (sep : string) (l : list string) : string :=
  match l with
  | [] => ""
  | [x] => x
  | x :: l' => x +:+ sep +:+ join sep l'
  end.

(** [c] does not occur in [s]. *)
Fixpoint free_of (c : ascii) (s : string) : Prop :=
  match s with
  | EmptyString => True
  | String a s' => a ≠ c ∧ free_of c s'
  end.

End PyStr.

(** ** [pathlib.PurePosixPath] *)

Abbreviation Path := (list string).

Module Pathlib.
Import PyStr.

(** The anchor of an absolute POSIX path. *)
Definition is_anchor (s : string) : bool := String.eqb s "/".

Definition is_absolute (p : Path) : bool :=
  match p with
  | a :: _ => is_anchor a
  | [] => false
  end.

(** [p.parts]. *)
Definition parts (p : Path) : list string := p.

(** [p.name]: the last part, empty for the root and for ["."]. *)
Definition name (p : Path) : string :=
  match p with
  | [] => ""
  | [a] => if is_anchor a then "" else a
  | _ => default "" (last p)
  end.

(** [p.parent]: the root is its own parent, and so is ["."]. *)
Definition parent (p : Path) : Path :=
  match p with
  | [a] => if is_anchor a then p else []
  | _ => removelast p
  end.

(** [p.suffix]. *)
Definition suffix (p : Path) : string :=
  let name := name p in
  match rfind "."%char name with
  | Some i =>
      if (0 <? i)%nat && (i <? String.length name - 1)%nat
      then slice_from i name else ""
  | None => ""
  end.

(** [p.stem]. *)
Definition stem (p : Path) : string :=
  let name := name p in
  match rfind "."%char name with
  | Some i =>
      if (0 <? i)%nat && (i <? String.length name - 1)%nat
      then slice_to i name else name
  | None => name
  end.

(** [p / s] for a string [s] without separator, which is what the script
    joins: a category, an extension folder, a file name.  Joining [""] or
    ["."] gives [p] back. *)
Definition joinpath (p : Path) (s : string) : Path :=
  if String.eqb s "" || String.eqb s "." then p else p ++ [s].

(** [p.relative_to(other)]; [None] is Python's [ValueError]. *)
Definition relative_to (p other : Path) : option Path :=
  match other with
  | [] => if is_absolute p then None else Some p
  | _ =>
      if bool_decide (take (length other) p = other)
      then Some (drop (length other) p) else None
  end.

(** [str(p)]. *)
Definition str (p : Path) : string :=
  match p with
  | [] => "."
  | a :: rest => if is_anchor a then a +:+ join "/" rest else join "/" p
  end.

End Pathlib.

Infix "//" := Pathlib.joinpath (at level 40, left associativity).

(** ** The classifier *)

(** Mapping of extensions (lowercase, without dot) to category names. *)
Definition EXTENSION_CATEGORIES : gmap string string :=
list_to_map [
  (* Images *)
  ("jpg", "Images"); ("jpeg", "Images"); ("png", "Images"); ("gif", "Images");
  ("bmp", "Images"); ("webp", "Images"); ("tif", "Images"); ("tiff", "Images");
  ("svg", "Images"); ("ico", "Images");
  (* Videos *)
  ("mp4", "Videos"); ("mkv", "Videos"); ("mov", "Videos"); ("avi", "Videos");
  ("wmv", "Videos"); ("flv", "Videos"); ("webm", "Videos");
  (* Audio *)
  ("mp3", "Audio"); ("wav", "Audio"); ("flac", "Audio"); ("aac", "Audio");
  ("ogg", "Audio"); ("m4a", "Audio");
  (* Documents *)
  ("pdf", "Documents"); ("doc", "Documents"); ("docx", "Documents");
  ("xls", "Documents"); ("xlsx", "Documents"); ("ppt", "Documents");
  ("pptx", "Documents"); ("txt", "Documents"); ("md", "Documents");
  ("rtf", "Documents"); ("odt", "Documents");
  (* Archives *)
  ("zip", "Archives"); ("tar", "Archives"); ("gz", "Archives"); ("bz2", "Archives");
  ("7z", "Archives"); ("rar", "Archives");
  (* Code *)
  ("py", "Code"); ("js", "Code"); ("ts", "Code"); ("java", "Code"); ("c", "Code");
  ("cpp", "Code"); ("cs", "Code"); ("go", "Code"); ("rb", "Code"); ("rs", "Code");
  ("php", "Code"); ("html", "Code"); ("css", "Code"); ("json", "Code"); ("xml", "Code");
  ("sh", "Code"); ("ps1", "Code")
].

(** The tuples that [guess_category_by_mime] tests membership in. *)
Definition archive_types : list string :=
  ["application/zip"; "application/x-tar"].
Definition document_types : list string :=
  ["application/pdf"; "text/plain"; "text/html"; "application/msword"].

Section Classifier.
Import PyStr Pathlib.

(** [mimetypes.guess_type(s)[0]]. *)
Variable guess_type : string → option string.

Definition guess_category_by_mime (path : Path) : string :=
  match guess_type (str path) with
  | Some mime =>
      if truthy mime then
        if startswith "image/" mime then "Images"
        else if startswith "video/" mime then "Videos"
        else if startswith "audio/" mime then "Audio"
        else if bool_decide (mime ∈ archive_types) then "Archives"
        else if bool_decide (mime ∈ document_types) then "Documents"
        else "Others"
      else "Others"
  | None => "Others"
  end.

(** The extension that [get_category] computes first. *)
Definition extension (path : Path) : string :=
  if truthy (suffix path) then lstrip "."%char (lower (suffix path)) else "".

(** Return (category, extension_folder_name) for a file Path. *)
Definition get_category (path : Path) : string * string :=
  let ext := extension path in
  if truthy ext then
    let by_mime :=
      (* Try mime-based guess for uncommon extensions *)
      let category_by_mime := guess_category_by_mime path in
      if negb (String.eqb category_by_mime "Others")
      then (category_by_mime, or_else ext "unknown")
      else ("Others", or_else ext "unknown") in
    match EXTENSION_CATEGORIES !! ext with
    | Some category => if truthy category then (category, ext) else by_mime
    | None => by_mime
    end
  else
    (* No extension: try mime then fall back to Others *)
    (guess_category_by_mime path, "no_ext").

End Classifier.

(** The category that the specification assigns to a content type: by prefix
  for images, videos and audio, by membership for archives and documents,
  [Others] for anything else and when no type is known. *)
Inductive content_type_category : option string → string → Prop :=
| category_image mime :
    PyStr.startswith "image/" mime = true →
    content_type_category (Some mime) "Images"
| category_video mime :
    PyStr.startswith "video/" mime = true →
    content_type_category (Some mime) "Videos"
| category_audio mime :
    PyStr.startswith "audio/" mime = true →
    content_type_category (Some mime) "Audio"
| category_archive mime :
    mime ∈ archive_types → content_type_category (Some mime) "Archives"
| category_document mime :
    mime ∈ document_types → content_type_category (Some mime) "Documents"
| category_other mime :
    PyStr.startswith "image/" mime = false →
    PyStr.startswith "video/" mime = false →
    PyStr.startswith "audio/" mime = false →
    mime ∉ archive_types → mime ∉ document_types →
    content_type_category (Some mime) "Others"
| category_no_type : content_type_category None "Others".

(** Two content-type oracles for the examples: one that knows no type, and
  one that answers with the same type for every name. *)
Definition no_type : string → option string := λ _, None.
Definition always (mime : string) : string → option string := λ _, Some mime.


(** ** The file system *)

(** A node is a regular file or a directory; a directory records whether
  entries may be created in it and removed from it (its write permission). *)
Inductive node : Type :=
| File
| Dir (writable : bool).

#[global] Instance node_eq_dec : EqDecision node.
Proof. solve_decision. Defined.

(** The entries of the tree, in the order in which the operating system
  enumerates them. *)
Abbreviation FS := (list (Path * node)).

(** The exceptions that the modelled calls raise. *)
Inductive exn : Type :=
| ValueError
| FileExistsError
| FileNotFoundError
| NotADirectoryError
| IsADirectoryError
| PermissionError
| OSError            (* any other errno: ENOTEMPTY, EINVAL *)
| SameFileError
| ShutilError        (* shutil.Error *)
| RecursionError.

#[global] Instance exn_eq_dec : EqDecision exn.
Proof. solve_decision. Defined.

Module Fs.
Import Pathlib.

Fixpoint lookup (fs : FS) (p : Path) : option node :=
  match fs with
  | [] => None
  | (q, n) :: fs' => if bool_decide (q = p) then Some n else lookup fs' p
  end.

(** Replace the node at [p], or add the entry at the end. *)
Fixpoint insert (fs : FS) (p : Path) (n : node) : FS :=
  match fs with
  | [] => [(p, n)]
  | (q, m) :: fs' =>
      if bool_decide (q = p) then (q, n) :: fs' else (q, m) :: insert fs' p n
  end.

Definition remove (fs : FS) (p : Path) : FS :=
  filter (λ e, e.1 ≠ p) fs.

(** [p.exists()] and [p.is_dir()], for a path that can be examined: both
    return. *)
Definition exists_ (fs : FS) (p : Path) : bool :=
  match lookup fs p with Some _ => true | None => false end.
Definition is_dir (fs : FS) (p : Path) : bool :=
  match lookup fs p with Some (Dir _) => true | _ => false end.

Definition writable_dir (fs : FS) (d : Path) : bool :=
  match lookup fs d with Some (Dir w) => w | _ => false end.

(** [q] is [p] or lies below [p]. *)
Definition under (p q : Path) : bool :=
  bool_decide (take (length p) q = p).

(** Move the subtree at [src] to [dst]. *)
Definition rekey (src dst : Path) (fs : FS) : FS :=
  map (λ e, if under src e.1 then (dst ++ drop (length src) e.1, e.2) else e) fs.

Definition has_children (fs : FS) (p : Path) : bool :=
  existsb (λ e, under p e.1 && negb (bool_decide (e.1 = p))) fs.

(** [os.mkdir(p)]. *)
Definition os_mkdir (fs : FS) (p : Path) : exn + FS :=
  match lookup fs p with
  | Some _ => inl FileExistsError
  | None =>
      match lookup fs (parent p) with
      | None => inl FileNotFoundError
      | Some File => inl NotADirectoryError
      | Some (Dir w) =>
          if w then inr (insert fs p (Dir true)) else inl PermissionError
      end
  end.

(** [Path.mkdir(parents, exist_ok)], which calls itself on the parent when
    [os.mkdir] reports a missing directory. *)
Fixpoint mkdir_rec (fuel : nat) (fs : FS) (p : Path) (parents exist_ok : bool)
  : option (exn + FS) :=
  match fuel with
  | O => None
  | S fuel' =>
      match os_mkdir fs p with
      | inr fs' => Some (inr fs')
      | inl FileNotFoundError =>
          if negb parents || bool_decide (parent p = p)
          then Some (inl FileNotFoundError)
          else
            match mkdir_rec fuel' fs (parent p) true true with
            | Some (inr fs') => mkdir_rec fuel' fs' p false exist_ok
            | r => r
            end
      | inl e =>
          if negb exist_ok || negb (is_dir fs p) then Some (inl e)
          else Some (inr fs)
      end
  end.

Definition mkdir (fs : FS) (p : Path) (parents exist_ok : bool) : exn + FS :=
  match mkdir_rec (S (length p)) fs p parents exist_ok with
  | Some r => r
  | None => inl RecursionError
  end.

(** [os.rename(src, dst)]. *)
Definition os_rename (fs : FS) (src dst : Path) : exn + FS :=
  match lookup fs src with
  | None => inl FileNotFoundError
  | Some n =>
      if bool_decide (src = dst) then inr fs
      else
        match lookup fs (parent dst) with
        | None => inl FileNotFoundError
        | Some File => inl NotADirectoryError
        | Some (Dir wd) =>
            let go (fs : FS) :=
              if wd && writable_dir fs (parent src)
              then inr (rekey src dst fs) else inl PermissionError in
            match n, lookup fs dst with
            | _, None => go fs
            | File, Some File => go (remove fs dst)
            | File, Some (Dir _) => inl IsADirectoryError
            | Dir _, Some File => inl NotADirectoryError
            | Dir _, Some (Dir _) =>
                if under src dst then inl OSError
                else if has_children fs dst then inl OSError
                else go (remove fs dst)
            end
        end
  end.

(** [shutil.copy2(src, dst)] for a [dst] that is not a directory. *)
Definition copy2 (fs : FS) (src dst : Path) : exn + FS :=
  match lookup fs src with
  | None => inl FileNotFoundError
  | Some (Dir _) => inl IsADirectoryError
  | Some File =>
      if bool_decide (src = dst) then inl SameFileError
      else
        match lookup fs dst with
        | Some File => inr fs
        | Some (Dir _) => inl IsADirectoryError
        | None =>
            match lookup fs (parent dst) with
            | None => inl FileNotFoundError
            | Some File => inl NotADirectoryError
            | Some (Dir w) =>
                if w then inr (insert fs dst File) else inl PermissionError
            end
        end
  end.

(** [os.unlink(p)]. *)
Definition os_unlink (fs : FS) (p : Path) : exn + FS :=
  match lookup fs p with
  | None => inl FileNotFoundError
  | Some (Dir _) => inl IsADirectoryError
  | Some File =>
      if writable_dir fs (parent p) then inr (remove fs p)
      else inl PermissionError
  end.

(** [p] lies strictly below [target]; [p] is an entry of [target]. *)
Definition below (target p : Path) : bool :=
  match relative_to p target with
  | Some (_ :: _) => true
  | _ => false
  end.
Definition entry_of (target p : Path) : bool :=
  match relative_to p target with
  | Some [_] => true
  | _ => false
  end.

(** [target.rglob('*')] and [target.iterdir()], read off the tree, for
    directories that can be read. *)
Definition rglob (fs : FS) (target : Path) : list Path :=
  filter (λ p, below target p) fs.*1.
Definition iterdir (fs : FS) (target : Path) : list Path :=
  filter (λ p, entry_of target p) fs.*1.

End Fs.

(** ** Runs: state, output and exceptions *)

(** What the script prints. *)
Inductive message : Type :=
| Skipping_hidden (p : Path)           (* Skipping hidden file: p *)
| Skipping_category (p : Path)         (* Skipping (already in category folder) *)
| Would_move (src dest : Path)         (* DRY-RUN: would move: src -> dest *)
| Moving (src dest : Path)             (* Moving: src -> dest *)
| Error_moving (src dest : Path) (e : exn).  (* on stderr *)

(** One call of [move_file]: the source, the destination after conflict
  resolution, and whether the call was a dry run. *)
Record MoveRecord : Type := Build_record {
  source : Path;
  destination : Path;
  simulated : bool
}.

(** The state of a run: the tree, the lines printed so far, and the calls of
  [move_file] so far (a trace kept for the statements below; the script
  itself keeps none). *)
Record state : Type := Build_state {
  st_fs : FS;
  st_out : list message;
  st_records : list MoveRecord
}.

Inductive outcome (A : Type) : Type :=
| Returned (a : A)
| Raised (e : exn)
| Diverged.
Arguments Returned {A} a.
Arguments Raised {A} e.
Arguments Diverged {A}.

Definition M (A : Type) : Type := state → state * outcome A.

#[global] Instance M_ret : MRet M := λ A a st, (st, Returned a).
#[global] Instance M_bind : MBind M := λ A B f m st,
  match m st with
  | (st', Returned a) => f a st'
  | (st', Raised e) => (st', Raised e)
  | (st', Diverged) => (st', Diverged)
  end.

Module Run.

Definition raise {A} (e : exn) : M A := λ st, (st, Raised e).
Definition diverge {A} : M A := λ st, (st, Diverged).

(** [try: body except <catches>: handler]. *)
Definition try_except {A} (catches : exn → bool) (body : M A)
    (handler : exn → M A) : M A := λ st,
  match body st with
  | (st', Raised e) => if catches e then handler e st' else (st', Raised e)
  | r => r
  end.

Definition get_fs : M FS := λ st, (st, Returned (st_fs st)).

(** A call that changes the tree or raises. *)
Definition syscall (f : FS → exn + FS) : M unit := λ st,
  match f (st_fs st) with
  | inr fs' => (Build_state fs' (st_out st) (st_records st), Returned tt)
  | inl e => (st, Raised e)
  end.

Definition print (m : message) : M unit := λ st,
  (Build_state (st_fs st) (st_out st ++ [m]) (st_records st), Returned tt).

Definition log (r : MoveRecord) : M unit := λ st,
  (Build_state (st_fs st) (st_out st) (st_records st ++ [r]), Returned tt).

Definition when (b : bool) (m : M unit) : M unit := if b then m else mret tt.

(** [for x in l: body x]. *)
Fixpoint for_each {A} (l : list A) (body : A → M unit) : M unit :=
  match l with
  | [] => mret tt
  | x :: l' => body x ;; for_each l' body
  end.

(** [except OSError] and [except Exception]. *)
Definition is_OSError (e : exn) : bool :=
  match e with
  | ValueError | RecursionError => false
  | _ => true
  end.
Definition is_Exception (e : exn) : bool := true.

End Run.

(** [shutil.move(src, dst)].  At every call from [organize_directory] the
  source is not a directory.  For a source that is one, the model renames
  the subtree when [os.rename] accepts that; it does not model the copy of
  a tree that [shutil.move] falls back to, and raises the error of
  [os.rename] instead. *)
Definition shutil_move (src dst : Path) : M unit :=
  fs ← Run.get_fs;
  if Fs.is_dir fs dst && bool_decide (src = dst) then
    Run.syscall (λ fs, Fs.os_rename fs src dst)
  else
    real_dst ← (if Fs.is_dir fs dst then
                  let real_dst := dst // Pathlib.name src in
                  if Fs.exists_ fs real_dst then Run.raise ShutilError
                  else mret real_dst
                else mret dst);
    Run.try_except Run.is_OSError
      (Run.syscall (λ fs, Fs.os_rename fs src real_dst))
      (λ e,
        fs ← Run.get_fs;
        if Fs.is_dir fs src then Run.raise e
        else
          Run.syscall (λ fs, Fs.copy2 fs src real_dst) ;;
          Run.syscall (λ fs, Fs.os_unlink fs src)).

(** ** The conflict resolver *)

(** [parent / f"{stem} ({i}){suffix}"]. *)
Definition numbered (dest : Path) (i : nat) : Path :=
  Pathlib.parent dest //
    (Pathlib.stem dest +:+ " (" +:+ pretty i +:+ ")" +:+ Pathlib.suffix dest).

(** The [while True] loop of [safe_destination], for [fuel] iterations. *)
Fixpoint safe_destination_loop (fuel : nat) (fs : FS) (dest : Path) (i : nat)
  : option Path :=
  match fuel with
  | O => None
  | S fuel' =>
      let candidate := numbered dest i in
      if negb (Fs.exists_ fs candidate) then Some candidate
      else safe_destination_loop fuel' fs dest (S i)
  end.

(** If dest exists and overwrite is False, append numeric suffix before
  extension.  The loop is given one iteration more than the tree has
  entries; [None] would mean that it is still running after them. *)
Definition safe_destination (fs : FS) (dest : Path) (overwrite : bool)
  : option Path :=
  if overwrite || negb (Fs.exists_ fs dest) then Some dest
  else safe_destination_loop (S (length fs)) fs dest 1.

(** ** The relocator *)

(** The names that the already-organized test accepts as category folders:
    [set(EXTENSION_CATEGORIES.values()).union({...})]. *)
Definition category_folders : gset string :=
  list_to_set (map_to_list EXTENSION_CATEGORIES).*2
    ∪ {["Documents"; "Images"; "Videos"; "Audio"; "Archives"; "Code";
        "Others"]}.

Section Relocator.
Import PyStr Pathlib.

Variable guess_type : string → option string.

Definition move_file (src dest : Path) (dry_run overwrite verbose : bool)
  : M unit :=
  fs ← Run.get_fs;
  match safe_destination fs dest overwrite with
  | None => Run.diverge
  | Some dest =>
      Run.log (Build_record src dest dry_run) ;;
      Run.when (verbose || dry_run)
        (Run.print (if dry_run then Would_move src dest else Moving src dest)) ;;
      if dry_run then mret tt
      else
        Run.syscall (λ fs, Fs.mkdir fs (parent dest) true true) ;;
        Run.try_except Run.is_Exception
          (shutil_move src dest)
          (λ e, Run.print (Error_moving src dest e))
  end.

(** [any(part.startswith('.') for part in p.parts)]. *)
Definition has_hidden_part (p : Path) : bool :=
  existsb (startswith ".") (parts p).

(** The test of lines 148-161: [p] is not directly in [target] and its
    first part relative to [target] is a category folder. *)
Definition in_category_folder (target p : Path) : bool :=
  if bool_decide (parent p = target) then false   (* top-level files are fine *)
  else
    match relative_to p target with
    | Some rel =>
        (2 <=? length (parts rel))%nat
        && match parts rel !! 0%nat with
           | Some first => bool_decide (first ∈ category_folders)
           | None => false
           end
    | None => false
    end.

(** Lines 163-166: the destination
    [<target>/<Category>/<ext_folder>/<filename>] built for [p]. *)
Definition planned_destination (target p : Path) : Path :=
  let '(category, ext_folder) := get_category guess_type p in
  let dest_dir := target // category // ext_folder in
  dest_dir // name p.

(** The body of the loop of [organize_directory]. *)
Definition visit (target : Path)
    (dry_run overwrite verbose skip_hidden : bool) (p : Path) : M unit :=
  fs ← Run.get_fs;
  (* Skip directories *)
  if Fs.is_dir fs p then mret tt
  (* Optionally skip hidden files *)
  else if skip_hidden && has_hidden_part p then
    Run.when verbose (Run.print (Skipping_hidden p))
  (* Skip files inside the category folders *)
  else if in_category_folder target p then
    Run.when verbose (Run.print (Skipping_category p))
  else
    move_file p (planned_destination target p) dry_run overwrite verbose.

(** The loop over the paths that the iterator yields. *)
Definition organize_paths (target : Path)
    (dry_run overwrite verbose skip_hidden : bool) (ps : list Path) : M unit :=
  Run.for_each ps (visit target dry_run overwrite verbose skip_hidden).

(** Choose iterator.  The list is read off the tree as it is when the run
    starts. *)
Definition iterator (fs : FS) (target : Path) (recursive : bool) : list Path :=
  if recursive then Fs.rglob fs target else Fs.iterdir fs target.

Definition organize_directory (target : Path)
    (recursive dry_run overwrite verbose skip_hidden : bool) : M unit :=
  fs ← Run.get_fs;
  if negb (Fs.exists_ fs target) || negb (Fs.is_dir fs target) then
    Run.raise ValueError
  else
    organize_paths target dry_run overwrite verbose skip_hidden
      (iterator fs target recursive).

End Relocator.

(** ** Notions used in the statements *)

(** The fixed category names of the specification. *)
Definition category_names : list string :=
  ["Images"; "Videos"; "Audio"; "Documents"; "Archives"; "Code"; "Others"].

(** A computation that leaves the printed lines and the trace alone, and
    returns or raises. *)
Definition silent {A : Type} (m : M A) : Prop :=
  ∀ st, st_out (m st).1 = st_out st
        ∧ st_records (m st).1 = st_records st
        ∧ (m st).2 ≠ Diverged.

(** The state after the record and the line of [move_file]. *)
Definition announced (dry_run verbose : bool) (src d : Path) (st : state)
  : state :=
  Build_state (st_fs st)
    (if verbose || dry_run
     then st_out st ++ [if dry_run then Would_move src d else Moving src d]
     else st_out st)
    (st_records st ++ [Build_record src d dry_run]).

(** Sample trees for the examples, all below the target [/root]. *)
Definition root : Path := ["/"; "root"].

(** Two files of the same name, one of them in a subdirectory. *)
Definition fs_twins : FS :=
  [ (["/"], Dir true); (root, Dir true);
    (root ++ ["a.txt"], File); (root ++ ["sub"], Dir true);
    (root ++ ["sub"; "a.txt"], File) ].

(** A hidden file beside a picture. *)
Definition fs_hidden : FS :=
  [ (["/"], Dir true); (root, Dir true);
    (root ++ [".hidden.txt"], File); (root ++ ["a.jpg"], File) ].

(** A category folder in which no entry may be created. *)
Definition fs_readonly : FS :=
  [ (["/"], Dir true); (root, Dir true); (root ++ ["Images"], Dir false);
    (root ++ ["a.jpg"], File); (root ++ ["b.txt"], File) ].

(** A file that has the name of a category folder. *)
Definition fs_others : FS :=
  [ (["/"], Dir true); (root, Dir true);
    (root ++ ["Others"], File); (root ++ ["b.txt"], File) ].

(** A target from which no entry may be removed; the folders of the
    destinations are there already. *)
Definition fs_locked_source : FS :=
  [ (["/"], Dir true); (root, Dir false); (root ++ ["Images"], Dir true);
    (root ++ ["Images"; "jpg"], Dir true); (root ++ ["Documents"], Dir true);
    (root ++ ["Documents"; "txt"], Dir true);
    (root ++ ["a.jpg"], File); (root ++ ["b.txt"], File) ].

(** The tree of the end-to-end example of the specification. *)
Definition fs_spec : FS :=
  [ (["/"], Dir true); (root, Dir true);
    (root ++ ["a.jpg"], File); (root ++ ["b.unknownext"], File);
    (root ++ [".hidden.txt"], File); (root ++ ["notes"], File) ].

(** A target below a directory whose name starts with a dot. *)
Definition dot_target : Path := ["/"; "home"; ".config"; "stuff"].
Definition fs_dot_target : FS :=
  [ (["/"], Dir true); (["/"; "home"], Dir true);
    (["/"; "home"; ".config"], Dir true); (dot_target, Dir true);
    (dot_target ++ ["a.jpg"], File); (dot_target ++ ["docs"], Dir true);
    (dot_target ++ ["docs"; "b.txt"], File) ].

(** A run from a tree, with nothing printed yet. *)
Definition start (fs : FS) : state := Build_state fs [] [].

(** The (source, resolved destination) decisions of a run. *)
Definition decision (r : MoveRecord) : Path * Path := (source r, destination r).
Definition decisions (st : state) : list (Path * Path) :=
  decision <$> st_records st.

(** The three tests of the loop, on a given tree: [p] is not a directory,
    is not skipped as hidden, and is not in a category folder. *)
Definition eligible (fs : FS) (target : Path) (skip_hidden : bool) (p : Path)
  : bool :=
  negb (Fs.is_dir fs p)
  && negb (skip_hidden && has_hidden_part p)
  && negb (in_category_folder target p).

(** The decisions of a pass that resolves every candidate of [ps] against
    the one tree [fs]: the eligible paths, in order, each with what
    [safe_destination] returns on [fs] for its planned destination. *)
Definition plan (guess_type : string → option string) (fs : FS)
    (target : Path) (overwrite skip_hidden : bool) (ps : list Path)
  : list (Path * Path) :=
  omap (λ p, if eligible fs target skip_hidden p
             then (λ d, (p, d))
                    <$> safe_destination fs
                          (planned_destination guess_type target p) overwrite
             else None) ps.

(** A name that an entry of a directory can have. *)
Definition real_name (s : string) : bool :=
  negb (String.eqb s "") && negb (String.eqb s ".").

(** A tree as a file system has it: no path is listed twice, and every
    entry other than a root lies in a directory and has a name. *)
Definition well_formed (fs : FS) : bool :=
  bool_decide (NoDup fs.*1)
  && forallb (λ k, bool_decide (Pathlib.parent k = k)
                   || (Fs.is_dir fs (Pathlib.parent k)
                       && real_name (Pathlib.name k))) fs.*1.

(** Every entry other than a root lies in a directory. *)
Definition closed (fs : FS) : Prop :=
  ∀ q, is_Some (Fs.lookup fs q) →
       Pathlib.parent q = q ∨ Fs.is_dir fs (Pathlib.parent q) = true.

(** What a move of the file [p] to [d] may have changed: the entry at [p]
    is gone, a file is at [d] (or in [d], under the name of [p]), and
    writable directories are new above [d]. *)
Definition moved (p d : Path) (fs fs' : FS) : Prop :=
  ∀ q, Fs.lookup fs' q = Fs.lookup fs q
       ∨ (q = p ∧ Fs.lookup fs' q = None)
       ∨ ((q = d ∨ q = d // Pathlib.name p) ∧ Fs.lookup fs' q = Some File)
       ∨ (Fs.lookup fs q = None ∧ Fs.lookup fs' q = Some (Dir true)
          ∧ Fs.under q (Pathlib.parent d) = true).

(** * Properties *)

(** ** Strings *)

Module PyStrFacts.
Import PyStr.

Lemma str_app_cons (c : ascii) (s t : string) :
  String c s +:+ t = String c (s +:+ t).
Proof. reflexivity. Qed.

Lemma str_app_nil_l (t : string) : "" +:+ t = t.
Proof. reflexivity. Qed.

Lemma str_length_app (s t : string) :
  String.length (s +:+ t) = String.length s + String.length t.
Proof.
  induction s as [|c s IH]; [done |]. rewrite str_app_cons. simpl. by rewrite IH.
Qed.

Lemma str_app_assoc (s t u : string) : (s +:+ t) +:+ u = s +:+ t +:+ u.
Proof.
  induction s as [|c s IH]; [done |]. by rewrite !str_app_cons, IH.
Qed.

(** Cancellation on the right, by the lengths. *)
Lemma str_app_inv_tail (s1 s2 t : string) : s1 +:+ t = s2 +:+ t → s1 = s2.
Proof.
  revert s2. induction s1 as [|c s1 IH]; intros [|d s2] H.
  - done.
  - apply (f_equal String.length) in H.
    rewrite str_app_nil_l, str_app_cons in H. simpl in H.
    rewrite str_length_app in H. lia.
  - apply (f_equal String.length) in H.
    rewrite str_app_nil_l, str_app_cons in H. simpl in H.
    rewrite str_length_app in H. lia.
  - rewrite !str_app_cons in H. injection H as -> H. f_equal. by apply IH.
Qed.

Lemma truthy_true (s : string) : truthy s = true ↔ s ≠ "".
Proof.
  unfold truthy. destruct (String.eqb_spec s ""); simpl; split; congruence.
Qed.

Lemma truthy_false (s : string) : truthy s = false ↔ s = "".
Proof.
  unfold truthy. destruct (String.eqb_spec s ""); simpl; split; congruence.
Qed.

Lemma or_else_truthy (a b : string) : a ≠ "" → or_else a b = a.
Proof. intros H. unfold or_else. by rewrite (proj2 (truthy_true a) H). Qed.

(** *** [rfind] *)

Lemma rfind_free (c : ascii) (s : string) : free_of c s ↔ rfind c s = None.
Proof.
  induction s as [|a s IH]; simpl; [done |].
  destruct (rfind c s) as [i|] eqn:E.
  - split; [intros [_ H]; apply IH in H; done | done].
  - destruct (Ascii.eqb_spec a c) as [->|Hne]; split; try done.
    + by intros [? _].
    + intros _. split; [done | by apply IH].
Qed.

Lemma rfind_Some_lt (c : ascii) (s : string) (i : nat) :
  rfind c s = Some i → i < String.length s.
Proof.
  revert i. induction s as [|a s IH]; intros i; simpl; [done |].
  destruct (rfind c s) as [j|].
  - intros [= <-]. specialize (IH j eq_refl). lia.
  - destruct (Ascii.eqb a c); [intros [= <-]; lia | done].
Qed.

(** The last occurrence of [c] in [s c e] is the one shown when [e] has
    none. *)
Lemma rfind_app (c : ascii) (s e : string) :
  free_of c e → rfind c (s +:+ String c e) = Some (String.length s).
Proof.
  intros He. induction s as [|a s IH].
  - rewrite str_app_nil_l. simpl.
    apply rfind_free in He. rewrite He. by rewrite Ascii.eqb_refl.
  - rewrite str_app_cons. simpl. by rewrite IH.
Qed.

(** A last occurrence at index 0 means a leading [c] and no other. *)
Lemma rfind_0 (c : ascii) (s : string) :
  rfind c s = Some 0 ↔ ∃ rest, s = String c rest ∧ free_of c rest.
Proof.
  destruct s as [|a s]; simpl.
  - split; [done | by intros (? & ? & _)].
  - destruct (rfind c s) as [j|] eqn:E.
    + split; [done |]. intros (rest & [= -> ->] & Hf).
      apply rfind_free in Hf. congruence.
    + destruct (Ascii.eqb_spec a c) as [->|Hne].
      * split; [| done]. intros _. exists s. split; [done|]. by apply rfind_free.
      * split; [done |]. by intros (rest & [= -> ->] & _).
Qed.

(** *** Slices *)

Lemma substring_0_length (s : string) :
  String.substring 0 (String.length s) s = s.
Proof. induction s as [|a s IH]; simpl; [done | by rewrite IH]. Qed.

Lemma slice_from_app (s t : string) : slice_from (String.length s) (s +:+ t) = t.
Proof.
  unfold slice_from. rewrite str_length_app.
  replace (String.length s + String.length t - String.length s)
    with (String.length t) by lia.
  induction s as [|a s IH]; [apply substring_0_length | done].
Qed.

Lemma slice_to_app (s t : string) : slice_to (String.length s) (s +:+ t) = s.
Proof.
  unfold slice_to. induction s as [|a s IH].
  - by destruct t.
  - rewrite str_app_cons. simpl. by rewrite IH.
Qed.

(** *** [lower] and [lstrip] *)

Lemma lower_app (s t : string) : lower (s +:+ t) = lower s +:+ lower t.
Proof.
  induction s as [|a s IH]; [done |]. rewrite str_app_cons. simpl.
  by rewrite IH, str_app_cons.
Qed.

Lemma lower_char_dot (a : ascii) : lower_char a = "."%char ↔ a = "."%char.
Proof.
  split; [| by intros ->].
  destruct a as [[] [] [] [] [] [] [] []]; vm_compute; congruence.
Qed.

Lemma lower_free_of_dot (s : string) :
  free_of "." s → free_of "." (lower s).
Proof.
  induction s as [|a s IH]; simpl; [done |].
  intros [Ha Hs]. split; [| by apply IH].
  intros H. by apply Ha, lower_char_dot.
Qed.

Lemma lower_eq_nil (s : string) : lower s = "" ↔ s = "".
Proof. by destruct s. Qed.

Lemma lstrip_free (c : ascii) (s : string) : free_of c s → lstrip c s = s.
Proof.
  destruct s as [|a s]; simpl; [done |]. intros [Ha _].
  by destruct (Ascii.eqb_spec a c).
Qed.

(** *** [startswith] *)

Lemma startswith_app (pre s : string) :
  startswith pre s = true → ∃ t, s = pre +:+ t.
Proof.
  unfold startswith. revert s.
  induction pre as [|a pre IH]; intros s H; [by exists s |].
  destruct s as [|b s]; [done |]. simpl in H.
  destruct (ascii_dec a b) as [->|]; [| done].
  destruct (IH s H) as [t ->]. by exists t.
Qed.

End PyStrFacts.

(** ** Paths *)

Module PathlibFacts.
Import PyStr PyStrFacts Pathlib.

(** A name [st.e] with something before the dot and a dot-free, non-empty
    [e] after it splits into stem [st] and suffix [.e]. *)
Lemma suffix_stem_split (p : Path) (st e : string) :
  name p = st +:+ String "." e → st ≠ "" → e ≠ "" → free_of "." e →
  suffix p = String "." e ∧ stem p = st.
Proof.
  intros Hn Hst He Hfree. unfold suffix, stem. rewrite Hn.
  rewrite (rfind_app _ _ _ Hfree), str_length_app. simpl.
  assert (0 < String.length st) by (destruct st; [done | simpl; lia]).
  assert (0 < String.length e) by (destruct e; [done | simpl; lia]).
  rewrite (proj2 (Nat.ltb_lt _ _)) by lia.
  rewrite (proj2 (Nat.ltb_lt _ _)) by lia. simpl.
  by rewrite slice_from_app, slice_to_app.
Qed.

(** No dot in the name, or only a leading one: no suffix. *)
Lemma suffix_dotless (p : Path) :
  free_of "." (name p)
  ∨ (∃ rest, name p = String "." rest ∧ free_of "." rest) →
  suffix p = "".
Proof.
  intros [H|H]; unfold suffix.
  - apply rfind_free in H. by rewrite H.
  - apply rfind_0 in H. by rewrite H.
Qed.

(** A name that ends with its only dots has no suffix either. *)
Lemma suffix_trailing_dot (p : Path) (st : string) :
  name p = st +:+ "." → suffix p = "".
Proof.
  intros Hn. unfold suffix. rewrite Hn.
  rewrite (rfind_app "." st ""), str_length_app by done. simpl.
  rewrite (proj2 (Nat.ltb_ge _ (_ + 1 - 1))) by lia.
  by rewrite andb_false_r.
Qed.

Lemma suffix_shape (p : Path) :
  suffix p = "" ∨ ∃ e, suffix p = String "." e.
Proof.
  unfold suffix. destruct (rfind "." (name p)) as [i|] eqn:E; [| by left].
  destruct (_ && _); [| by left]. right.
  unfold slice_from.
  assert (∀ s i, rfind "." s = Some i →
    ∃ e, String.substring i (String.length s - i) s = String "." e) as Haux.
  { clear. induction s as [|a s IH]; intros i; simpl; [done |].
    destruct (rfind "." s) as [j|] eqn:E.
    - intros [= <-]. simpl. by apply IH.
    - destruct (Ascii.eqb_spec a ".") as [->|]; [| done].
      intros [= <-]. eauto. }
  by apply Haux.
Qed.

Lemma name_app_cons (p : Path) (x : string) (rest : list string) :
  rest ≠ [] → name (p ++ x :: rest) = default "" (last rest).
Proof.
  intros Hr. unfold name.
  destruct (p ++ x :: rest) as [|a [|b l]] eqn:E.
  - by destruct p.
  - destruct p as [|? [|]]; by simplify_eq/=.
  - rewrite <- E, last_app_cons. destruct rest; [done |].
    by rewrite last_cons_cons.
Qed.

End PathlibFacts.

(** ** The classifier *)

Lemma EXTENSION_CATEGORIES_truthy :
map_Forall (λ _ category, PyStr.truthy category = true) EXTENSION_CATEGORIES.
Proof. refine (bool_decide_unpack _ _). vm_compute. exact I. Qed.

Lemma EXTENSION_CATEGORIES_values :
map_Forall
  (λ _ category,
     category ∈ ["Images"; "Videos"; "Audio"; "Documents"; "Archives"; "Code"])
  EXTENSION_CATEGORIES.
Proof. refine (bool_decide_unpack _ _). vm_compute. exact I. Qed.

Section ClassifierFacts.
Import PyStr PyStrFacts Pathlib PathlibFacts.

Variable guess_type : string → option string.

Abbreviation guess_category_by_mime := (guess_category_by_mime guess_type).
Abbreviation get_category := (get_category guess_type).

Lemma extension_split (p : Path) (st e : string) :
  name p = st +:+ String "." e → st ≠ "" → e ≠ "" → free_of "." e →
  extension p = lower e.
Proof.
  intros Hn Hst He Hfree. unfold extension.
  destruct (suffix_stem_split p st e) as [-> _]; [done..|].
  simpl. apply lstrip_free. by apply lower_free_of_dot.
Qed.

Lemma extension_dotless (p : Path) :
  free_of "." (name p)
  ∨ (∃ rest, name p = String "." rest ∧ free_of "." rest) →
  extension p = "".
Proof. intros H. unfold extension. by rewrite (suffix_dotless p H). Qed.

(** The fall-back of [get_category]: whatever the inference says, the
    folder is the extension. *)
Lemma get_category_miss (p : Path) :
  extension p ≠ "" → EXTENSION_CATEGORIES !! extension p = None →
  get_category p = (guess_category_by_mime p, extension p).
Proof.
  intros He Hmiss. unfold get_category.
  rewrite (proj2 (truthy_true _) He), Hmiss, (or_else_truthy _ _ He).
  destruct (String.eqb_spec (guess_category_by_mime p) "Others") as [->|];
    done.
Qed.

(** The rules of [guess_category_by_mime]. *)
Lemma guess_category_by_mime_rules (p : Path) :
  (∀ mime, guess_type (str p) = Some mime →
     (startswith "image/" mime = true → guess_category_by_mime p = "Images")
     ∧ (startswith "video/" mime = true → guess_category_by_mime p = "Videos")
     ∧ (startswith "audio/" mime = true → guess_category_by_mime p = "Audio")
     ∧ (mime ∈ archive_types → guess_category_by_mime p = "Archives")
     ∧ (mime ∈ document_types → guess_category_by_mime p = "Documents")
     ∧ (startswith "image/" mime = false → startswith "video/" mime = false →
        startswith "audio/" mime = false → mime ∉ archive_types →
        mime ∉ document_types → guess_category_by_mime p = "Others"))
  ∧ (guess_type (str p) = None → guess_category_by_mime p = "Others").
Proof.
  unfold guess_category_by_mime. split; [| by intros ->].
  intros mime ->. repeat split.
  - intros [t ->]%startswith_app. by destruct t.
  - intros [t ->]%startswith_app. by destruct t.
  - intros [t ->]%startswith_app. by destruct t.
  - intros H. unfold archive_types in H.
    rewrite !elem_of_cons, elem_of_nil in H.
    destruct H as [->| [->|[]]]; done.
  - intros H. unfold document_types in H.
    rewrite !elem_of_cons, elem_of_nil in H.
    destruct H as [->| [->| [->| [->|[]]]]]; done.
  - intros -> -> -> Ha Hd.
    rewrite (bool_decide_eq_false_2 _ Ha), (bool_decide_eq_false_2 _ Hd).
    by destruct (truthy mime).
Qed.

End ClassifierFacts.

Section ClassifierClaims.
Import PyStr PyStrFacts Pathlib PathlibFacts.

Variable guess_type : string → option string.

Abbreviation guess_category_by_mime' := (guess_category_by_mime guess_type).
Abbreviation get_category' := (get_category guess_type).

(** C3, as amended.  A file name [st.e], with a non-empty [st] before its
    last dot and an extension [e] of ASCII characters whose lower-cased
    form is a key of the extension table, is classified as the table says,
    in the folder named by the lower-cased extension, whatever the
    content-type oracle answers. *)
Theorem get_category_recognized_extension
    (p : Path) (st e category : string) :
  name p = st +:+ "." +:+ e → st ≠ "" → free_of "." e →
  isascii e = true →
  EXTENSION_CATEGORIES !! lower e = Some category →
  get_category' p = (category, lower e).
Proof.
  intros Hn Hst Hfree _ Hkey.
  assert (e ≠ "") as He by (intros ->; done).
  unfold get_category.
  rewrite (extension_split p st e Hn Hst He Hfree).
  assert (lower e ≠ "") as Hl by (by rewrite lower_eq_nil).
  rewrite (proj2 (truthy_true _) Hl), Hkey.
  by rewrite (EXTENSION_CATEGORIES_truthy _ _ Hkey).
Qed.

(** C4, as amended.  A file name [st.e] with an extension [e] of ASCII
    characters whose lower-cased form is not a key of the table, and for
    which the inference answers [Others], is classified as [Others] in the
    folder named by the lower-cased extension. *)
Theorem get_category_unrecognized_others (p : Path) (st e : string) :
  name p = st +:+ "." +:+ e → st ≠ "" → e ≠ "" → free_of "." e →
  isascii e = true →
  EXTENSION_CATEGORIES !! lower e = None →
  guess_category_by_mime' p = "Others" →
  get_category' p = ("Others", lower e).
Proof.
  intros Hn Hst He Hfree _ Hmiss Hothers.
  pose proof (extension_split p st e Hn Hst He Hfree) as Hext.
  rewrite <- Hext in *.
  rewrite get_category_miss, Hothers; [done | | done].
  rewrite Hext. by rewrite lower_eq_nil.
Qed.

Lemma guess_category_by_mime_category (p : Path) :
  content_type_category (guess_type (str p)) (guess_category_by_mime' p).
Proof.
  destruct (guess_category_by_mime_rules guess_type p) as [Hsome Hnone].
  destruct (guess_type (str p)) as [mime|] eqn:E.
  - destruct (Hsome mime eq_refl) as (Hi & Hv & Ha & Har & Hd & Ho).
    destruct (startswith "image/" mime) eqn:Ei;
      [rewrite Hi by done; by constructor |].
    destruct (startswith "video/" mime) eqn:Ev;
      [rewrite Hv by done; by constructor |].
    destruct (startswith "audio/" mime) eqn:Ea;
      [rewrite Ha by done; by constructor |].
    destruct (decide (mime ∈ archive_types));
      [rewrite Har by done; by constructor |].
    destruct (decide (mime ∈ document_types));
      [rewrite Hd by done; by constructor |].
    rewrite Ho by done. by constructor.
  - rewrite Hnone by done. constructor.
Qed.

(** C5.  A path whose name has no dot, or only a leading one, is put in
    the folder [no_ext] of the category inferred from its content type,
    and the inferred category follows the rules of the specification. *)
Theorem get_category_no_extension (p : Path) :
  free_of "." (name p)
  ∨ (∃ rest, name p = "." +:+ rest ∧ free_of "." rest) →
  get_category' p = (guess_category_by_mime' p, "no_ext")
  ∧ content_type_category (guess_type (str p)) (guess_category_by_mime' p).
Proof.
  intros H. split; [| apply guess_category_by_mime_category].
  unfold get_category. by rewrite (extension_dotless p H).
Qed.

End ClassifierClaims.

Lemma get_category_recognized_extension_witness :
get_category (always "video/mp4") ["/"; "home"; "Photo.JPG"]
= ("Images", "jpg").
Proof.
apply (get_category_recognized_extension (always "video/mp4")
         ["/"; "home"; "Photo.JPG"] "Photo" "JPG" "Images").
- reflexivity.
- discriminate.
- vm_compute. repeat split; discriminate.
- vm_compute. reflexivity.
- vm_compute. reflexivity.
Defined.

(** C3, as stated: the substring after the last dot of [.jpg] is a key of
    the table, but the name has no suffix, so the table is not consulted
    for it: the folder is [no_ext], whatever the oracle answers. *)
Lemma get_category_leading_dot_counterexample :
let p := ["/"; "home"; ".jpg"] in
Pathlib.name p = "" +:+ "." +:+ "jpg"
∧ EXTENSION_CATEGORIES !! PyStr.lower "jpg" = Some "Images"
∧ get_category no_type p = ("Others", "no_ext")
∧ get_category (always "image/jpeg") p = ("Images", "no_ext")
∧ get_category no_type p ≠ ("Images", "jpg")
∧ get_category (always "image/jpeg") p ≠ ("Images", "jpg").
Proof. vm_compute. repeat split; discriminate. Qed.

(** The policy for a leading dot: [.jpg] has no extension. *)
Example get_category_leading_dot :
get_category no_type ["/"; "home"; ".jpg"] = ("Others", "no_ext").
Proof. vm_compute. reflexivity. Qed.

Example get_category_last_suffix :
get_category no_type ["/"; "home"; "backup.tar.gz"] = ("Archives", "gz").
Proof. vm_compute. reflexivity. Qed.

(** C4, as stated: the marker [unknown] is not what the fall-back returns. *)
Lemma get_category_unknown_counterexample :
let p := ["/"; "root"; "b.unknownext"] in
Pathlib.name p = "b" +:+ "." +:+ "unknownext"
∧ EXTENSION_CATEGORIES !! PyStr.lower "unknownext" = None
∧ guess_category_by_mime no_type p = "Others"
∧ get_category no_type p = ("Others", "unknownext")
∧ (get_category no_type p).2 ≠ "unknown".
Proof. vm_compute. repeat split; discriminate. Qed.

Lemma get_category_unrecognized_others_witness :
get_category no_type ["/"; "root"; "b.unknownext"] = ("Others", "unknownext").
Proof.
apply (get_category_unrecognized_others no_type
         ["/"; "root"; "b.unknownext"] "b" "unknownext").
- reflexivity.
- discriminate.
- discriminate.
- vm_compute. repeat split; discriminate.
- vm_compute. reflexivity.
- vm_compute. reflexivity.
- vm_compute. reflexivity.
Defined.

Lemma get_category_no_extension_witness :
get_category (always "text/plain") ["/"; "root"; "notes"]
= ("Documents", "no_ext").
Proof.
refine (proj1 (get_category_no_extension (always "text/plain")
                 ["/"; "root"; "notes"] _)).
left. vm_compute. repeat split; discriminate.
Defined.

(** ** The file system *)

Module FsFacts.
Import Pathlib Fs.

Lemma lookup_Some_elem (fs : FS) (p : Path) (n : node) :
  lookup fs p = Some n → p ∈ fs.*1.
Proof.
  induction fs as [|[q m] fs IH]; simpl; [done |].
  case_bool_decide as Hq; [intros _; subst; left | right; auto].
Qed.

Lemma exists_elem (fs : FS) (p : Path) : exists_ fs p = true → p ∈ fs.*1.
Proof.
  unfold exists_. destruct (lookup fs p) eqn:E; [| done].
  intros _. by eapply lookup_Some_elem.
Qed.

Lemma is_dir_exists (fs : FS) (p : Path) :
  is_dir fs p = true → exists_ fs p = true.
Proof. unfold is_dir, exists_. by destruct (lookup fs p). Qed.

(** The parent of a path is shorter, unless the path is its own parent. *)
Lemma parent_length (p : Path) : parent p ≠ p → length (parent p) < length p.
Proof.
  destruct p as [|a [|b l]].
  - done.
  - simpl. destruct (is_anchor a); simpl; [done | lia].
  - intros _. change (parent (a :: b :: l)) with (removelast (a :: b :: l)).
    rewrite removelast_firstn_len, length_take. simpl. lia.
Qed.

(** [Path.mkdir] returns: the recursion on the parent stops before the
    bound that [mkdir] passes. *)
Lemma mkdir_rec_returns (fuel : nat) (fs : FS) (p : Path)
    (parents exist_ok : bool) :
  (if parents then length p else 0) < fuel →
  is_Some (mkdir_rec fuel fs p parents exist_ok).
Proof.
  revert fs p parents exist_ok.
  induction fuel as [|fuel IH]; intros fs p parents exist_ok Hlen; [lia |].
  simpl. destruct (os_mkdir fs p) as [e|fs']; [| by eexists].
  destruct e; try (destruct (_ || _); by eexists).
  destruct parents; simpl; [| by eexists].
  case_bool_decide as Hp; [by eexists |].
  pose proof (parent_length p Hp).
  destruct (IH fs (parent p) true true) as [[e|fs1] ->]; [lia | by eexists |].
  apply IH. lia.
Qed.

Lemma mkdir_not_RecursionError (fs : FS) (p : Path) (parents exist_ok : bool) :
  mkdir fs p parents exist_ok ≠ inl RecursionError.
Proof.
  unfold mkdir.
  destruct (mkdir_rec_returns (S (length p)) fs p parents exist_ok) as [r Hr].
  { destruct parents; lia. }
  rewrite Hr. revert Hr. generalize (S (length p)). intros fuel.
  revert fs p parents exist_ok r.
  induction fuel as [|fuel IH]; intros fs p parents exist_ok r; [done |].
  simpl. destruct (os_mkdir fs p) as [e|fs'] eqn:E; [| by intros [= <-]].
  assert (e ≠ RecursionError) as He.
  { unfold os_mkdir in E. repeat case_match; by simplify_eq. }
  destruct e; try (destruct (_ || _); by intros [= <-]).
  destruct (_ || _); [by intros [= <-] |].
  destruct (mkdir_rec fuel fs (parent p) true true) as [[e|fs1]|] eqn:E1.
  - intros [= <-]. by eapply IH.
  - by apply IH.
  - done.
Qed.

End FsFacts.

(** ** The conflict resolver *)

Section SafeDestination.
Import PyStr PyStrFacts Pathlib Fs FsFacts.

(** The numbered candidates of a destination are its parent followed by
    one part, [stem (i)suffix]. *)
Lemma numbered_parts (dest : Path) (i : nat) :
  numbered dest i
  = parent dest ++ [stem dest +:+ " (" +:+ pretty i +:+ ")" +:+ suffix dest].
Proof.
  unfold numbered, joinpath.
  set (s := _ +:+ _).
  assert (2 ≤ String.length s) as Hs.
  { unfold s. rewrite !str_length_app. simpl. lia. }
  destruct (String.eqb_spec s "") as [E|_]; [rewrite E in Hs; simpl in Hs; lia |].
  destruct (String.eqb_spec s ".") as [E|_]; [rewrite E in Hs; simpl in Hs; lia |].
  done.
Qed.

(** Different numbers give different candidates. *)
Lemma numbered_inj (dest : Path) : Inj (=) (=) (numbered dest).
Proof.
  intros i j H. rewrite !numbered_parts in H.
  apply app_inv_head in H. injection H as H.
  apply String.app_inj, String.app_inj in H.
  by apply str_app_inv_tail, pretty_nat_inj in H.
Qed.

(** What the loop returns, and what a loop that does not return has seen. *)
Lemma safe_destination_loop_Some (fuel : nat) (fs : FS) (dest r : Path)
    (i : nat) :
  safe_destination_loop fuel fs dest i = Some r →
  ∃ k, i ≤ k < i + fuel ∧ r = numbered dest k
       ∧ exists_ fs (numbered dest k) = false
       ∧ ∀ j, i ≤ j < k → exists_ fs (numbered dest j) = true.
Proof.
  revert i. induction fuel as [|fuel IH]; intros i; simpl; [done |].
  destruct (exists_ fs (numbered dest i)) eqn:E; simpl.
  - intros (k & Hk & -> & Hfree & Hbelow)%IH.
    exists k. repeat split; [lia.. | done |].
    intros j Hj. destruct (decide (j = i)) as [->|]; [done |].
    apply Hbelow. lia.
  - intros [= <-]. exists i. repeat split; [lia.. | done |]. intros; lia.
Qed.

Lemma safe_destination_loop_None (fuel : nat) (fs : FS) (dest : Path)
    (i : nat) :
  safe_destination_loop fuel fs dest i = None →
  ∀ j, i ≤ j < i + fuel → exists_ fs (numbered dest j) = true.
Proof.
  revert i. induction fuel as [|fuel IH]; intros i; simpl; [intros; lia |].
  destruct (exists_ fs (numbered dest i)) eqn:E; simpl; [| done].
  intros H j Hj. destruct (decide (j = i)) as [->|]; [done |].
  apply (IH _ H). lia.
Qed.

(** The tree has fewer entries than the loop has iterations, and the
    candidates are pairwise different: one of them is free. *)
Lemma safe_destination_loop_returns (fs : FS) (dest : Path) :
  is_Some (safe_destination_loop (S (length fs)) fs dest 1).
Proof.
  destruct (safe_destination_loop _ fs dest 1) eqn:E; [by eexists |].
  exfalso.
  pose proof (safe_destination_loop_None _ _ _ _ E) as Hall.
  assert (numbered dest <$> seq 1 (S (length fs)) ⊆+ fs.*1) as Hsub.
  { apply NoDup_submseteq.
    - apply (@NoDup_fmap_2 _ _ _ (numbered_inj dest)), NoDup_seq.
    - intros q (j & -> & Hj%elem_of_seq)%list_elem_of_fmap.
      apply exists_elem, Hall. lia. }
  apply submseteq_length in Hsub.
  rewrite !length_fmap, length_seq in Hsub. lia.
Qed.

Lemma safe_destination_returns (fs : FS) (dest : Path) (overwrite : bool) :
  is_Some (safe_destination fs dest overwrite).
Proof.
  unfold safe_destination. destruct (_ || _); [by eexists |].
  apply safe_destination_loop_returns.
Qed.

(** C1.  [safe_destination] returns the destination itself when overwrite
    is set or nothing exists there; otherwise it returns the first of the
    candidates [stem (1)suffix], [stem (2)suffix], ... in the destination's
    parent at which nothing exists; and without overwrite nothing exists
    at the path it returns. *)
Theorem safe_destination_spec (fs : FS) (dest : Path) (overwrite : bool) :
  (overwrite = true ∨ exists_ fs dest = false →
     safe_destination fs dest overwrite = Some dest)
  ∧ (overwrite = false ∧ exists_ fs dest = true →
     ∃ i, 1 ≤ i
       ∧ safe_destination fs dest overwrite = Some (numbered dest i)
       ∧ numbered dest i
         = parent dest
             ++ [stem dest +:+ " (" +:+ pretty i +:+ ")" +:+ suffix dest]
       ∧ exists_ fs (numbered dest i) = false
       ∧ ∀ j, 1 ≤ j < i → exists_ fs (numbered dest j) = true)
  ∧ (overwrite = false →
     ∃ r, safe_destination fs dest overwrite = Some r
          ∧ exists_ fs r = false).
Proof.
  assert (overwrite = false ∧ exists_ fs dest = true →
     ∃ i, 1 ≤ i
       ∧ safe_destination fs dest overwrite = Some (numbered dest i)
       ∧ exists_ fs (numbered dest i) = false
       ∧ ∀ j, 1 ≤ j < i → exists_ fs (numbered dest j) = true) as Hloop.
  { intros [-> Hex]. unfold safe_destination. rewrite Hex.
    cbn [orb negb].
    destruct (safe_destination_loop_returns fs dest) as [r Hr].
    rewrite Hr.
    apply safe_destination_loop_Some in Hr as (k & Hk & -> & ? & ?).
    exists k. split; [lia | auto]. }
  split; [| split].
  - unfold safe_destination. intros [-> | ->]; [done | by destruct overwrite].
  - intros H. destruct (Hloop H) as (i & ? & ? & ? & ?).
    exists i. repeat split; try done. apply numbered_parts.
  - intros ->. destruct (exists_ fs dest) eqn:Hex.
    + destruct Hloop as (i & ? & ? & ? & ?); [done |]. eauto.
    + exists dest. unfold safe_destination. by rewrite Hex.
Qed.

End SafeDestination.

Example safe_destination_second_candidate :
safe_destination
  [ (["/"], Dir true); (["/"; "d"], Dir true);
    (["/"; "d"; "file.txt"], File); (["/"; "d"; "file (1).txt"], File) ]
  ["/"; "d"; "file.txt"] false
= Some ["/"; "d"; "file (2).txt"].
Proof. vm_compute. reflexivity. Qed.

(** ** Runs *)

Module RunFacts.
Import Run.

Lemma bind_unfold {A B : Type} (m : M A) (f : A → M B) (st : state) :
  (m ≫= f) st
  = match m st with
    | (st', Returned a) => f a st'
    | (st', Raised e) => (st', Raised e)
    | (st', Diverged) => (st', Diverged)
    end.
Proof. reflexivity. Qed.

Lemma for_each_cons {A : Type} (x : A) (l : list A) (body : A → M unit)
    (st : state) :
  for_each (x :: l) body st
  = match body x st with
    | (st', Returned _) => for_each l body st'
    | (st', Raised e) => (st', Raised e)
    | (st', Diverged) => (st', Diverged)
    end.
Proof. reflexivity. Qed.

Lemma silent_syscall (f : FS → exn + FS) : silent (syscall f).
Proof. intros st. unfold syscall. by destruct (f (st_fs st)). Qed.

Lemma silent_raise {A : Type} (e : exn) : silent (raise (A := A) e).
Proof. by intros st. Qed.

Lemma silent_ret {A : Type} (a : A) : silent (mret a).
Proof. by intros st. Qed.

Lemma silent_get_fs : silent get_fs.
Proof. by intros st. Qed.

Lemma silent_bind {A B : Type} (m : M A) (f : A → M B) :
  silent m → (∀ a, silent (f a)) → silent (m ≫= f).
Proof.
  intros Hm Hf st. rewrite bind_unfold.
  destruct (Hm st) as (Ho & Hr & Hd).
  destruct (m st) as [st' [a| e |]]; simpl in *; [| done..].
  destruct (Hf a st') as (Ho' & Hr' & Hd'). by rewrite Ho', Hr'.
Qed.

Lemma silent_try_except {A : Type} (catches : exn → bool) (body : M A)
    (handler : exn → M A) :
  silent body → (∀ e, silent (handler e)) →
  silent (try_except catches body handler).
Proof.
  intros Hb Hh st. unfold try_except.
  destruct (Hb st) as (Ho & Hr & Hd).
  destruct (body st) as [st' [a| e |]]; simpl in *; [done | | done].
  destruct (catches e); [| done].
  destruct (Hh e st') as (Ho' & Hr' & Hd'). by rewrite Ho', Hr'.
Qed.

Lemma silent_shutil_move (src dst : Path) : silent (shutil_move src dst).
Proof.
  unfold shutil_move.
  apply silent_bind; [apply silent_get_fs |]. intros fs.
  destruct (_ && _); [apply silent_syscall |].
  apply silent_bind.
  - destruct (Fs.is_dir fs dst); [| apply silent_ret].
    destruct (Fs.exists_ fs _); [apply silent_raise | apply silent_ret].
  - intros real_dst. apply silent_try_except; [apply silent_syscall |].
    intros e. apply silent_bind; [apply silent_get_fs |]. intros fs'.
    destruct (Fs.is_dir fs' src); [apply silent_raise |].
    apply silent_bind; intros; apply silent_syscall.
Qed.

End RunFacts.

(** ** The relocator *)

Section RelocatorFacts.
Import PyStr PyStrFacts Pathlib PathlibFacts Fs FsFacts Run RunFacts.

Variable guess_type : string → option string.
Variable target : Path.
Variables dry_run overwrite verbose skip_hidden : bool.

Abbreviation visit' :=
  (visit guess_type target dry_run overwrite verbose skip_hidden).
Abbreviation organize_paths' :=
  (organize_paths guess_type target dry_run overwrite verbose skip_hidden).
Abbreviation planned := (planned_destination guess_type target).

(** *** [move_file] *)

(** [move_file], step by step: the resolution, the record and the line,
    then for a live call the parent directories, made outside any
    handler, and the move, made inside one. *)
Lemma move_file_unfold (src dest : Path) (st : state) :
  move_file src dest dry_run overwrite verbose st
  = match safe_destination (st_fs st) dest overwrite with
    | None => (st, Diverged)
    | Some d =>
        let st1 := announced dry_run verbose src d st in
        if dry_run then (st1, Returned tt)
        else
          match Fs.mkdir (st_fs st) (parent d) true true with
          | inl e => (st1, Raised e)
          | inr fs' =>
              match shutil_move src d
                      (Build_state fs' (st_out st1) (st_records st1)) with
              | (st3, Raised e) =>
                  (Build_state (st_fs st3)
                     (st_out st3 ++ [Error_moving src d e])
                     (st_records st3), Returned tt)
              | r => r
              end
          end
    end.
Proof.
  unfold move_file. rewrite bind_unfold. simpl.
  destruct (safe_destination (st_fs st) dest overwrite) as [d|]; [| done].
  unfold announced, when, log, print, syscall, try_except.
  unfold mbind, M_bind, mret, M_ret.
  destruct verbose, dry_run; simpl; try done;
    (destruct (mkdir (st_fs st) (parent d) true true) as [e|fs'];
      [done |]);
    match goal with |- context [shutil_move ?a ?b ?s] =>
      by destruct (shutil_move a b s) as [st3 [[]| e |]]
    end.
Qed.

Lemma move_file_returns_or_raises (src dest : Path) (st : state) :
  (move_file src dest dry_run overwrite verbose st).2 ≠ Diverged.
Proof.
  rewrite move_file_unfold.
  destruct (safe_destination_returns (st_fs st) dest overwrite) as [d ->].
  simpl. destruct dry_run; [done |].
  destruct (mkdir (st_fs st) (parent d) true true) as [e|fs']; [done |].
  match goal with |- context [shutil_move ?a ?b ?s] =>
    destruct (silent_shutil_move a b s) as (_ & _ & Hd');
    by destruct (shutil_move a b s) as [st3 [[]| e |]]
  end.
Qed.

(** The only exception that leaves [move_file] is one of [Path.mkdir]. *)
Lemma move_file_raises (src dest : Path) (st : state) (e : exn) :
  (move_file src dest dry_run overwrite verbose st).2 = Raised e →
  dry_run = false
  ∧ ∃ d, safe_destination (st_fs st) dest overwrite = Some d
         ∧ Fs.mkdir (st_fs st) (parent d) true true = inl e.
Proof.
  rewrite move_file_unfold.
  destruct (safe_destination (st_fs st) dest overwrite) as [d|]; [| done].
  simpl. destruct dry_run; [done |].
  destruct (mkdir (st_fs st) (parent d) true true) as [e'|fs'] eqn:E.
  - intros [= ->]. eauto.
  - match goal with |- context [shutil_move ?a ?b ?s] =>
      by destruct (shutil_move a b s) as [st3 [[]| e' |]]
    end.
Qed.

(** The trace grows by exactly the record of the call. *)
Lemma move_file_records (src dest d : Path) (st : state) :
  safe_destination (st_fs st) dest overwrite = Some d →
  st_records (move_file src dest dry_run overwrite verbose st).1
  = st_records st ++ [Build_record src d dry_run].
Proof.
  intros Hd. rewrite move_file_unfold, Hd. unfold announced. simpl.
  destruct dry_run; [done |].
  destruct (mkdir (st_fs st) (parent d) true true) as [e|fs']; [done |].
  match goal with |- context [shutil_move ?a ?b ?s] =>
    destruct (silent_shutil_move a b s) as (_ & Hr & _);
    destruct (shutil_move a b s) as [st3 [[]| e |]]; simpl in *;
    by rewrite Hr
  end.
Qed.

(** A dry run of [move_file] leaves the tree alone. *)
Lemma move_file_simulated (src dest : Path) (st : state) :
  dry_run = true →
  ∃ d, safe_destination (st_fs st) dest overwrite = Some d
       ∧ move_file src dest dry_run overwrite verbose st
         = (announced dry_run verbose src d st, Returned tt).
Proof.
  intros Hdry. rewrite move_file_unfold.
  destruct (safe_destination_returns (st_fs st) dest overwrite) as [d ->].
  exists d. by rewrite Hdry.
Qed.


(** *** The loop body *)

Lemma visit_unfold (p : Path) (st : state) :
  visit' p st
  = if is_dir (st_fs st) p then (st, Returned tt)
    else if skip_hidden && has_hidden_part p then
      when verbose (print (Skipping_hidden p)) st
    else if in_category_folder target p then
      when verbose (print (Skipping_category p)) st
    else move_file p (planned p) dry_run overwrite verbose st.
Proof.
  unfold visit. rewrite bind_unfold. simpl.
  destruct (is_dir (st_fs st) p); [done |].
  destruct (skip_hidden && has_hidden_part p); [done |].
  by destruct (in_category_folder target p).
Qed.

(** A path that one of the three tests excludes: nothing happens but, for
    the last two tests and a verbose run, a line. *)
Lemma visit_skips (p : Path) (st : state) :
  is_dir (st_fs st) p = true
  ∨ skip_hidden && has_hidden_part p = true
  ∨ in_category_folder target p = true →
  st_fs (visit' p st).1 = st_fs st
  ∧ st_records (visit' p st).1 = st_records st
  ∧ (visit' p st).2 = Returned tt.
Proof.
  intros H. rewrite visit_unfold.
  destruct (is_dir (st_fs st) p); [done |].
  destruct (skip_hidden && has_hidden_part p); [by destruct verbose |].
  destruct (in_category_folder target p); [by destruct verbose |].
  by destruct H as [|[|]].
Qed.

(** A path that passes the three tests is handed to [move_file]. *)
Lemma visit_moves (p : Path) (st : state) :
  is_dir (st_fs st) p = false →
  skip_hidden && has_hidden_part p = false →
  in_category_folder target p = false →
  visit' p st = move_file p (planned p) dry_run overwrite verbose st.
Proof. intros H1 H2 H3. by rewrite visit_unfold, H1, H2, H3. Qed.

Lemma visit_returns_or_raises (p : Path) (st : state) :
  (visit' p st).2 ≠ Diverged.
Proof.
  rewrite visit_unfold.
  destruct (is_dir (st_fs st) p); [done |].
  destruct (skip_hidden && has_hidden_part p); [by destruct verbose |].
  destruct (in_category_folder target p); [by destruct verbose |].
  apply move_file_returns_or_raises.
Qed.

(** What a visit adds to the trace: nothing, or the one decision taken for
    the path in the tree as the visit finds it. *)
Lemma visit_records (p : Path) (st : state) :
  st_records (visit' p st).1
  = st_records st
    ++ (if is_dir (st_fs st) p || (skip_hidden && has_hidden_part p)
           || in_category_folder target p
        then []
        else match safe_destination (st_fs st) (planned p) overwrite with
             | Some d => [Build_record p d dry_run]
             | None => []
             end).
Proof.
  rewrite visit_unfold.
  destruct (is_dir (st_fs st) p); simpl; [by rewrite app_nil_r |].
  destruct (skip_hidden && has_hidden_part p); simpl;
    [destruct verbose; simpl; by rewrite app_nil_r |].
  destruct (in_category_folder target p); simpl;
    [destruct verbose; simpl; by rewrite app_nil_r |].
  destruct (safe_destination_returns (st_fs st) (planned p) overwrite)
    as [d Hd].
  by rewrite (move_file_records _ _ _ _ Hd), Hd.
Qed.

(** *** The loop *)

Lemma organize_paths_cons (p : Path) (ps : list Path) (st : state) :
  organize_paths' (p :: ps) st
  = match visit' p st with
    | (st', Returned _) => organize_paths' ps st'
    | (st', Raised e) => (st', Raised e)
    | (st', Diverged) => (st', Diverged)
    end.
Proof. reflexivity. Qed.

Lemma organize_paths_returns_or_raises (ps : list Path) (st : state) :
  (organize_paths' ps st).2 ≠ Diverged.
Proof.
  revert st. induction ps as [|p ps IH]; intros st; [done |].
  rewrite organize_paths_cons.
  pose proof (visit_returns_or_raises p st).
  destruct (visit' p st) as [st' [[]| e |]]; simpl in *; [apply IH | done..].
Qed.

(** The trace only grows, and every record added is for a path of the
    list that no test excluded. *)
Lemma organize_paths_records (ps : list Path) (st : state) :
  ∃ l, st_records (organize_paths' ps st).1 = st_records st ++ l
       ∧ Forall (λ r, source r ∈ ps
                      ∧ simulated r = dry_run
                      ∧ skip_hidden && has_hidden_part (source r) = false
                      ∧ in_category_folder target (source r) = false) l.
Proof.
  revert st. induction ps as [|p ps IH]; intros st.
  { exists []. by rewrite app_nil_r. }
  rewrite organize_paths_cons.
  pose proof (visit_records p st) as Hv.
  match type of Hv with _ = _ ++ ?x => set (new := x) in Hv end.
  assert (Forall (λ r, source r ∈ p :: ps
                      ∧ simulated r = dry_run
                      ∧ skip_hidden && has_hidden_part (source r) = false
                      ∧ in_category_folder target (source r) = false) new)
    as Hnew.
  { unfold new. destruct (is_dir (st_fs st) p); [done |].
    destruct (skip_hidden && has_hidden_part p) eqn:Eh; [done |].
    destruct (in_category_folder target p) eqn:Ec; [done |]. simpl.
    destruct (safe_destination _ _ _); [| done].
    repeat constructor; done. }
  destruct (visit' p st) as [st' [[]| e |]]; simpl in *;
    [| by exists new | by exists new].
  destruct (IH st') as (l & Hl & Hall).
  exists (new ++ l). rewrite Hl, Hv, <- (assoc_L (++)). split; [done |].
  apply Forall_app. split; [done |].
  eapply Forall_impl; [exact Hall |]. intros r (? & ? & ? & ?).
  repeat split; try done. by right.
Qed.

End RelocatorFacts.

(** *** Dry runs *)

Section DryRun.
Import Pathlib Fs FsFacts Run RunFacts.

Variable guess_type : string → option string.
Variable target : Path.
Variables overwrite verbose skip_hidden : bool.

Lemma visit_dry_run (p : Path) (st : state) :
  st_fs (visit guess_type target true overwrite verbose skip_hidden p st).1
  = st_fs st
  ∧ (visit guess_type target true overwrite verbose skip_hidden p st).2
    = Returned tt.
Proof.
  rewrite visit_unfold.
  destruct (is_dir (st_fs st) p); [done |].
  destruct (skip_hidden && has_hidden_part p); [by destruct verbose |].
  destruct (in_category_folder target p); [by destruct verbose |].
  destruct (move_file_simulated true overwrite verbose p
              (planned_destination guess_type target p) st eq_refl)
    as (d & _ & ->).
  done.
Qed.

Lemma organize_paths_dry_run (ps : list Path) (st : state) :
  st_fs (organize_paths guess_type target true overwrite verbose skip_hidden
           ps st).1 = st_fs st
  ∧ (organize_paths guess_type target true overwrite verbose skip_hidden
       ps st).2 = Returned tt.
Proof.
  revert st. induction ps as [|p ps IH]; intros st; [done |].
  rewrite organize_paths_cons.
  destruct (visit_dry_run p st) as [Hfs Hret].
  destruct (visit _ _ _ _ _ _ p st) as [st' o]. simpl in *. subst o.
  rewrite <- Hfs. apply IH.
Qed.

(** In a dry run every decision is resolved against the tree the run
    started from. *)
Lemma organize_paths_dry_run_records (ps : list Path) (st : state) :
  ∃ l, st_records (organize_paths guess_type target true overwrite verbose
                     skip_hidden ps st).1 = st_records st ++ l
       ∧ Forall (λ r, is_dir (st_fs st) (source r) = false
                      ∧ safe_destination (st_fs st)
                          (planned_destination guess_type target (source r))
                          overwrite = Some (destination r)) l.
Proof.
  revert st. induction ps as [|p ps IH]; intros st.
  { exists []. by rewrite app_nil_r. }
  rewrite organize_paths_cons.
  destruct (visit_dry_run p st) as [Hfs Hret].
  pose proof (visit_records guess_type target true overwrite verbose
                skip_hidden p st) as Hv.
  destruct (visit _ _ _ _ _ _ p st) as [st' o]. simpl in *. subst o.
  destruct (IH st') as (l & Hl & Hall). rewrite Hfs in Hall.
  eexists. rewrite Hl, Hv, <- (assoc_L (++)). split; [done |].
  apply Forall_app. split; [| done].
  destruct (is_dir (st_fs st) p) eqn:Ed; [done |].
  destruct (_ || _); [done |].
  destruct (safe_destination _ _ _) eqn:Es; [| done].
  by repeat constructor.
Qed.

End DryRun.

(** *** Whole runs *)

Section OrganizeDirectory.
Import PyStr Pathlib Fs FsFacts Run RunFacts.

Variable guess_type : string → option string.

Abbreviation run := (organize_directory guess_type).

Lemma organize_directory_unfold (target : Path)
    (recursive dry_run overwrite verbose skip_hidden : bool) (st : state) :
  run target recursive dry_run overwrite verbose skip_hidden st
  = if negb (exists_ (st_fs st) target) || negb (is_dir (st_fs st) target)
    then (st, Raised ValueError)
    else organize_paths guess_type target dry_run overwrite verbose
           skip_hidden (iterator (st_fs st) target recursive) st.
Proof.
  unfold organize_directory. rewrite bind_unfold. simpl.
  by destruct (_ || _).
Qed.

(** Every path of the iterator lies below the target. *)
Lemma iterator_below (fs : FS) (target : Path) (recursive : bool) (p : Path) :
  p ∈ iterator fs target recursive →
  ∃ x rest, relative_to p target = Some (x :: rest).
Proof.
  unfold iterator, rglob, iterdir, below, entry_of.
  destruct recursive; intros [H _]%list_elem_of_filter;
    destruct (relative_to p target) as [[|x rest]|]; try done; eauto.
Qed.

Lemma relative_to_Some (p target rel : Path) :
  target ≠ [] → relative_to p target = Some rel → p = target ++ rel.
Proof.
  unfold relative_to. destruct target as [|a target]; [done |]. intros _.
  case_bool_decide as H; [| done]. intros [= <-].
  by rewrite <- H at 1; rewrite take_drop.
Qed.

(** C7.  A dry run changes nothing in the tree: the tree after the run is
    the tree before it, whatever the target and the other flags; every
    record of the run is marked as simulated; and over a target that is a
    directory the run returns. *)
Theorem dry_run_no_mutation (fs : FS) (target : Path)
    (recursive overwrite verbose skip_hidden : bool) :
  let r := run target recursive true overwrite verbose skip_hidden (start fs) in
  st_fs r.1 = fs
  ∧ Forall (λ m, simulated m = true) (st_records r.1)
  ∧ (is_dir fs target = true → r.2 = Returned tt).
Proof.
  simpl. rewrite organize_directory_unfold. simpl.
  destruct (is_dir fs target) eqn:Ed.
  - rewrite (is_dir_exists _ _ Ed). simpl.
    destruct (organize_paths_dry_run guess_type target overwrite verbose
                skip_hidden (iterator fs target recursive) (start fs))
      as [Hfs Hret].
    destruct (organize_paths_records guess_type target true overwrite verbose
                skip_hidden (iterator fs target recursive) (start fs))
      as (l & Hl & Hall).
    repeat split; [done | | done].
    rewrite Hl. simpl. eapply Forall_impl; [exact Hall |].
    by intros m (_ & ? & _).
  - rewrite orb_true_r. by repeat split.
Qed.


(** *** The already-organized test *)

Lemma category_folders_names (c : string) :
  c ∈ category_folders ↔ c ∈ category_names.
Proof.
  assert (category_folders = list_to_set category_names) as ->.
  { refine (bool_decide_unpack _ _). vm_compute. exact I. }
  apply elem_of_list_to_set.
Qed.

Lemma in_category_folder_below (target : Path) (category : string)
    (rest : list string) :
  category ∈ category_names → rest ≠ [] →
  in_category_folder target (target ++ category :: rest) = true.
Proof.
  intros Hc Hrest. unfold in_category_folder.
  destruct rest as [|r rest]; [done |]. clear Hrest.
  assert (parent (target ++ category :: r :: rest) ≠ target) as Hp.
  { unfold parent.
    destruct (target ++ category :: r :: rest) as [|a [|b l]] eqn:E.
    - by destruct target.
    - destruct target as [|? [|? ?]]; simpl in E; by injection E.
    - rewrite <- E, removelast_app by done. intros H.
      apply (f_equal length) in H. rewrite length_app in H.
      change (removelast (category :: r :: rest))
        with (category :: removelast (r :: rest)) in H.
      simpl in H. lia. }
  rewrite (bool_decide_eq_false_2 _ Hp).
  assert (relative_to (target ++ category :: r :: rest) target
          = Some (category :: r :: rest)) as ->.
  { unfold relative_to. destruct target as [|a target].
    - rewrite app_nil_l.
      assert (is_absolute (category :: r :: rest) = false) as ->; [| done].
      unfold category_names in Hc. rewrite !elem_of_cons, elem_of_nil in Hc.
      by destruct Hc as [->|[->|[->|[->|[->|[->|[->|[]]]]]]]].
    - rewrite take_app_length, bool_decide_eq_true_2 by done.
      by rewrite drop_app_length. }
  change (bool_decide (category ∈ category_folders) = true).
  apply bool_decide_eq_true_2. by apply category_folders_names.
Qed.

Lemma in_category_folder_top_level (target p : Path) :
  parent p = target → in_category_folder target p = false.
Proof.
  intros H. unfold in_category_folder. by rewrite bool_decide_eq_true_2.
Qed.

(** C2.  A file below the target whose first part relative to the target is
    a category name, at depth two or more, passes the already-organized
    test and is skipped by the loop: the visit changes neither the tree nor
    the trace; a path directly in the target never passes the test; and no
    run has such a file as the source of a move, [Images/jpg/photo.jpg] in
    particular. *)
Theorem category_folder_files_never_moved (target : Path) :
  (∀ category rest, category ∈ category_names → rest ≠ [] →
     in_category_folder target (target ++ category :: rest) = true
     ∧ ∀ dry_run overwrite verbose skip_hidden st,
         let r := visit guess_type target dry_run overwrite verbose
                    skip_hidden (target ++ category :: rest) st in
         st_fs r.1 = st_fs st ∧ st_records r.1 = st_records st
         ∧ r.2 = Returned tt)
  ∧ (∀ p, parent p = target → in_category_folder target p = false)
  ∧ (∀ fs recursive dry_run overwrite verbose skip_hidden category rest,
       category ∈ category_names → rest ≠ [] →
       target ++ category :: rest
       ∉ source <$> st_records (run target recursive dry_run overwrite
                                  verbose skip_hidden (start fs)).1)
  ∧ (∀ fs dry_run overwrite verbose skip_hidden,
       target ++ ["Images"; "jpg"; "photo.jpg"]
       ∉ source <$> st_records (run target true dry_run overwrite
                                  verbose skip_hidden (start fs)).1).
Proof.
  assert (∀ fs recursive dry_run overwrite verbose skip_hidden category rest,
       category ∈ category_names → rest ≠ [] →
       target ++ category :: rest
       ∉ source <$> st_records (run target recursive dry_run overwrite
                                  verbose skip_hidden (start fs)).1) as Hrun.
  { intros fs recursive dry_run overwrite verbose skip_hidden category rest
      Hc Hrest (r & Hsrc & Hr)%list_elem_of_fmap.
    rewrite organize_directory_unfold in Hr.
    change (st_fs (start fs)) with fs in Hr.
    destruct (_ || _); [by apply elem_of_nil in Hr |].
    destruct (organize_paths_records guess_type target dry_run overwrite
                verbose skip_hidden (iterator fs target recursive) (start fs))
      as (l & Hl & Hall).
    rewrite Hl in Hr. simpl in Hr.
    rewrite Forall_forall in Hall.
    destruct (Hall r Hr) as (_ & _ & _ & Hcat).
    rewrite <- Hsrc, in_category_folder_below in Hcat; done. }
  repeat split.
  - by apply in_category_folder_below.
  - apply visit_skips. right. right. by apply in_category_folder_below.
  - apply visit_skips. right. right. by apply in_category_folder_below.
  - apply visit_skips. right. right. by apply in_category_folder_below.
  - apply in_category_folder_top_level.
  - apply Hrun.
  - intros. apply Hrun; [| done]. unfold category_names. by left.
Qed.

(** *** Dry runs and live runs *)

(** On the same tree, a dry visit and a live visit take the same decision. *)
Lemma visit_decision (target : Path) (overwrite verbose skip_hidden : bool)
    (p : Path) (st_dry st_live : state) :
  st_fs st_dry = st_fs st_live →
  ∃ new,
    decisions (visit guess_type target true overwrite verbose skip_hidden
                 p st_dry).1 = decisions st_dry ++ new
    ∧ decisions (visit guess_type target false overwrite verbose skip_hidden
                   p st_live).1 = decisions st_live ++ new
    ∧ (new = [] →
       st_fs (visit guess_type target false overwrite verbose skip_hidden
                p st_live).1 = st_fs st_live
       ∧ (visit guess_type target false overwrite verbose skip_hidden
            p st_live).2 = Returned tt).
Proof.
  intros Hfs. unfold decisions. rewrite !visit_records, !fmap_app, Hfs.
  destruct (is_dir (st_fs st_live) p) eqn:Ed; simpl.
  { exists []. repeat split; intros; apply visit_skips; auto. }
  destruct (skip_hidden && has_hidden_part p) eqn:Eh; simpl.
  { exists []. repeat split; intros; apply visit_skips; auto. }
  destruct (in_category_folder target p) eqn:Ec; simpl.
  { exists []. repeat split; intros; apply visit_skips; auto. }
  destruct (safe_destination_returns (st_fs st_live)
              (planned_destination guess_type target p) overwrite) as [d ->].
  by eexists.
Qed.

(** The first decision of a pass is the same in both modes. *)
Lemma organize_paths_first_decision (target : Path)
    (overwrite verbose skip_hidden : bool) (ps : list Path)
    (st_dry st_live : state) :
  st_fs st_dry = st_fs st_live →
  st_records st_dry = [] → st_records st_live = [] →
  head (decisions (organize_paths guess_type target true overwrite verbose
                     skip_hidden ps st_dry).1)
  = head (decisions (organize_paths guess_type target false overwrite verbose
                       skip_hidden ps st_live).1).
Proof.
  revert st_dry st_live.
  induction ps as [|p ps IH]; intros st_dry st_live Hfs Hd Hl.
  { unfold decisions. simpl. by rewrite Hd, Hl. }
  rewrite !organize_paths_cons.
  destruct (visit_decision target overwrite verbose skip_hidden p
              st_dry st_live Hfs) as (new & Hnd & Hnl & Hskip).
  destruct (visit_dry_run guess_type target overwrite verbose skip_hidden
              p st_dry) as [Hdfs Hdret].
  unfold decisions in Hnd, Hnl. rewrite Hd in Hnd. rewrite Hl in Hnl.
  simpl in Hnd, Hnl.
  destruct (visit guess_type target true overwrite verbose skip_hidden
              p st_dry) as [st_dry' o]. simpl in *. subst o.
  destruct new as [|dec new].
  - destruct Hskip as [Hlfs Hlret]; [done |].
    destruct (visit guess_type target false overwrite verbose skip_hidden
                p st_live) as [st_live' o]. simpl in *. subst o.
    apply IH; [congruence | |].
    + by apply fmap_nil_inv in Hnd.
    + by apply fmap_nil_inv in Hnl.
  - destruct (organize_paths_records guess_type target true overwrite verbose
                skip_hidden ps st_dry') as (ld & Hld & _).
    unfold decisions at 1. rewrite Hld, fmap_app, Hnd. simpl.
    destruct (visit guess_type target false overwrite verbose skip_hidden
                p st_live) as [st_live' [[]| e |]]; simpl in *.
    + destruct (organize_paths_records guess_type target false overwrite
                  verbose skip_hidden ps st_live') as (ll & Hll & _).
      unfold decisions. by rewrite Hll, fmap_app, Hnl.
    + unfold decisions. by rewrite Hnl.
    + unfold decisions. by rewrite Hnl.
Qed.

(** *** Hidden entries *)

Lemma visit_hidden (target : Path) (dry_run overwrite verbose : bool)
    (p : Path) (st : state) :
  is_dir (st_fs st) p = false → has_hidden_part p = true →
  visit guess_type target dry_run overwrite verbose true p st
  = (Build_state (st_fs st)
       (if verbose then st_out st ++ [Skipping_hidden p] else st_out st)
       (st_records st), Returned tt).
Proof.
  intros Hd Hh. rewrite visit_unfold, Hd, Hh. simpl.
  destruct verbose; [done |]. by destruct st.
Qed.

(** What a visit prints: nothing, one of the two skip lines, or the line
    of [move_file], which an error line may follow. *)
Lemma visit_out (target : Path)
    (dry_run overwrite verbose skip_hidden : bool) (p : Path) (st : state) :
  ∃ new, st_out (visit guess_type target dry_run overwrite verbose
                   skip_hidden p st).1 = st_out st ++ new
         ∧ ∀ m, m ∈ new →
             (m = Skipping_hidden p
              ∧ skip_hidden && has_hidden_part p = true)
             ∨ m = Skipping_category p
             ∨ (∃ d, m = Would_move p d) ∨ (∃ d, m = Moving p d)
             ∨ (∃ d e, m = Error_moving p d e).
Proof.
  rewrite visit_unfold.
  destruct (is_dir (st_fs st) p).
  { exists []. rewrite app_nil_r. split; [done |]. by intros m ?%elem_of_nil. }
  destruct (skip_hidden && has_hidden_part p) eqn:Eh.
  { destruct verbose; simpl.
    - eexists. split; [done |]. intros m ->%list_elem_of_singleton. by left.
    - exists []. rewrite app_nil_r. split; [done |].
      by intros m ?%elem_of_nil. }
  destruct (in_category_folder target p).
  { destruct verbose; simpl.
    - eexists. split; [done |]. intros m ->%list_elem_of_singleton. auto.
    - exists []. rewrite app_nil_r. split; [done |].
      by intros m ?%elem_of_nil. }
  rewrite move_file_unfold.
  destruct (safe_destination _ _ _) as [d|]; cbv zeta.
  2: { exists []. rewrite app_nil_r. split; [done |].
       by intros m ?%elem_of_nil. }
  set (line := if dry_run then Would_move p d else Moving p d).
  assert (∀ m, m = line → (∃ d, m = Would_move p d) ∨ (∃ d, m = Moving p d))
    as Hline.
  { intros m ->. unfold line. destruct dry_run; eauto. }
  assert (∃ new, st_out (announced dry_run verbose p d st) = st_out st ++ new
                 ∧ ∀ m, m ∈ new → m = line) as (ann & Hann & Hin).
  { unfold announced. simpl. destruct (verbose || dry_run).
    - eexists. split; [done |]. by intros m ->%list_elem_of_singleton.
    - exists []. rewrite app_nil_r. split; [done |].
      by intros m ?%elem_of_nil. }
  assert (∀ m, m ∈ ann →
      (m = Skipping_hidden p ∧ false = true)
      ∨ m = Skipping_category p
      ∨ (∃ d, m = Would_move p d) ∨ (∃ d, m = Moving p d)
      ∨ (∃ d e, m = Error_moving p d e)) as Hann'.
  { intros m Hm. destruct (Hline m (Hin m Hm)); auto. }
  clearbody line.
  destruct dry_run; cbn [fst snd]; [by exists ann |].
  destruct (mkdir (st_fs st) (parent d) true true) as [e|fs']; cbn [fst snd];
    [by exists ann |].
  match goal with |- context [shutil_move ?a ?b ?s] =>
    destruct (silent_shutil_move a b s) as (Ho & _ & _);
    destruct (shutil_move a b s) as [st3 [[]| e |]]; cbn [fst snd] in *
  end.
  - exists ann. rewrite Ho. by cbn [st_out].
  - exists (ann ++ [Error_moving p d e]). cbn [st_out] in *.
    rewrite Ho, Hann, <- (assoc_L (++)). split; [done |].
    intros m [Hm| ->%list_elem_of_singleton]%elem_of_app; [auto |].
    right. right. right. right. eauto.
  - exists ann. rewrite Ho. by cbn [st_out].
Qed.

Lemma organize_paths_out (target : Path)
    (dry_run overwrite verbose skip_hidden : bool) (ps : list Path)
    (st : state) :
  ∃ new, st_out (organize_paths guess_type target dry_run overwrite verbose
                   skip_hidden ps st).1 = st_out st ++ new
         ∧ ∀ m, m ∈ new →
             (∃ p, m = Skipping_hidden p
                   ∧ skip_hidden && has_hidden_part p = true)
             ∨ (∃ p, m = Skipping_category p)
             ∨ (∃ p d, m = Would_move p d) ∨ (∃ p d, m = Moving p d)
             ∨ (∃ p d e, m = Error_moving p d e).
Proof.
  revert st. induction ps as [|p ps IH]; intros st.
  { exists []. rewrite app_nil_r. split; [done |]. by intros m ?%elem_of_nil. }
  rewrite organize_paths_cons.
  destruct (visit_out target dry_run overwrite verbose skip_hidden p st)
    as (new & Hnew & Hin).
  assert (∀ m, m ∈ new →
             (∃ p, m = Skipping_hidden p
                   ∧ skip_hidden && has_hidden_part p = true)
             ∨ (∃ p, m = Skipping_category p)
             ∨ (∃ p d, m = Would_move p d) ∨ (∃ p d, m = Moving p d)
             ∨ (∃ p d e, m = Error_moving p d e)) as Hin'.
  { intros m Hm.
    destruct (Hin m Hm) as [[-> ?]|[->|[[d ->]|[[d ->]|(d & e & ->)]]]];
      eauto 10. }
  destruct (visit _ _ _ _ _ _ p st) as [st' [[]| e |]]; simpl in *;
    [| by exists new | by exists new].
  destruct (IH st') as (rest & Hrest & Hin'').
  exists (new ++ rest). rewrite Hrest, Hnew, <- (assoc_L (++)).
  split; [done |]. intros m [?|?]%elem_of_app; auto.
Qed.

(** C9, as amended.  With skip_hidden, a file with a part that starts with
    a dot is excluded: the visit leaves the tree and the trace as they are
    and returns, and prints the skip line when the run is verbose, and only
    then; no run has such a file as the source of a move.  Without
    skip_hidden, the hidden test excludes nothing: a file that is not in a
    category folder is handed to [move_file], and no run prints the skip
    line. *)
Theorem hidden_files_skipped (target : Path)
    (dry_run overwrite verbose : bool) :
  (∀ p st, is_dir (st_fs st) p = false → has_hidden_part p = true →
     let r := visit guess_type target dry_run overwrite verbose true p st in
     st_fs r.1 = st_fs st ∧ st_records r.1 = st_records st
     ∧ r.2 = Returned tt
     ∧ st_out r.1
       = if verbose then st_out st ++ [Skipping_hidden p] else st_out st)
  ∧ (∀ fs recursive,
     Forall (λ r, has_hidden_part (source r) = false)
       (st_records (run target recursive dry_run overwrite verbose true
                      (start fs)).1))
  ∧ (∀ p st, is_dir (st_fs st) p = false →
     in_category_folder target p = false →
     visit guess_type target dry_run overwrite verbose false p st
     = move_file p (planned_destination guess_type target p)
         dry_run overwrite verbose st)
  ∧ (∀ fs recursive p,
     Skipping_hidden p
     ∉ st_out (run target recursive dry_run overwrite verbose false
                 (start fs)).1).
Proof.
  split; [| split; [| split]].
  - intros p st Hd Hh. simpl. by rewrite visit_hidden.
  - intros fs recursive. rewrite organize_directory_unfold.
    change (st_fs (start fs)) with fs.
    destruct (_ || _); [by constructor |].
    destruct (organize_paths_records guess_type target dry_run overwrite
                verbose true (iterator fs target recursive) (start fs))
      as (l & -> & Hall).
    simpl. eapply Forall_impl; [exact Hall |]. by intros r (_ & _ & ? & _).
  - intros p st Hd Hc. by apply visit_moves.
  - intros fs recursive p. rewrite organize_directory_unfold.
    change (st_fs (start fs)) with fs.
    destruct (_ || _); [by intros ?%elem_of_nil |].
    destruct (organize_paths_out target dry_run overwrite verbose false
                (iterator fs target recursive) (start fs))
      as (new & -> & Hin).
    simpl. intros Hm.
    destruct (Hin _ Hm)
      as [(q & _ & ?)|[[q ?]|[(q & d & ?)|[(q & d & ?)|(q & d & e & ?)]]]];
      done.
Qed.

(** A hidden part of the target is a hidden part of every path below it. *)
Lemma has_hidden_part_below (target p : Path) (x : string) (rest : Path) :
  has_hidden_part target = true →
  relative_to p target = Some (x :: rest) →
  has_hidden_part p = true.
Proof.
  intros Hh Hrel.
  assert (target ≠ []) as Hne by (by intros ->).
  rewrite (relative_to_Some _ _ _ Hne Hrel).
  unfold has_hidden_part, parts in *. by rewrite existsb_app, Hh.
Qed.

Lemma organize_paths_all_hidden (target : Path)
    (dry_run overwrite verbose : bool) (ps : list Path) (st : state) :
  (∀ p, p ∈ ps → has_hidden_part p = true) →
  let r := organize_paths guess_type target dry_run overwrite verbose true
             ps st in
  st_fs r.1 = st_fs st ∧ st_records r.1 = st_records st ∧ r.2 = Returned tt
  ∧ ∀ m, m ∈ st_out r.1 → m ∈ st_out st ∨ ∃ p, m = Skipping_hidden p.
Proof.
  revert st. induction ps as [|p ps IH]; intros st Hall; [by auto |].
  cbn zeta. rewrite organize_paths_cons.
  assert (has_hidden_part p = true) as Hp by (apply Hall; by left).
  assert (∃ st', visit guess_type target dry_run overwrite verbose true p st
                 = (st', Returned tt)
                 ∧ st_fs st' = st_fs st ∧ st_records st' = st_records st
                 ∧ ∀ m, m ∈ st_out st' →
                     m ∈ st_out st ∨ ∃ p, m = Skipping_hidden p)
    as (st' & -> & Hfs & Hrec & Hout).
  { destruct (is_dir (st_fs st) p) eqn:Ed.
    - exists st. rewrite visit_unfold, Ed. auto.
    - rewrite (visit_hidden _ _ _ _ _ _ Ed Hp). eexists. split; [done |].
      cbn [st_fs st_records st_out]. repeat split.
      destruct verbose; [| by auto].
      intros m [?| ->%list_elem_of_singleton]%elem_of_app; eauto. }
  destruct (IH st') as (Hfs' & Hrec' & Hret' & Hout').
  { intros q Hq. apply Hall. by right. }
  cbn zeta in *. rewrite Hfs', Hrec', Hfs, Hrec. repeat split; [done |].
  intros m Hm. destruct (Hout' m Hm); auto.
Qed.

(** C10.  The hidden test reads every part of the path, the parts of the
    target included: when a part of the target starts with a dot, every
    path that a run with skip_hidden enumerates counts as hidden, the run
    returns with the tree as it was and no move made, and prints nothing
    but skip lines. *)
Theorem hidden_target_skips_everything (fs : FS) (target : Path)
    (recursive dry_run overwrite verbose : bool) :
  (∃ part, part ∈ parts target ∧ startswith "." part = true) →
  let r := run target recursive dry_run overwrite verbose true (start fs) in
  (∀ p, p ∈ iterator fs target recursive → has_hidden_part p = true)
  ∧ st_fs r.1 = fs
  ∧ st_records r.1 = []
  ∧ (∀ m, m ∈ st_out r.1 → ∃ p, m = Skipping_hidden p)
  ∧ (is_dir fs target = true → r.2 = Returned tt).
Proof.
  intros (part & Hpart & Hdot). simpl.
  assert (has_hidden_part target = true) as Hh.
  { unfold has_hidden_part. apply existsb_exists. exists part.
    split; [| done]. by apply list_elem_of_In. }
  assert (∀ p, p ∈ iterator fs target recursive → has_hidden_part p = true)
    as Hall.
  { intros p (x & rest & Hrel)%iterator_below.
    by eapply has_hidden_part_below. }
  split; [done |].
  rewrite organize_directory_unfold. change (st_fs (start fs)) with fs.
  destruct (is_dir fs target) eqn:Ed.
  - rewrite (is_dir_exists _ _ Ed). simpl.
    destruct (organize_paths_all_hidden target dry_run overwrite verbose
                (iterator fs target recursive) (start fs) Hall)
      as (Hfs & Hrec & Hret & Hout).
    repeat split; [done.. | | done].
    intros m Hm. destruct (Hout m Hm) as [Hm'|]; [| done].
    by apply elem_of_nil in Hm'.
  - rewrite orb_true_r. simpl. repeat split; try done.
    by intros m ?%elem_of_nil.
Qed.

(** *** Exceptions *)

(** No run loops for ever; an exception that ends a run is the
    [ValueError] of the check of the target, or one that [Path.mkdir] raised
    for the parent of a resolved destination. *)
Lemma organize_paths_raises (target : Path)
    (dry_run overwrite verbose skip_hidden : bool) (ps : list Path)
    (st : state) (e : exn) :
  (organize_paths guess_type target dry_run overwrite verbose skip_hidden
     ps st).2 = Raised e →
  dry_run = false
  ∧ ∃ fs d, Fs.mkdir fs (parent d) true true = inl e.
Proof.
  revert st. induction ps as [|p ps IH]; intros st; [done |].
  rewrite organize_paths_cons.
  destruct (visit guess_type target dry_run overwrite verbose skip_hidden
              p st) as [st' [[]| e' |]] eqn:Ev; cbn [snd].
  - apply IH.
  - intros [= ->]. apply (f_equal snd) in Ev. cbn [snd] in Ev.
    rewrite visit_unfold in Ev.
    destruct (is_dir (st_fs st) p); [done |].
    destruct (skip_hidden && has_hidden_part p); [by destruct verbose |].
    destruct (in_category_folder target p); [by destruct verbose |].
    apply move_file_raises in Ev as (? & d & _ & ?). eauto.
  - done.
Qed.

Lemma organize_directory_returns_or_raises (target : Path)
    (recursive dry_run overwrite verbose skip_hidden : bool) (st : state) :
  (run target recursive dry_run overwrite verbose skip_hidden st).2
  ≠ Diverged.
Proof.
  rewrite organize_directory_unfold. destruct (_ || _); [done |].
  apply organize_paths_returns_or_raises.
Qed.

End OrganizeDirectory.

(** ** Examples *)

(** C6.  Two files of the same name, [a.txt] and [sub/a.txt], and no
    overwriting: the dry pass announces [Documents/txt/a.txt] for both,
    the live pass moves the second to [Documents/txt/a (1).txt]. *)
Lemma dry_run_preview_differs :
  let dry := organize_directory no_type root true true false true true
               (start fs_twins) in
  let live := organize_directory no_type root true false false true true
                (start fs_twins) in
  dry.2 = Returned tt ∧ live.2 = Returned tt
  ∧ st_out dry.1
    = [ Would_move (root ++ ["a.txt"]) (root ++ ["Documents"; "txt"; "a.txt"]);
        Would_move (root ++ ["sub"; "a.txt"])
          (root ++ ["Documents"; "txt"; "a.txt"]) ]
  ∧ decisions dry.1
    = [ (root ++ ["a.txt"], root ++ ["Documents"; "txt"; "a.txt"]);
        (root ++ ["sub"; "a.txt"], root ++ ["Documents"; "txt"; "a.txt"]) ]
  ∧ decisions live.1
    = [ (root ++ ["a.txt"], root ++ ["Documents"; "txt"; "a.txt"]);
        (root ++ ["sub"; "a.txt"], root ++ ["Documents"; "txt"; "a (1).txt"]) ]
  ∧ Fs.lookup (st_fs live.1) (root ++ ["Documents"; "txt"; "a.txt"])
    = Some File
  ∧ Fs.lookup (st_fs live.1) (root ++ ["Documents"; "txt"; "a (1).txt"])
    = Some File
  ∧ decisions dry.1 ≠ decisions live.1.
Proof. vm_compute. repeat split. discriminate. Qed.

(** C9, as stated: a quiet run skips the hidden file and reports nothing. *)
Lemma hidden_files_quiet_counterexample :
  let p := root ++ [".hidden.txt"] in
  let r := organize_directory no_type root true false false false true
             (start fs_hidden) in
  p ∈ iterator fs_hidden root true
  ∧ Fs.is_dir fs_hidden p = false
  ∧ has_hidden_part p = true
  ∧ r.2 = Returned tt
  ∧ source <$> st_records r.1 = [root ++ ["a.jpg"]]
  ∧ st_out r.1 = [].
Proof.
  cbv zeta. split; [| by vm_compute].
  refine (bool_decide_unpack _ _). vm_compute. exact I.
Qed.

Lemma hidden_target_skips_everything_witness :
  let r := organize_directory no_type dot_target true false false true true
             (start fs_dot_target) in
  (dot_target ++ ["a.jpg"]) ∈ iterator fs_dot_target dot_target true
  ∧ has_hidden_part ["a.jpg"] = false
  ∧ st_fs r.1 = fs_dot_target
  ∧ st_records r.1 = [].
Proof.
  cbv zeta.
  destruct (hidden_target_skips_everything no_type fs_dot_target dot_target
              true false false true) as (_ & Hfs & Hrec & _).
  - exists ".config". split; [| reflexivity].
    refine (bool_decide_unpack _ _). vm_compute. exact I.
  - repeat split; [| done..].
    refine (bool_decide_unpack _ _). vm_compute. exact I.
Defined.

(** C8.  [Path.mkdir] is called outside the handler: when it cannot make
    the folder of the first file, the run ends with its exception and the
    second file is never visited. *)
Lemma mkdir_error_aborts_run :
  let r := organize_directory no_type root false false false true true
             (start fs_readonly) in
  iterator fs_readonly root false = [root ++ ["Images"]; root ++ ["a.jpg"];
                                     root ++ ["b.txt"]]
  ∧ r.2 = Raised PermissionError
  ∧ st_fs r.1 = fs_readonly
  ∧ decisions r.1 = [(root ++ ["a.jpg"], root ++ ["Images"; "jpg"; "a.jpg"])]
  ∧ st_out r.1
    = [Moving (root ++ ["a.jpg"]) (root ++ ["Images"; "jpg"; "a.jpg"])].
Proof. by vm_compute. Qed.

(** The same with a file in the way of the folder, and no permission
    involved. *)
Example mkdir_not_a_directory_aborts_run :
  let r := organize_directory no_type root false false false true true
             (start fs_others) in
  r.2 = Raised NotADirectoryError
  ∧ st_fs r.1 = fs_others
  ∧ decisions r.1
    = [(root ++ ["Others"], root ++ ["Others"; "no_ext"; "Others"])].
Proof. by vm_compute. Qed.

(** An error of the move itself is caught: the run reports it and goes on
    to the next file.  Here the rename is refused, the copy that
    [shutil.move] falls back to is made, and the removal of the source is
    refused. *)
Example move_error_is_caught :
  let r := organize_directory no_type root false false false true true
             (start fs_locked_source) in
  r.2 = Returned tt
  ∧ st_out r.1
    = [ Moving (root ++ ["a.jpg"]) (root ++ ["Images"; "jpg"; "a.jpg"]);
        Error_moving (root ++ ["a.jpg"]) (root ++ ["Images"; "jpg"; "a.jpg"])
          PermissionError;
        Moving (root ++ ["b.txt"]) (root ++ ["Documents"; "txt"; "b.txt"]);
        Error_moving (root ++ ["b.txt"])
          (root ++ ["Documents"; "txt"; "b.txt"]) PermissionError ]
  ∧ Fs.lookup (st_fs r.1) (root ++ ["a.jpg"]) = Some File
  ∧ Fs.lookup (st_fs r.1) (root ++ ["b.txt"]) = Some File.
Proof. by vm_compute. Qed.

(** The end-to-end example of the specification, with an oracle that
    knows no type: the first run moves three files and skips the hidden
    one; the second run moves nothing. *)
Example organize_twice :
  let first := organize_directory no_type root true false false true true
                 (start fs_spec) in
  let second := organize_directory no_type root true false false true true
                  (start (st_fs first.1)) in
  decisions first.1
  = [ (root ++ ["a.jpg"], root ++ ["Images"; "jpg"; "a.jpg"]);
      (root ++ ["b.unknownext"],
       root ++ ["Others"; "unknownext"; "b.unknownext"]);
      (root ++ ["notes"], root ++ ["Others"; "no_ext"; "notes"]) ]
  ∧ first.2 = Returned tt
  ∧ decisions second.1 = []
  ∧ st_fs second.1 = st_fs first.1
  ∧ st_out second.1
    = [ Skipping_category (root ++ ["Images"; "jpg"; "a.jpg"]);
        Skipping_category (root ++ ["Others"; "unknownext"; "b.unknownext"]);
        Skipping_hidden (root ++ [".hidden.txt"]);
        Skipping_category (root ++ ["Others"; "no_ext"; "notes"]) ].
Proof. by vm_compute. Qed.

(** * Further properties *)

(** ** The classifier *)

Section ClassifierExtras.
Import PyStr PyStrFacts Pathlib PathlibFacts.

Variable guess_type : string → option string.

Lemma rfind_Some_split (c : ascii) (s : string) (i : nat) :
  rfind c s = Some i →
  ∃ st e, s = st +:+ String c e ∧ String.length st = i ∧ free_of c e.
Proof.
  revert i. induction s as [|a s IH]; intros i; simpl; [done |].
  destruct (rfind c s) as [j|] eqn:E.
  - intros [= <-]. destruct (IH j eq_refl) as (st & e & -> & Hl & Hf).
    exists (String a st), e. rewrite str_app_cons. simpl. by rewrite Hl.
  - destruct (Ascii.eqb_spec a c) as [->|]; [| done]. intros [= <-].
    exists "", s. repeat split. by apply rfind_free.
Qed.

(** A suffix is a dot followed by a non-empty part without dot, and there
    is something before it. *)
Lemma suffix_split (p : Path) :
  suffix p = ""
  ∨ ∃ st e, name p = st +:+ "." +:+ e ∧ st ≠ "" ∧ e ≠ "" ∧ free_of "." e
            ∧ suffix p = String "." e.
Proof.
  unfold suffix. destruct (rfind "." (name p)) as [i|] eqn:E; [| by left].
  destruct (rfind_Some_split _ _ _ E) as (st & e & Hn & Hl & Hf).
  destruct (_ && _) eqn:Hc; [| by left]. right.
  apply andb_true_iff in Hc as [Hi Hj].
  apply Nat.ltb_lt in Hi. apply Nat.ltb_lt in Hj.
  rewrite Hn, str_length_app in Hj. simpl in Hj.
  exists st, e. repeat split; try done.
  - intros ->. simpl in Hl. lia.
  - intros ->. simpl in Hj. lia.
  - rewrite Hn, <- Hl. apply slice_from_app.
Qed.

Lemma lower_char_idemp (a : ascii) : lower_char (lower_char a) = lower_char a.
Proof. by destruct a as [[] [] [] [] [] [] [] []]. Qed.

Lemma lower_idemp (s : string) : lower (lower s) = lower s.
Proof.
  induction s as [|a s IH]; simpl; [done |].
  by rewrite lower_char_idemp, IH.
Qed.

(** The extension is empty, or the lower-cased part after the last dot. *)
Lemma extension_cases (p : Path) :
  extension p = ""
  ∨ ∃ st e, name p = st +:+ "." +:+ e ∧ st ≠ "" ∧ e ≠ "" ∧ free_of "." e
            ∧ extension p = lower e.
Proof.
  destruct (suffix_split p) as [H|(st & e & Hn & Hst & He & Hf & _)].
  - left. unfold extension. by rewrite H.
  - right. exists st, e. repeat split; try done.
    by apply (extension_split p st e).
Qed.

Lemma guess_category_by_mime_names (p : Path) :
  guess_category_by_mime guess_type p ∈ category_names.
Proof.
  unfold guess_category_by_mime, category_names.
  repeat case_match; rewrite !elem_of_cons; auto 10.
Qed.

Lemma get_category_names (p : Path) :
  (get_category guess_type p).1 ∈ category_names.
Proof.
  pose proof (guess_category_by_mime_names p) as Hg.
  unfold get_category.
  destruct (truthy (extension p)); [| done].
  assert ((let category_by_mime := guess_category_by_mime guess_type p in
           if negb (String.eqb category_by_mime "Others")
           then (category_by_mime, or_else (extension p) "unknown")
           else ("Others", or_else (extension p) "unknown")).1
          ∈ category_names) as Hmiss.
  { cbv zeta. destruct (negb _); [done |].
    unfold category_names. rewrite !elem_of_cons. auto 10. }
  destruct (EXTENSION_CATEGORIES !! extension p) as [c|] eqn:E; [| done].
  destruct (truthy c); [| done].
  pose proof (EXTENSION_CATEGORIES_values _ _ E) as Hc.
  cbn [fst]. cbv beta in Hc. unfold category_names.
  rewrite !elem_of_cons, elem_of_nil in Hc. rewrite !elem_of_cons. tauto.
Qed.

Lemma get_category_folder (p : Path) :
  let folder := (get_category guess_type p).2 in
  folder ≠ "" ∧ free_of "." folder ∧ lower folder = folder
  ∧ (suffix p = "" → folder = "no_ext")
  ∧ (suffix p ≠ "" → folder = extension p).
Proof.
  cbv zeta. unfold get_category.
  destruct (extension_cases p) as [H|(st & e & Hn & Hst & He & Hf & Hext)].
  - rewrite H. simpl.
    repeat split; try done. intros Hs. unfold extension in H.
    rewrite (proj2 (truthy_true _) Hs) in H.
    destruct (suffix_split p) as [?|(? & e & _ & _ & He & Hf & Hsuf)];
      [done |].
    rewrite Hsuf in H. simpl in H.
    rewrite lstrip_free in H by by apply lower_free_of_dot.
    exfalso. by apply He, lower_eq_nil.
  - assert (extension p ≠ "") as Hne by (rewrite Hext; by rewrite lower_eq_nil).
    assert (suffix p ≠ "") as Hs.
    { intros Hs. unfold extension in Hne. by rewrite Hs in Hne. }
    rewrite (proj2 (truthy_true _) Hne), (or_else_truthy _ _ Hne).
    assert (∀ c : string, (c, extension p).2 ≠ ""
                 ∧ free_of "." (c, extension p).2
                 ∧ lower (c, extension p).2 = (c, extension p).2
                 ∧ (suffix p = "" → (c, extension p).2 = "no_ext")
                 ∧ (suffix p ≠ "" → (c, extension p).2 = extension p)) as Hall.
    { intros c. simpl. rewrite Hext. repeat split; try done.
      - by rewrite lower_eq_nil.
      - by apply lower_free_of_dot.
      - apply lower_idemp. }
    destruct (EXTENSION_CATEGORIES !! extension p) as [c|];
      [destruct (truthy c) |]; cbv zeta; try destruct (negb _); apply Hall.
Qed.

(** X1: every path gets one of the seven category names. *)
Theorem get_category_closed (p : Path) :
  (get_category guess_type p).1 ∈ category_names.
Proof. apply get_category_names. Qed.

Lemma lower_char_isascii (c : ascii) :
  (nat_of_ascii c <? 128)%nat = true →
  (nat_of_ascii (lower_char c) <? 128)%nat = true.
Proof.
  rewrite !Nat.ltb_lt. intros Hc. unfold lower_char.
  destruct (_ && _) eqn:E; [| done].
  apply andb_true_iff in E as [_ E%Nat.leb_le].
  rewrite nat_ascii_embedding; lia.
Qed.

Lemma lower_isascii (s : string) : isascii s = true → isascii (lower s) = true.
Proof.
  induction s as [|c s IH]; [done |]. cbn [isascii lower].
  rewrite !andb_true_iff. intros [Hc Hs].
  split; [by apply lower_char_isascii | auto].
Qed.

Lemma lstrip_isascii (c : ascii) (s : string) :
  isascii s = true → isascii (lstrip c s) = true.
Proof.
  induction s as [|a s IH]; [done |]. cbn [lstrip].
  destruct (Ascii.eqb a c); [| done].
  cbn [isascii]. rewrite andb_true_iff. intros [_ Hs]. auto.
Qed.

(** X2: for a path whose suffix is made of ASCII characters, the extension
    folder is never empty, is made of ASCII characters, has no dot and no
    upper-case letter; it is [no_ext] for the paths without suffix and the
    extension for the others. *)
Theorem get_category_folder_shape (p : Path) :
  isascii (suffix p) = true →
  let folder := (get_category guess_type p).2 in
  folder ≠ "" ∧ isascii folder = true ∧ free_of "." folder
  ∧ lower folder = folder
  ∧ (suffix p = "" → folder = "no_ext")
  ∧ (suffix p ≠ "" → folder = extension p).
Proof.
  intros Hascii. cbv zeta.
  destruct (get_category_folder p) as (H1 & H2 & H3 & H4 & H5).
  split; [done |]. split; [| done].
  destruct (decide (suffix p = "")) as [E|E].
  - by rewrite (H4 E).
  - rewrite (H5 E). unfold extension.
    destruct (truthy (suffix p)); [| done].
    by apply lstrip_isascii, lower_isascii.
Qed.

(** X3: an extension of ASCII characters that the table does not have: the
    category is the inferred one, the folder is the lower-cased
    extension. *)
Theorem get_category_unrecognized_inferred (p : Path) (st e : string) :
  name p = st +:+ "." +:+ e → st ≠ "" → e ≠ "" → free_of "." e →
  isascii e = true →
  EXTENSION_CATEGORIES !! lower e = None →
  get_category guess_type p = (guess_category_by_mime guess_type p, lower e).
Proof.
  intros Hn Hst He Hfree _ Hmiss.
  pose proof (extension_split p st e Hn Hst He Hfree) as Hext.
  rewrite <- Hext in *. apply get_category_miss; [| done].
  rewrite Hext. by rewrite lower_eq_nil.
Qed.

End ClassifierExtras.

Lemma get_category_folder_shape_witness :
  (get_category no_type ["/"; "root"; "Report.final.PDF"]).2 = "pdf".
Proof.
  destruct (get_category_folder_shape no_type
              ["/"; "root"; "Report.final.PDF"])
    as (_ & _ & _ & _ & _ & H).
  - vm_compute. reflexivity.
  - rewrite H.
    + vm_compute. reflexivity.
    + vm_compute. discriminate.
Defined.

Lemma get_category_unrecognized_inferred_witness :
  get_category (always "image/x-raw") ["/"; "root"; "shot.XYZ123"]
  = ("Images", "xyz123").
Proof.
  apply (get_category_unrecognized_inferred (always "image/x-raw")
           ["/"; "root"; "shot.XYZ123"] "shot" "XYZ123").
  - reflexivity.
  - discriminate.
  - discriminate.
  - vm_compute. repeat split; discriminate.
  - vm_compute. reflexivity.
  - vm_compute. reflexivity.
Defined.

(** ** Destinations *)

Section DestinationExtras.
Import PyStr PyStrFacts Pathlib PathlibFacts Fs FsFacts.

Variable guess_type : string → option string.

Lemma joinpath_part (p : Path) (s : string) :
  s ≠ "" → s ≠ "." → p // s = p ++ [s].
Proof.
  intros H1 H2. unfold joinpath.
  destruct (String.eqb_spec s ""); [done |].
  by destruct (String.eqb_spec s ".").
Qed.

Lemma name_snoc (p : Path) (s : string) : s ≠ "/" → name (p ++ [s]) = s.
Proof.
  intros Hs. unfold name. destruct p as [|a [|b p]]; simpl.
  - unfold is_anchor. by destruct (String.eqb_spec s "/").
  - done.
  - change (default "" (last ((a :: b :: p) ++ [s])) = s).
    by rewrite last_snoc.
Qed.

Lemma parent_snoc (p : Path) (s : string) :
  p ≠ [] ∨ s ≠ "/" → parent (p ++ [s]) = p.
Proof.
  intros Hs. destruct p as [|a [|b p]].
  - destruct Hs as [|Hs]; [done |]. unfold parent. simpl.
    unfold is_anchor. by destruct (String.eqb_spec s "/").
  - done.
  - change (removelast ((a :: b :: p) ++ [s]) = a :: b :: p).
    apply removelast_last.
Qed.

(** The name of a numbered candidate. *)
Lemma numbered_name_long (dest : Path) (i : nat) :
  2 ≤ String.length
        (stem dest +:+ " (" +:+ pretty i +:+ ")" +:+ suffix dest).
Proof. rewrite !str_length_app. simpl. lia. Qed.

(** X4: the numbered candidates stay in the directory of the destination and
    carry the number between its stem and its suffix; when the destination
    has a suffix, the candidate has the same one. *)
Theorem numbered_keeps_directory_and_suffix (dest : Path) (i : nat) :
  parent (numbered dest i) = parent dest
  ∧ name (numbered dest i)
    = stem dest +:+ " (" +:+ pretty i +:+ ")" +:+ suffix dest
  ∧ (suffix dest ≠ "" →
     suffix (numbered dest i) = suffix dest
     ∧ stem (numbered dest i) = stem dest +:+ " (" +:+ pretty i +:+ ")"
     ∧ extension (numbered dest i) = extension dest).
Proof.
  rewrite numbered_parts.
  set (s := stem dest +:+ " (" +:+ pretty i +:+ ")" +:+ suffix dest).
  assert (s ≠ "/") as Hs.
  { intros E. pose proof (numbered_name_long dest i) as Hl.
    fold s in Hl. rewrite E in Hl. simpl in Hl. lia. }
  split; [apply parent_snoc; by right |].
  split; [by apply name_snoc |].
  intros Hsuf.
  destruct (suffix_split dest) as [?|(st & e & _ & _ & He & Hf & Hse)];
    [done |].
  assert (name (parent dest ++ [s])
          = (stem dest +:+ " (" +:+ pretty i +:+ ")") +:+ String "." e) as Hn.
  { rewrite name_snoc by done. unfold s.
    by rewrite Hse, !str_app_assoc. }
  destruct (suffix_stem_split _ _ _ Hn) as [Hsuf' Hstem']; [| done..|].
  { intros E. apply (f_equal String.length) in E.
    rewrite !str_length_app in E. simpl in E. lia. }
  rewrite Hsuf', Hstem', Hse. repeat split.
  unfold extension. by rewrite Hsuf', Hse.
Qed.

Lemma planned_destination_parts (target p : Path) :
  name p ≠ "" → name p ≠ "." →
  planned_destination guess_type target p
  = target ++ [(get_category guess_type p).1;
               (get_category guess_type p).2; name p].
Proof.
  intros Hn1 Hn2. unfold planned_destination.
  pose proof (get_category_names guess_type p) as Hc.
  destruct (get_category_folder guess_type p) as (He1 & He2 & _).
  destruct (get_category guess_type p) as [c e]. cbn [fst snd] in *.
  assert (c ≠ "" ∧ c ≠ ".") as [Hc1 Hc2].
  { unfold category_names in Hc. rewrite !elem_of_cons, elem_of_nil in Hc.
    by destruct Hc as [->|[->|[->|[->|[->|[->|[->|[]]]]]]]]. }
  assert (e ≠ ".") as He3 by (intros ->; by destruct He2).
  rewrite !joinpath_part by done.
  by rewrite <- !(assoc_L (++)).
Qed.

(** X5: the planned destination is the target followed by three parts: the
    category, the extension folder and the name of the file. *)
Theorem planned_destination_layout (target p : Path) :
  name p ≠ "" → name p ≠ "." →
  planned_destination guess_type target p
  = target ++ [(get_category guess_type p).1;
               (get_category guess_type p).2; name p].
Proof. apply planned_destination_parts. Qed.

(** X6: whatever conflict resolution returns for a planned destination lies
    in the extension folder of the category folder, where the loop of a
    later run skips it. *)
Theorem resolved_destination_is_organized (fs : FS) (target p d : Path)
    (overwrite : bool) :
  name p ≠ "" → name p ≠ "." →
  safe_destination fs (planned_destination guess_type target p) overwrite
  = Some d →
  parent d = target ++ [(get_category guess_type p).1;
                        (get_category guess_type p).2]
  ∧ in_category_folder target d = true.
Proof.
  intros Hn1 Hn2 Hd.
  pose proof (planned_destination_parts target p Hn1 Hn2) as Hplan.
  pose proof (get_category_names guess_type p) as Hc.
  set (c := (get_category guess_type p).1) in *.
  set (e := (get_category guess_type p).2) in *.
  assert (parent (planned_destination guess_type target p)
          = target ++ [c; e]) as Hparent.
  { rewrite Hplan.
    change (target ++ [c; e; name p]) with (target ++ [c; e] ++ [name p]).
    rewrite (assoc_L (++)). apply parent_snoc. left. by destruct target. }
  assert (∃ s, d = (target ++ [c; e]) ++ [s]) as (s & ->).
  { unfold safe_destination in Hd. destruct (_ || _).
    - injection Hd as <-. exists (name p). rewrite Hplan.
      by rewrite <- (assoc_L (++)).
    - apply safe_destination_loop_Some in Hd as (k & _ & -> & _).
      rewrite numbered_parts, Hparent. by eexists. }
  split.
  - apply parent_snoc. left. by destruct target.
  - rewrite <- (assoc_L (++)).
    change (target ++ [c; e] ++ [s]) with (target ++ c :: [e; s]).
    by apply in_category_folder_below.
Qed.

End DestinationExtras.

Lemma planned_destination_layout_witness :
  planned_destination no_type root (root ++ ["sub"; "deep"; "Report.PDF"])
  = root ++ ["Documents"; "pdf"; "Report.PDF"].
Proof.
  rewrite (planned_destination_layout no_type root
             (root ++ ["sub"; "deep"; "Report.PDF"])).
  - vm_compute. reflexivity.
  - vm_compute. discriminate.
  - vm_compute. discriminate.
Defined.

Lemma resolved_destination_is_organized_witness :
  in_category_folder root (root ++ ["Documents"; "txt"; "a (1).txt"]) = true.
Proof.
  refine (proj2 (resolved_destination_is_organized no_type
                   ((root ++ ["Documents"; "txt"; "a.txt"], File) :: fs_twins)
                   root (root ++ ["sub"; "a.txt"])
                   (root ++ ["Documents"; "txt"; "a (1).txt"]) false _ _ _)).
  - vm_compute. discriminate.
  - vm_compute. discriminate.
  - vm_compute. reflexivity.
Defined.

(** ** The already-organized test *)

Section CategoryFolderExtras.
Import PyStr Pathlib PathlibFacts Fs.

(** X7: the already-organized test holds of the paths
    [target/<category>/...] with something after the category, and of no
    other path. *)
Theorem in_category_folder_iff (target p : Path) :
  in_category_folder target p = true
  ↔ ∃ category rest, category ∈ category_names ∧ rest ≠ []
                     ∧ p = target ++ category :: rest.
Proof.
  split.
  - unfold in_category_folder.
    destruct (bool_decide (parent p = target)); [done |].
    destruct (relative_to p target) as [rel|] eqn:Hrel; [| done].
    assert (p = target ++ rel) as ->.
    { destruct target as [|a target].
      - unfold relative_to in Hrel. by destruct (is_absolute p); simplify_eq.
      - by apply relative_to_Some. }
    unfold parts. destruct rel as [|c [|r rest]]; [done.. |].
    change ((c :: r :: rest) !! 0%nat) with (Some c).
    rewrite andb_true_iff. intros [_ Hc%bool_decide_eq_true_1].
    exists c, (r :: rest).
    split; [apply category_folders_names, Hc |]. split; [discriminate | reflexivity].
  - intros (category & rest & Hc & Hrest & ->).
    by apply in_category_folder_below.
Qed.

End CategoryFolderExtras.

(** A folder with a category name deeper in the tree does not count. *)
Example in_category_folder_nested :
  in_category_folder root (root ++ ["sub"; "Images"; "x.jpg"]) = false.
Proof. vm_compute. reflexivity. Qed.

(** ** Runs *)

Section RunExtras.
Import PyStr Pathlib PathlibFacts Fs FsFacts Run RunFacts.

Variable guess_type : string → option string.

(** What a call of [move_file] prints, and the record it is printed for. *)
Lemma move_file_out (src dest : Path) (dry_run overwrite verbose : bool)
    (st : state) :
  ∃ new, st_out (move_file src dest dry_run overwrite verbose st).1
         = st_out st ++ new
    ∧ ∀ m, m ∈ new →
        ∃ d, safe_destination (st_fs st) dest overwrite = Some d
             ∧ ((m = Would_move src d ∧ dry_run = true)
                ∨ (m = Moving src d ∧ dry_run = false ∧ verbose = true)
                ∨ (∃ e, m = Error_moving src d e ∧ dry_run = false)).
Proof.
  rewrite move_file_unfold.
  destruct (safe_destination (st_fs st) dest overwrite) as [d|]; cbv zeta.
  2: { exists []. rewrite app_nil_r. split; [done |].
       by intros m ?%elem_of_nil. }
  assert (∃ ann, st_out (announced dry_run verbose src d st)
                 = st_out st ++ ann
            ∧ ∀ m, m ∈ ann →
                (m = Would_move src d ∧ dry_run = true)
                ∨ (m = Moving src d ∧ dry_run = false ∧ verbose = true)
                ∨ (∃ e, m = Error_moving src d e ∧ dry_run = false))
    as (ann & Hann & Hin).
  { unfold announced. cbn [st_out].
    destruct verbose, dry_run; cbn [orb].
    - eexists. split; [done |]. intros m ->%list_elem_of_singleton. auto.
    - eexists. split; [done |]. intros m ->%list_elem_of_singleton. auto.
    - eexists. split; [done |]. intros m ->%list_elem_of_singleton. auto.
    - exists []. rewrite app_nil_r. split; [done |].
      by intros m ?%elem_of_nil. }
  destruct dry_run eqn:Edry; cbn [fst snd].
  { exists ann. split; [done |]. intros m Hm. exists d. auto. }
  destruct (mkdir (st_fs st) (parent d) true true) as [e|fs']; cbn [fst snd].
  { exists ann. split; [done |]. intros m Hm. exists d. auto. }
  match goal with |- context [shutil_move ?a ?b ?s] =>
    destruct (silent_shutil_move a b s) as (Ho & _ & _);
    destruct (shutil_move a b s) as [st3 [[]| e |]]; cbn [fst snd] in *
  end.
  - exists ann. rewrite Ho. cbn [st_out]. split; [done |].
    intros m Hm. exists d. auto.
  - exists (ann ++ [Error_moving src d e]). cbn [st_out] in *.
    rewrite Ho, Hann, <- (assoc_L (++)). split; [done |].
    intros m [Hm| ->%list_elem_of_singleton]%elem_of_app; exists d;
      [auto |]. split; [done |]. right. right. eauto.
  - exists ann. rewrite Ho. cbn [st_out]. split; [done |].
    intros m Hm. exists d. auto.
Qed.

(** The lines of a visit, each with the test that lets it through. *)
Lemma visit_lines (target : Path)
    (dry_run overwrite verbose skip_hidden : bool) (p : Path) (st : state) :
  ∃ new, st_out (visit guess_type target dry_run overwrite verbose
                   skip_hidden p st).1 = st_out st ++ new
    ∧ ∀ m, m ∈ new →
        (m = Skipping_hidden p ∧ verbose = true
         ∧ skip_hidden && has_hidden_part p = true)
        ∨ (m = Skipping_category p ∧ verbose = true
           ∧ in_category_folder target p = true)
        ∨ (eligible (st_fs st) target skip_hidden p = true
           ∧ ∃ d, safe_destination (st_fs st)
                    (planned_destination guess_type target p) overwrite
                  = Some d
                  ∧ ((m = Would_move p d ∧ dry_run = true)
                     ∨ (m = Moving p d ∧ dry_run = false ∧ verbose = true)
                     ∨ (∃ e, m = Error_moving p d e ∧ dry_run = false))).
Proof.
  rewrite visit_unfold. unfold eligible.
  destruct (is_dir (st_fs st) p).
  { exists []. rewrite app_nil_r. split; [done |]. by intros m ?%elem_of_nil. }
  destruct (skip_hidden && has_hidden_part p) eqn:Eh.
  { destruct verbose; cbn [when].
    - eexists. split; [done |]. intros m ->%list_elem_of_singleton. auto.
    - exists []. rewrite app_nil_r. split; [done |].
      by intros m ?%elem_of_nil. }
  destruct (in_category_folder target p) eqn:Ec.
  { destruct verbose; cbn [when].
    - eexists. split; [done |]. intros m ->%list_elem_of_singleton. auto.
    - exists []. rewrite app_nil_r. split; [done |].
      by intros m ?%elem_of_nil. }
  destruct (move_file_out p (planned_destination guess_type target p)
              dry_run overwrite verbose st) as (new & Hnew & Hin).
  exists new. split; [done |]. intros m Hm. right. right. split; [done |].
  by apply Hin.
Qed.

(** The records and the lines that a pass adds, each with the reason the
    loop has for it: a record is for a path of the list that passes the
    three tests on the tree the loop has reached, with the destination
    resolved on that tree; a line is a skip line of a verbose run for a
    path that fails the second or the third test, or belongs to a record. *)
Lemma organize_paths_log (target : Path)
    (dry_run overwrite verbose skip_hidden : bool) (ps : list Path)
    (st : state) :
  ∃ recs out,
    st_records (organize_paths guess_type target dry_run overwrite verbose
                  skip_hidden ps st).1 = st_records st ++ recs
    ∧ st_out (organize_paths guess_type target dry_run overwrite verbose
                skip_hidden ps st).1 = st_out st ++ out
    ∧ (∀ r, r ∈ recs →
         source r ∈ ps ∧ simulated r = dry_run
         ∧ ∃ fs, eligible fs target skip_hidden (source r) = true
                 ∧ safe_destination fs
                     (planned_destination guess_type target (source r))
                     overwrite = Some (destination r))
    ∧ (∀ m, m ∈ out →
         (∃ p, p ∈ ps ∧ m = Skipping_hidden p ∧ verbose = true
               ∧ skip_hidden && has_hidden_part p = true)
         ∨ (∃ p, p ∈ ps ∧ m = Skipping_category p ∧ verbose = true
                 ∧ in_category_folder target p = true)
         ∨ (∃ r, r ∈ recs
                 ∧ ((m = Would_move (source r) (destination r)
                     ∧ dry_run = true)
                    ∨ (m = Moving (source r) (destination r)
                       ∧ dry_run = false ∧ verbose = true)
                    ∨ (∃ e, m = Error_moving (source r) (destination r) e
                            ∧ dry_run = false)))).
Proof.
  revert st. induction ps as [|p ps IH]; intros st.
  { exists [], []. rewrite !app_nil_r.
    split; [done |]. split; [done |]. split; by intros ? ?%elem_of_nil. }
  rewrite organize_paths_cons.
  pose proof (visit_records guess_type target dry_run overwrite verbose
                skip_hidden p st) as Hrec.
  destruct (visit_lines target dry_run overwrite verbose skip_hidden p st)
    as (lines & Hout & Hlines).
  match type of Hrec with _ = _ ++ ?x => set (new := x) in Hrec end.
  assert (∀ r, r ∈ new →
            source r = p ∧ simulated r = dry_run
            ∧ eligible (st_fs st) target skip_hidden p = true
            ∧ safe_destination (st_fs st)
                (planned_destination guess_type target p) overwrite
              = Some (destination r)) as Hnew.
  { intros r. unfold new, eligible.
    destruct (is_dir (st_fs st) p); cbn [orb negb andb];
      [by intros ?%elem_of_nil |].
    destruct (skip_hidden && has_hidden_part p); cbn [orb negb andb];
      [by intros ?%elem_of_nil |].
    destruct (in_category_folder target p); cbn [orb negb andb];
      [by intros ?%elem_of_nil |].
    destruct (safe_destination _ _ _) as [d|]; [| by intros ?%elem_of_nil].
    by intros ->%list_elem_of_singleton. }
  assert (∀ m, m ∈ lines →
            (m = Skipping_hidden p ∧ verbose = true
             ∧ skip_hidden && has_hidden_part p = true)
            ∨ (m = Skipping_category p ∧ verbose = true
               ∧ in_category_folder target p = true)
            ∨ (∃ r, r ∈ new
                 ∧ ((m = Would_move (source r) (destination r)
                     ∧ dry_run = true)
                    ∨ (m = Moving (source r) (destination r)
                       ∧ dry_run = false ∧ verbose = true)
                    ∨ (∃ e, m = Error_moving (source r) (destination r) e
                            ∧ dry_run = false)))) as Hlines'.
  { intros m Hm.
    destruct (Hlines m Hm) as [?|[?|(Hel & d & Hd & Hm')]]; [auto.. |].
    right. right. exists (Build_record p d dry_run). split; [| done].
    unfold new. unfold eligible in Hel.
    destruct (is_dir (st_fs st) p); [done |].
    destruct (skip_hidden && has_hidden_part p); [done |].
    destruct (in_category_folder target p); [done |].
    cbn [orb]. rewrite Hd. by apply list_elem_of_singleton. }
  clearbody new.
  assert (∀ recs out,
    recs = new → out = lines →
    (∀ r, r ∈ recs →
         source r ∈ p :: ps ∧ simulated r = dry_run
         ∧ ∃ fs, eligible fs target skip_hidden (source r) = true
                 ∧ safe_destination fs
                     (planned_destination guess_type target (source r))
                     overwrite = Some (destination r))
    ∧ (∀ m, m ∈ out →
         (∃ q, q ∈ p :: ps ∧ m = Skipping_hidden q ∧ verbose = true
               ∧ skip_hidden && has_hidden_part q = true)
         ∨ (∃ q, q ∈ p :: ps ∧ m = Skipping_category q ∧ verbose = true
                 ∧ in_category_folder target q = true)
         ∨ (∃ r, r ∈ recs
                 ∧ ((m = Would_move (source r) (destination r)
                     ∧ dry_run = true)
                    ∨ (m = Moving (source r) (destination r)
                       ∧ dry_run = false ∧ verbose = true)
                    ∨ (∃ e, m = Error_moving (source r) (destination r) e
                            ∧ dry_run = false))))) as Hstop.
  { intros recs out -> ->. split.
    - intros r Hr. destruct (Hnew r Hr) as (Hs & ? & ? & ?).
      rewrite Hs. split; [by left |]. split; [done |]. eauto.
    - intros m Hm.
      destruct (Hlines' m Hm) as [(? & ? & ?)|[(? & ? & ?)|?]].
      + left. exists p. split; [by left | done].
      + right. left. exists p. split; [by left | done].
      + by right; right. }
  destruct (visit guess_type target dry_run overwrite verbose skip_hidden
              p st) as [st' [[]| e |]]; cbn [fst snd] in *.
  2, 3: exists new, lines; destruct (Hstop new lines eq_refl eq_refl); done.
  destruct (IH st') as (recs & out & Hrecs & Houts & Hr & Hm).
  exists (new ++ recs), (lines ++ out).
  rewrite Hrecs, Houts, Hrec, Hout, <- !(assoc_L (++)).
  destruct (Hstop new lines eq_refl eq_refl) as [Hr0 Hm0].
  split; [done |]. split; [done |]. split.
  - intros r [H|H]%elem_of_app; [by apply Hr0 |].
    destruct (Hr r H) as (? & ? & ?). split; [by right | done].
  - intros m [H|H]%elem_of_app.
    + destruct (Hm0 m H) as [?|[?|(r & Hrin & ?)]]; [auto.. |].
      right. right. exists r. split; [| done]. apply elem_of_app. by left.
    + destruct (Hm m H)
        as [(q & ? & ?)|[(q & ? & ?)|(r & Hrin & ?)]].
      * left. exists q. split; [by right | done].
      * right. left. exists q. split; [by right | done].
      * right. right. exists r. split; [| done]. apply elem_of_app. by right.
Qed.

End RunExtras.

Section RunTheorems.
Import PyStr Pathlib PathlibFacts Fs FsFacts Run RunFacts.

Variable guess_type : string → option string.

(** *** Non-recursive runs *)

Lemma iterdir_parent (fs : FS) (target p : Path) :
  p ∈ iterdir fs target → parent p = target.
Proof.
  unfold iterdir, entry_of. intros [H _]%list_elem_of_filter.
  destruct (relative_to p target) as [[|x [|]]|] eqn:Hrel; try done.
  destruct target as [|a target].
  - unfold relative_to in Hrel.
    destruct (is_absolute p) eqn:Ha; [done |]. injection Hrel as ->.
    unfold parent. unfold is_absolute in Ha.
    destruct (is_anchor x); [discriminate | reflexivity].
  - rewrite (relative_to_Some p (a :: target) [x] ltac:(done) Hrel).
    apply parent_snoc. by left.
Qed.

(** X8: a run without recursion handles the entries of the target only: every
    source lies directly in the target, and no path is skipped as already
    organized. *)
Theorem non_recursive_run_top_level (fs : FS) (target : Path)
    (dry_run overwrite verbose skip_hidden : bool) :
  let r := organize_directory guess_type target false dry_run overwrite
             verbose skip_hidden (start fs) in
  Forall (λ m, parent (source m) = target) (st_records r.1)
  ∧ ∀ q, Skipping_category q ∉ st_out r.1.
Proof.
  cbv zeta. rewrite organize_directory_unfold.
  change (st_fs (start fs)) with fs.
  destruct (_ || _).
  { split; [by constructor | by intros q ?%elem_of_nil]. }
  destruct (organize_paths_log guess_type target dry_run overwrite verbose
              skip_hidden (iterator fs target false) (start fs))
    as (recs & out & -> & -> & Hr & Hm).
  cbn [start st_records st_out app]. split.
  - apply Forall_forall. intros r Hin.
    destruct (Hr r Hin) as (Hsrc & _). by apply (iterdir_parent fs).
  - intros q Hin.
    destruct (Hm _ Hin)
      as [(p & _ & ? & _)|[(p & Hp & [= ->] & _ & Hc)|(r & _ & Hq)]].
    + done.
    + rewrite in_category_folder_top_level in Hc; [done |].
      by apply (iterdir_parent fs).
    + by destruct Hq as [[? _]|[[? _]|[? [? _]]]].
Qed.

(** *** Overwrite *)

(** X9: with overwrite no destination is numbered: every record has the
    planned destination of its source. *)
Theorem overwrite_keeps_planned_destination (fs : FS) (target : Path)
    (recursive dry_run verbose skip_hidden : bool) :
  Forall (λ r, destination r
               = planned_destination guess_type target (source r))
    (st_records (organize_directory guess_type target recursive dry_run
                   true verbose skip_hidden (start fs)).1).
Proof.
  rewrite organize_directory_unfold. change (st_fs (start fs)) with fs.
  destruct (_ || _); [by constructor |].
  destruct (organize_paths_log guess_type target dry_run true verbose
              skip_hidden (iterator fs target recursive) (start fs))
    as (recs & out & -> & _ & Hr & _).
  cbn [start st_records app]. apply Forall_forall. intros r Hin.
  destruct (Hr r Hin) as (_ & _ & fs' & _ & Hd).
  unfold safe_destination in Hd. simpl in Hd. congruence.
Qed.

(** *** Quiet runs *)

Lemma organize_paths_quiet_dry_run (target : Path)
    (overwrite skip_hidden : bool) (ps : list Path) (st : state) :
  ∃ l, st_records (organize_paths guess_type target true overwrite false
                     skip_hidden ps st).1 = st_records st ++ l
       ∧ st_out (organize_paths guess_type target true overwrite false
                   skip_hidden ps st).1
         = st_out st ++ ((λ r, Would_move (source r) (destination r)) <$> l).
Proof.
  revert st. induction ps as [|p ps IH]; intros st.
  { exists []. by rewrite !app_nil_r. }
  rewrite organize_paths_cons.
  assert (∃ l, visit guess_type target true overwrite false skip_hidden p st
               = (Build_state (st_fs st)
                    (st_out st
                       ++ ((λ r, Would_move (source r) (destination r))
                             <$> l))
                    (st_records st ++ l), Returned tt)) as (l & ->).
  { rewrite visit_unfold.
    destruct (is_dir (st_fs st) p);
      [exists []; rewrite !app_nil_r; by destruct st |].
    destruct (skip_hidden && has_hidden_part p);
      [exists []; rewrite !app_nil_r; by destruct st |].
    destruct (in_category_folder target p);
      [exists []; rewrite !app_nil_r; by destruct st |].
    destruct (move_file_simulated true overwrite false p
                (planned_destination guess_type target p) st eq_refl)
      as (d & _ & ->).
    by exists [Build_record p d true]. }
  destruct (IH (Build_state (st_fs st)
                  (st_out st
                     ++ ((λ r, Would_move (source r) (destination r)) <$> l))
                  (st_records st ++ l))) as (l' & -> & ->).
  exists (l ++ l'). cbn [st_records st_out].
  by rewrite fmap_app, <- !(assoc_L (++)).
Qed.

(** X10: a quiet dry run prints its plan and nothing else: one line per
    decision, in the order of the decisions.  A quiet live run prints only
    the errors of its moves. *)
Theorem quiet_run_output (fs : FS) (target : Path)
    (recursive overwrite skip_hidden : bool) :
  (let r := organize_directory guess_type target recursive true overwrite
              false skip_hidden (start fs) in
   st_out r.1
   = (λ m, Would_move (source m) (destination m)) <$> st_records r.1)
  ∧ (let r := organize_directory guess_type target recursive false overwrite
                false skip_hidden (start fs) in
     ∀ m, m ∈ st_out r.1 →
       ∃ rec e, rec ∈ st_records r.1
                ∧ m = Error_moving (source rec) (destination rec) e).
Proof.
  cbv zeta. split.
  - rewrite organize_directory_unfold. change (st_fs (start fs)) with fs.
    destruct (_ || _); [done |].
    by destruct (organize_paths_quiet_dry_run target overwrite skip_hidden
                   (iterator fs target recursive) (start fs))
      as (l & -> & ->).
  - rewrite organize_directory_unfold. change (st_fs (start fs)) with fs.
    destruct (_ || _); [by intros m ?%elem_of_nil |].
    destruct (organize_paths_log guess_type target false overwrite false
                skip_hidden (iterator fs target recursive) (start fs))
      as (recs & out & -> & -> & _ & Hm).
    cbn [start st_records st_out app]. intros m Hin.
    destruct (Hm m Hin)
      as [(? & _ & _ & ? & _)|[(? & _ & _ & ? & _)|(r & Hr & Hq)]];
      [done.. |].
    destruct Hq as [[_ ?]|[(_ & _ & ?)|[e [-> _]]]]; [done.. |]. eauto.
Qed.

(** *** The plan of a dry run *)

Lemma organize_paths_dry_run_sources (target : Path)
    (overwrite verbose skip_hidden : bool) (ps : list Path) (st : state) :
  ∃ l, st_records (organize_paths guess_type target true overwrite verbose
                     skip_hidden ps st).1 = st_records st ++ l
       ∧ source <$> l
         = filter (λ p, eligible (st_fs st) target skip_hidden p = true) ps.
Proof.
  revert st. induction ps as [|p ps IH]; intros st.
  { exists []. by rewrite app_nil_r. }
  rewrite organize_paths_cons.
  destruct (visit_dry_run guess_type target overwrite verbose skip_hidden
              p st) as [Hfs Hret].
  pose proof (visit_records guess_type target true overwrite verbose
                skip_hidden p st) as Hv.
  destruct (visit _ _ _ _ _ _ p st) as [st' o]. cbn [fst snd] in *. subst o.
  destruct (IH st') as (l & -> & Hl). rewrite Hfs in Hl.
  eexists. rewrite Hv, <- (assoc_L (++)). split; [done |].
  rewrite fmap_app, Hl, filter_cons.
  change (eligible (st_fs st) target skip_hidden p)
    with (negb (is_dir (st_fs st) p)
          && negb (skip_hidden && has_hidden_part p)
          && negb (in_category_folder target p)).
  destruct (is_dir (st_fs st) p); cbn [orb negb andb];
    [by rewrite decide_False by done |].
  destruct (skip_hidden && has_hidden_part p); cbn [orb negb andb];
    [by rewrite decide_False by done |].
  destruct (in_category_folder target p); cbn [orb negb andb];
    [by rewrite decide_False by done |].
  destruct (safe_destination_returns (st_fs st)
              (planned_destination guess_type target p) overwrite) as [d ->].
  by rewrite decide_True by done.
Qed.

(** X11: over a target that is a directory, the sources of the decisions of a
    dry run are the paths of the enumeration that pass the three tests on
    the starting tree, in the order of the enumeration. *)
Theorem dry_run_lists_eligible (fs : FS) (target : Path)
    (recursive overwrite verbose skip_hidden : bool) :
  is_dir fs target = true →
  source <$> st_records
               (organize_directory guess_type target recursive true
                  overwrite verbose skip_hidden (start fs)).1
  = filter (λ p, eligible fs target skip_hidden p = true)
      (iterator fs target recursive).
Proof.
  intros Hd. rewrite organize_directory_unfold.
  change (st_fs (start fs)) with fs.
  rewrite Hd, (is_dir_exists _ _ Hd). cbn [negb orb].
  destruct (organize_paths_dry_run_sources target overwrite verbose
              skip_hidden (iterator fs target recursive) (start fs))
    as (l & -> & Hl).
  exact Hl.
Qed.

End RunTheorems.

Lemma dry_run_lists_eligible_witness :
  source <$> st_records
               (organize_directory no_type root true true false true true
                  (start fs_spec)).1
  = [root ++ ["a.jpg"]; root ++ ["b.unknownext"]; root ++ ["notes"]].
Proof.
  rewrite (dry_run_lists_eligible no_type fs_spec root true false true true).
  - vm_compute. reflexivity.
  - vm_compute. reflexivity.
Defined.


(** ** A live move *)

Section LiveMove.
Import PyStr Pathlib PathlibFacts Fs FsFacts Run RunFacts.

Lemma lookup_insert_fs (fs : FS) (p q : Path) (n : node) :
  lookup (insert fs p n) q
  = if bool_decide (q = p) then Some n else lookup fs q.
Proof.
  induction fs as [|[k m] fs IH]; simpl.
  - repeat case_bool_decide; congruence.
  - repeat case_bool_decide; simpl; repeat case_bool_decide;
      try congruence.
    all: rewrite IH; repeat case_bool_decide; congruence.
Qed.

Lemma lookup_remove_fs (fs : FS) (p q : Path) :
  lookup (remove fs p) q
  = if bool_decide (q = p) then None else lookup fs q.
Proof.
  unfold remove.
  induction fs as [|[k m] fs IH]; [by case_bool_decide |].
  destruct (decide (k = p)) as [->|Hk].
  - rewrite filter_cons_False by (cbn [fst]; auto).
    rewrite IH. cbn [lookup]. repeat case_bool_decide; congruence.
  - rewrite filter_cons_True by done.
    cbn [lookup]. rewrite IH. repeat case_bool_decide; congruence.
Qed.

Lemma elem_lookup_Some (fs : FS) (p : Path) :
  p ∈ fs.*1 → is_Some (lookup fs p).
Proof.
  induction fs as [|[k m] fs IH]; [by intros ?%elem_of_nil |].
  rewrite fmap_cons, elem_of_cons. simpl.
  case_bool_decide; [by eexists |]. intros [|]; [congruence | auto].
Qed.

Lemma under_refl (p : Path) : under p p = true.
Proof. unfold under. apply bool_decide_eq_true. by rewrite firstn_all. Qed.

Lemma under_trans (a b c : Path) :
  under a b = true → under b c = true → under a c = true.
Proof.
  unfold under. rewrite !bool_decide_eq_true. intros Hab Hbc.
  assert (length a ≤ length b) as Hlen.
  { rewrite <- Hab at 1. rewrite length_take. lia. }
  rewrite <- Hbc in Hab. rewrite take_take in Hab.
  by rewrite Nat.min_l in Hab.
Qed.

Lemma under_parent (p : Path) : under (parent p) p = true.
Proof.
  unfold under. apply bool_decide_eq_true.
  destruct p as [|a [|b l]].
  - done.
  - simpl. by destruct (is_anchor a).
  - change (parent (a :: b :: l)) with (removelast (a :: b :: l)).
    rewrite removelast_firstn_len, length_take.
    f_equal. lia.
Qed.

Lemma not_under_parent (p : Path) : parent p ≠ p → under p (parent p) = false.
Proof.
  intros Hp%parent_length. unfold under. apply bool_decide_eq_false.
  intros E. apply (f_equal length) in E. rewrite length_take in E. lia.
Qed.

(** Moving the subtree at a path that is the only entry below itself. *)
Lemma lookup_rekey (fs : FS) (src d q : Path) :
  (∀ k, k ∈ fs.*1 → under src k = true → k = src) →
  d ∉ fs.*1 → src ≠ d →
  lookup (rekey src d fs) q
  = if bool_decide (q = d) then lookup fs src
    else if bool_decide (q = src) then None else lookup fs q.
Proof.
  intros Hsrc Hd Hne. unfold rekey.
  induction fs as [|[k m] fs IH]; [by repeat case_bool_decide |].
  rewrite fmap_cons, not_elem_of_cons in Hd. destruct Hd as [Hkd Hd].
  cbn [fst] in Hkd.
  assert (∀ k, k ∈ fs.*1 → under src k = true → k = src) as Hsrc'.
  { intros k' Hk'. apply Hsrc. rewrite fmap_cons. by right. }
  specialize (IH Hsrc' Hd).
  cbn [map fst snd]. destruct (under src k) eqn:Eu.
  - assert (k = src) as ->.
    { apply Hsrc; [rewrite fmap_cons; by left | done]. }
    rewrite drop_all, app_nil_r. simpl. rewrite IH.
    repeat case_bool_decide; congruence.
  - assert (k ≠ src) as Hks.
    { intros ->. by rewrite under_refl in Eu. }
    simpl. rewrite IH. repeat case_bool_decide; congruence.
Qed.

(** What a successful [Path.mkdir] changes: it adds writable directories
    at the path or above it, where there was no entry, and the path is a
    directory afterwards. *)
Lemma mkdir_rec_grows (fuel : nat) (fs fs' : FS) (p : Path)
    (parents exist_ok : bool) :
  mkdir_rec fuel fs p parents exist_ok = Some (inr fs') →
  is_dir fs' p = true
  ∧ ∀ q, lookup fs' q = lookup fs q
         ∨ (lookup fs q = None ∧ lookup fs' q = Some (Dir true)
            ∧ under q p = true).
Proof.
  revert fs fs' p parents exist_ok.
  induction fuel as [|fuel IH]; intros fs fs' p parents exist_ok; [done |].
  simpl. destruct (os_mkdir fs p) as [e|fs1] eqn:E.
  - destruct e;
      try (destruct (negb exist_ok || negb (is_dir fs p)) eqn:Eb;
             [by intros [=] |
              intros [= <-];
              apply orb_false_iff in Eb as [_ Hdir%negb_false_iff];
              split; [exact Hdir | by left]]).
    destruct (_ || _); [by intros [=] |].
    destruct (mkdir_rec fuel fs (parent p) true true) as [[e1|fs1]|] eqn:E1;
      [by intros [=] | | by intros [=]].
    intros [Hdir Hq2]%IH. destruct (IH _ _ _ _ _ E1) as [_ Hq1].
    split; [done |]. intros q.
    destruct (Hq1 q) as [H1|(H1 & H1' & Hu1)], (Hq2 q) as [H2|(H2 & H2' & Hu2)].
    + left. congruence.
    + right. split; [congruence | done].
    + right. split; [done |]. split; [congruence |].
      eapply under_trans; [done | apply under_parent].
    + congruence.
  - intros [= <-]. unfold os_mkdir in E.
    destruct (lookup fs p) eqn:Ep; [done |].
    destruct (lookup fs (parent p)) as [[|[]]|]; try done.
    injection E as <-. split.
    + unfold is_dir. rewrite lookup_insert_fs. by rewrite bool_decide_eq_true_2.
    + intros q. rewrite lookup_insert_fs. case_bool_decide as Hq; [| by left].
      subst q. right. split; [done |]. split; [done |]. apply under_refl.
Qed.

Lemma mkdir_grows (fs fs' : FS) (p : Path) (parents exist_ok : bool) :
  mkdir fs p parents exist_ok = inr fs' →
  is_dir fs' p = true
  ∧ ∀ q, lookup fs' q = lookup fs q
         ∨ (lookup fs q = None ∧ lookup fs' q = Some (Dir true)
            ∧ under q p = true).
Proof.
  unfold mkdir.
  destruct (mkdir_rec _ fs p parents exist_ok) as [r|] eqn:E; [| done].
  intros ->. by eapply mkdir_rec_grows.
Qed.

(** [shutil.move] of a file onto a path that is free or holds a file, with
    both directories writable: the rename succeeds. *)
Lemma shutil_move_file (src d : Path) (st : state) :
  lookup (st_fs st) src = Some File →
  (∀ k, k ∈ (st_fs st).*1 → under src k = true → k = src) →
  src ≠ d →
  is_dir (st_fs st) d = false →
  writable_dir (st_fs st) (parent d) = true →
  writable_dir (st_fs st) (parent src) = true →
  ∃ fs', shutil_move src d st
         = (Build_state fs' (st_out st) (st_records st), Returned tt)
       ∧ ∀ q, lookup fs' q
              = if bool_decide (q = d) then Some File
                else if bool_decide (q = src) then None
                else lookup (st_fs st) q.
Proof.
  intros Hsrc Hbelow Hne Hdir Hwd Hws.
  unfold shutil_move. rewrite bind_unfold. unfold get_fs.
  rewrite Hdir. cbn [andb]. rewrite bind_unfold.
  unfold mret at 1, M_ret at 1. unfold try_except, syscall, os_rename.
  rewrite Hsrc, bool_decide_eq_false_2 by done.
  unfold writable_dir in Hwd.
  destruct (lookup (st_fs st) (parent d)) as [[|[]]|] eqn:Epd; try done.
  cbn [andb].
  destruct (lookup (st_fs st) d) as [[|w]|] eqn:Ed.
  - (* a file is in the way: it is replaced *)
    assert (writable_dir (remove (st_fs st) d) (parent src) = true) as Hws'.
    { unfold writable_dir in *. rewrite lookup_remove_fs.
      case_bool_decide as Hp; [| done]. rewrite Hp, Ed in Hws. done. }
    rewrite Hws'. eexists. split; [done |]. intros q.
    rewrite lookup_rekey; [| | | done].
    + rewrite !lookup_remove_fs.
      rewrite (bool_decide_eq_false_2 (src = d)) by done. rewrite Hsrc.
      repeat case_bool_decide; congruence.
    + intros k Hk. apply Hbelow.
      apply elem_lookup_Some in Hk. rewrite lookup_remove_fs in Hk.
      case_bool_decide; [by destruct Hk |].
      destruct Hk as [n Hk]. by eapply lookup_Some_elem.
    + intros Hk%elem_lookup_Some. rewrite lookup_remove_fs in Hk.
      rewrite bool_decide_eq_true_2 in Hk by done. by destruct Hk.
  - unfold is_dir in Hdir. by rewrite Ed in Hdir.
  - rewrite Hws. eexists. split; [done |]. intros q.
    rewrite lookup_rekey; [| done | | done].
    + rewrite Hsrc. repeat case_bool_decide; congruence.
    + intros Hk%elem_lookup_Some. rewrite Ed in Hk. by destruct Hk.
Qed.

End LiveMove.

Section LiveMoveFile.
Import PyStr Pathlib PathlibFacts Fs FsFacts Run RunFacts.

Lemma has_children_false (fs : FS) (p k : Path) :
  has_children fs p = false → k ∈ fs.*1 → under p k = true → k = p.
Proof.
  unfold has_children. intros Hc Hk Hu.
  apply list_elem_of_fmap in Hk as ([k' n] & -> & Hin).
  destruct (decide (k' = p)) as [|Hne]; [done |].
  assert (existsb (λ e : Path * node, under p e.1 && negb (bool_decide (e.1 = p)))
            fs = true) as Hex; [| congruence].
  apply existsb_exists. exists (k', n). split; [by apply list_elem_of_In |].
  cbn [fst] in *. rewrite Hu. by rewrite bool_decide_eq_false_2.
Qed.

(** X14: a live call of [move_file] for a file, when the parent directories
    of the resolved destination can be made: the call returns, the file is
    at the destination and no longer at the source, no other entry is lost
    or changed, the only new entries are writable directories above the
    destination, and no error line is printed. *)
Theorem move_file_live_moves (src dest d : Path) (overwrite verbose : bool)
    (st : state) (fs1 : FS) :
  safe_destination (st_fs st) dest overwrite = Some d →
  mkdir (st_fs st) (parent d) true true = inr fs1 →
  lookup (st_fs st) src = Some File →
  has_children (st_fs st) src = false →
  writable_dir (st_fs st) (parent src) = true →
  under src (parent d) = false →
  parent d ≠ d →
  lookup (st_fs st) (parent d) ≠ Some (Dir false) →
  src ≠ d →
  is_dir (st_fs st) d = false →
  let r := move_file src dest false overwrite verbose st in
  r.2 = Returned tt
  ∧ st_out r.1 = st_out st ++ (if verbose then [Moving src d] else [])
  ∧ lookup (st_fs r.1) d = Some File
  ∧ lookup (st_fs r.1) src = None
  ∧ ∀ q, q ≠ src → q ≠ d →
         lookup (st_fs r.1) q = lookup (st_fs st) q
         ∨ (lookup (st_fs st) q = None
            ∧ lookup (st_fs r.1) q = Some (Dir true)
            ∧ under q (parent d) = true).
Proof.
  intros Hsafe Hmk Hsrc Hleaf Hws Hanc Hpar Hwd Hne Hdir. cbv zeta.
  rewrite move_file_unfold, Hsafe. cbv zeta. rewrite Hmk.
  destruct (mkdir_grows _ _ _ _ _ Hmk) as [Hpd Hgrow].
  set (st1 := Build_state fs1 _ _).
  destruct (shutil_move_file src d st1) as (fs' & -> & Hfs').
  - unfold st1. cbn [st_fs].
    destruct (Hgrow src) as [->|(E & _)]; [done | congruence].
  - unfold st1. cbn [st_fs]. intros k Hk Hu.
    destruct (Hgrow k) as [E|(_ & _ & Hk')].
    + apply (has_children_false (st_fs st)); [done | | done].
      apply elem_lookup_Some in Hk as [n Hk]. rewrite E in Hk.
      by eapply lookup_Some_elem.
    + by rewrite (under_trans _ _ _ Hu Hk') in Hanc.
  - done.
  - unfold st1. cbn [st_fs]. unfold is_dir in *.
    destruct (Hgrow d) as [->|(_ & _ & Hu)]; [done |].
    by rewrite not_under_parent in Hu.
  - unfold st1. cbn [st_fs]. unfold writable_dir, is_dir in *.
    destruct (Hgrow (parent d)) as [E|(_ & -> & _)]; [| done].
    rewrite E in *. by destruct (lookup (st_fs st) (parent d)) as [[|[]]|].
  - unfold st1. cbn [st_fs]. unfold writable_dir in *.
    destruct (Hgrow (parent src)) as [->|(E & _)]; [done |].
    by rewrite E in Hws.
  - unfold st1, announced. cbn [fst snd st_fs st_out st_records].
    rewrite orb_false_r.
    split; [done |]. split; [by destruct verbose; rewrite ?app_nil_r |].
    split; [by rewrite Hfs', bool_decide_eq_true_2 |].
    split.
    { rewrite Hfs', bool_decide_eq_false_2 by done.
      by rewrite bool_decide_eq_true_2. }
    intros q Hq1 Hq2. rewrite Hfs', !bool_decide_eq_false_2 by done.
    apply Hgrow.
Qed.

Lemma move_file_live_moves_witness :
  let st' := (move_file (root ++ ["a.jpg"]) (root ++ ["Images"; "jpg"; "a.jpg"])
                false false true (start fs_spec)).1 in
  st_out st' = [Moving (root ++ ["a.jpg"]) (root ++ ["Images"; "jpg"; "a.jpg"])]
  ∧ lookup (st_fs st') (root ++ ["Images"; "jpg"; "a.jpg"]) = Some File
  ∧ lookup (st_fs st') (root ++ ["a.jpg"]) = None.
Proof.
  destruct (move_file_live_moves
              (root ++ ["a.jpg"]) (root ++ ["Images"; "jpg"; "a.jpg"])
              (root ++ ["Images"; "jpg"; "a.jpg"]) false true (start fs_spec)
              (fs_spec ++ [(root ++ ["Images"], Dir true);
                           (root ++ ["Images"; "jpg"], Dir true)]))
    as (_ & Hout & Hd & Hs & _);
    try (vm_compute; reflexivity); try (vm_compute; discriminate).
  cbv zeta. split; [exact Hout |]. split; [exact Hd | exact Hs].
Defined.

End LiveMoveFile.

(** ** Dry and live passes *)

Section TreeFacts.
Import PyStr Pathlib PathlibFacts Fs FsFacts Run RunFacts.

Lemma well_formed_NoDup (fs : FS) : well_formed fs = true → NoDup fs.*1.
Proof.
  unfold well_formed. intros [H _]%andb_true_iff.
  by apply bool_decide_eq_true in H.
Qed.

Lemma well_formed_entry (fs : FS) (k : Path) :
  well_formed fs = true → k ∈ fs.*1 →
  parent k = k ∨ (is_dir fs (parent k) = true ∧ real_name (name k) = true).
Proof.
  unfold well_formed. intros [_ H]%andb_true_iff Hk.
  rewrite forallb_forall in H. apply list_elem_of_In, H in Hk.
  apply orb_true_iff in Hk as [Hk%bool_decide_eq_true|Hk%andb_true_iff];
    auto.
Qed.

Lemma well_formed_closed (fs : FS) : well_formed fs = true → closed fs.
Proof.
  intros Hwf q [n Hq]. apply lookup_Some_elem in Hq.
  destruct (well_formed_entry fs q Hwf Hq) as [|[? _]]; auto.
Qed.

Lemma under_length (f k : Path) : under f k = true → length f ≤ length k.
Proof.
  unfold under. intros H%bool_decide_eq_true.
  rewrite <- H, length_take. lia.
Qed.

Lemma under_eq (f k : Path) :
  under f k = true → length k ≤ length f → k = f.
Proof.
  unfold under. intros H%bool_decide_eq_true Hl.
  by rewrite take_ge in H.
Qed.

(** A path strictly below a path that is not empty: its parent is another
    path, still below. *)
Lemma under_parent_strict (f k : Path) :
  f ≠ [] → under f k = true → k ≠ f →
  parent k ≠ k ∧ length (parent k) < length k ∧ under f (parent k) = true.
Proof.
  intros Hf Hu Hne.
  assert (length f < length k) as Hl.
  { pose proof (under_length f k Hu).
    destruct (decide (length k ≤ length f)) as [Hle|]; [| lia].
    by destruct Hne; apply under_eq. }
  destruct k as [|a [|b k]].
  - simpl in Hl. lia.
  - destruct f; [done | simpl in Hl; lia].
  - change (parent (a :: b :: k)) with (removelast (a :: b :: k)).
    rewrite removelast_firstn_len.
    assert (length (take (Nat.pred (length (a :: b :: k))) (a :: b :: k))
            < length (a :: b :: k)) as Hlen.
    { rewrite length_take. simpl. lia. }
    split; [| split; [exact Hlen |]].
    + intros E. rewrite E in Hlen. lia.
    + unfold under in *. apply bool_decide_eq_true in Hu.
      apply bool_decide_eq_true. rewrite take_take.
      rewrite Nat.min_l; [done |]. simpl in *. lia.
Qed.

(** In a closed tree nothing lies below a file. *)
Lemma closed_leaf (fs : FS) (f : Path) :
  closed fs → lookup fs f = Some File → f ≠ [] →
  ∀ k, is_Some (lookup fs k) → under f k = true → k = f.
Proof.
  intros Hc Hf Hne k.
  remember (length k) as n eqn:Hn. revert k Hn.
  induction n as [n IH] using lt_wf_ind. intros k -> Hk Hu.
  destruct (decide (k = f)) as [|Hkf]; [done |].
  destruct (under_parent_strict f k Hne Hu Hkf) as (Hp & Hl & Hu').
  destruct (Hc k Hk) as [|Hd]; [done |].
  assert (parent k = f) as E.
  { apply (IH (length (parent k)) Hl (parent k) eq_refl); [| done].
    unfold is_dir in Hd. by destruct (lookup fs (parent k)). }
  unfold is_dir in Hd. by rewrite E, Hf in Hd.
Qed.

Lemma lookup_None_not_elem (fs : FS) (p : Path) :
  lookup fs p = None → p ∉ fs.*1.
Proof. intros H [n Hn]%elem_lookup_Some. congruence. Qed.

Lemma closed_insert (fs : FS) (p : Path) (n : node) :
  closed fs → lookup fs p = None → is_dir fs (parent p) = true →
  closed (insert fs p n).
Proof.
  intros Hc Hp Hd q. unfold is_dir in *. rewrite !lookup_insert_fs.
  assert (parent p ≠ p) as Hpp by (intros E; by rewrite E, Hp in Hd).
  case_bool_decide as Hq.
  - subst q. intros _. right. by rewrite bool_decide_eq_false_2.
  - intros [|Hq']%Hc; [by left | right]. unfold is_dir in Hq'.
    case_bool_decide as E; [| done]. by rewrite E, Hp in Hq'.
Qed.

Lemma closed_remove_file (fs : FS) (x : Path) :
  closed fs → lookup fs x = Some File → closed (remove fs x).
Proof.
  intros Hc Hx q. unfold is_dir in *. rewrite !lookup_remove_fs.
  case_bool_decide as Hq; [by intros [] |].
  intros [|Hq']%Hc; [by left | right]. unfold is_dir in Hq'.
  case_bool_decide as E; [| done]. by rewrite E, Hx in Hq'.
Qed.

(** Renaming a file to a free path in a directory. *)
Lemma rekey_file (fs : FS) (p d : Path) :
  closed fs → lookup fs p = Some File → p ≠ [] →
  lookup fs d = None → is_dir fs (parent d) = true →
  closed (rekey p d fs)
  ∧ ∀ q, lookup (rekey p d fs) q
         = if bool_decide (q = d) then Some File
           else if bool_decide (q = p) then None else lookup fs q.
Proof.
  intros Hc Hp Hne Hd Hpd.
  assert (p ≠ d) as Hpd' by congruence.
  assert (∀ q, lookup (rekey p d fs) q
               = if bool_decide (q = d) then Some File
                 else if bool_decide (q = p) then None else lookup fs q)
    as Hl.
  { intros q. rewrite lookup_rekey, ?Hp; [done | | | done].
    - intros k Hk. by apply (closed_leaf fs p Hc Hp Hne), elem_lookup_Some.
    - by apply lookup_None_not_elem. }
  split; [| exact Hl].
  unfold is_dir in Hpd.
  assert (parent d ≠ d) as Hdd by (intros E; by rewrite E, Hd in Hpd).
  assert (parent d ≠ p) as Hdp by (intros E; by rewrite E, Hp in Hpd).
  intros q. unfold is_dir. rewrite !Hl.
  case_bool_decide as Hq.
  - subst q. intros _. right. by rewrite !bool_decide_eq_false_2.
  - case_bool_decide as Hq'; [by intros [] |].
    intros [|Hq'']%Hc; [by left | right]. unfold is_dir in Hq''.
    case_bool_decide as E1; [by rewrite E1, Hd in Hq'' |].
    case_bool_decide as E2; [by rewrite E2, Hp in Hq'' | done].
Qed.

Lemma mkdir_rec_closed (fuel : nat) (fs fs' : FS) (p : Path)
    (parents exist_ok : bool) :
  closed fs → mkdir_rec fuel fs p parents exist_ok = Some (inr fs') →
  closed fs'.
Proof.
  revert fs fs' p parents exist_ok.
  induction fuel as [|fuel IH]; intros fs fs' p parents exist_ok Hc; [done |].
  simpl. destruct (os_mkdir fs p) as [e|fs1] eqn:E.
  - destruct e;
      try (destruct (negb exist_ok || negb (is_dir fs p));
             [by intros [=] | by intros [= <-]]).
    destruct (_ || _); [by intros [=] |].
    destruct (mkdir_rec fuel fs (parent p) true true) as [[e1|fs1]|] eqn:E1;
      [by intros [=] | | by intros [=]].
    apply IH. by eapply IH.
  - intros [= <-]. unfold os_mkdir in E.
    destruct (lookup fs p) eqn:Ep; [done |].
    destruct (lookup fs (parent p)) as [[|[]]|] eqn:Epp; try done.
    injection E as <-. apply closed_insert; [done.. |].
    unfold is_dir. by rewrite Epp.
Qed.

Lemma mkdir_closed (fs fs' : FS) (p : Path) (parents exist_ok : bool) :
  closed fs → mkdir fs p parents exist_ok = inr fs' → closed fs'.
Proof.
  unfold mkdir. intros Hc.
  destruct (mkdir_rec _ fs p parents exist_ok) as [r|] eqn:E; [| done].
  intros ->. by eapply mkdir_rec_closed.
Qed.

End TreeFacts.

Section MoveEffect.
Import PyStr Pathlib PathlibFacts Fs FsFacts Run RunFacts.

(** [os.rename] of a file. *)
Lemma os_rename_file (fs fs' : FS) (p rd : Path) :
  closed fs → lookup fs p = Some File → p ≠ [] →
  os_rename fs p rd = inr fs' →
  closed fs'
  ∧ ∀ q, lookup fs' q = lookup fs q
         ∨ (q = p ∧ lookup fs' q = None)
         ∨ (q = rd ∧ lookup fs' q = Some File).
Proof.
  intros Hc Hp Hne. unfold os_rename. rewrite Hp.
  case_bool_decide as Hprd; [intros [= <-]; split; auto |].
  destruct (lookup fs (parent rd)) as [[|wd]|] eqn:Epd; [by intros [=] | | by intros [=]].
  assert (∀ fs1, closed fs1 → lookup fs1 p = Some File →
                 lookup fs1 rd = None → is_dir fs1 (parent rd) = true →
                 (∀ q, q ≠ rd → lookup fs1 q = lookup fs q) →
                 closed (rekey p rd fs1)
                 ∧ ∀ q, lookup (rekey p rd fs1) q = lookup fs q
                        ∨ (q = p ∧ lookup (rekey p rd fs1) q = None)
                        ∨ (q = rd ∧ lookup (rekey p rd fs1) q = Some File))
    as Hgo.
  { intros fs1 Hc1 Hp1 Hd1 Hpd1 Hsame.
    destruct (rekey_file fs1 p rd Hc1 Hp1 Hne Hd1 Hpd1) as [Hc' Hl].
    split; [done |]. intros q. rewrite Hl.
    case_bool_decide; [auto |]. case_bool_decide; [auto |].
    left. by apply Hsame. }
  destruct (lookup fs rd) as [[|w]|] eqn:Erd.
  - destruct (_ && _); [| by intros [=]]. intros [= <-].
    assert (parent rd ≠ rd) as Hprd' by (intros E; by rewrite E, Erd in Epd).
    apply Hgo.
    + by apply closed_remove_file.
    + by rewrite lookup_remove_fs, bool_decide_eq_false_2.
    + by rewrite lookup_remove_fs, bool_decide_eq_true_2.
    + unfold is_dir. rewrite lookup_remove_fs, bool_decide_eq_false_2 by done.
      by rewrite Epd.
    + intros q Hq. by rewrite lookup_remove_fs, bool_decide_eq_false_2.
  - by intros [=].
  - destruct (_ && _); [| by intros [=]]. intros [= <-].
    apply Hgo; [done.. | | done]. unfold is_dir. by rewrite Epd.
Qed.

(** [shutil.copy2] of a file. *)
Lemma copy2_file (fs fs' : FS) (p rd : Path) :
  closed fs → copy2 fs p rd = inr fs' →
  closed fs'
  ∧ ∀ q, lookup fs' q = lookup fs q
         ∨ (q = rd ∧ lookup fs' q = Some File).
Proof.
  intros Hc. unfold copy2.
  destruct (lookup fs p) as [[|w]|]; [| by intros [=].. ].
  case_bool_decide; [by intros [=] |].
  destruct (lookup fs rd) as [[|w]|] eqn:Erd;
    [intros [= <-]; split; auto | by intros [=] |].
  destruct (lookup fs (parent rd)) as [[|[]]|] eqn:Epd;
    [by intros [=] | | by intros [=].. ].
  intros [= <-]. split.
  - apply closed_insert; [done.. |]. unfold is_dir. by rewrite Epd.
  - intros q. rewrite lookup_insert_fs. case_bool_decide; auto.
Qed.

(** [os.unlink] of a file. *)
Lemma os_unlink_file (fs fs' : FS) (p : Path) :
  closed fs → os_unlink fs p = inr fs' →
  closed fs'
  ∧ ∀ q, lookup fs' q = lookup fs q ∨ (q = p ∧ lookup fs' q = None).
Proof.
  intros Hc. unfold os_unlink.
  destruct (lookup fs p) as [[|w]|] eqn:Ep; [| by intros [=].. ].
  destruct (writable_dir _ _); [| by intros [=]]. intros [= <-]. split.
  - by apply closed_remove_file.
  - intros q. rewrite lookup_remove_fs. case_bool_decide; auto.
Qed.

Local Ltac unchanged := cbn [fst st_fs]; split; [done | intros ?; by left].

(** The rename of [shutil.move], or the copy and unlink it falls back
    to. *)
Lemma rename_or_copy (p rd : Path) (st : state) :
  closed (st_fs st) → lookup (st_fs st) p = Some File → p ≠ [] →
  let r := try_except is_OSError
             (syscall (λ fs, os_rename fs p rd))
             (λ e, fs ← get_fs;
                   if is_dir fs p then raise e
                   else syscall (λ fs, copy2 fs p rd) ;;
                        syscall (λ fs, os_unlink fs p)) st in
  closed (st_fs r.1)
  ∧ ∀ q, lookup (st_fs r.1) q = lookup (st_fs st) q
         ∨ (q = p ∧ lookup (st_fs r.1) q = None)
         ∨ (q = rd ∧ lookup (st_fs r.1) q = Some File).
Proof.
  intros Hc Hp Hne. cbv zeta. unfold try_except.
  change (syscall (λ fs, os_rename fs p rd) st)
    with (match os_rename (st_fs st) p rd with
          | inr fs' =>
              (Build_state fs' (st_out st) (st_records st), Returned tt)
          | inl e => (st, Raised e)
          end).
  destruct (os_rename (st_fs st) p rd) as [e|fs'] eqn:E.
  - destruct (is_OSError e); [| unchanged].
    rewrite bind_unfold. unfold get_fs.
    assert (is_dir (st_fs st) p = false) as -> by (unfold is_dir; by rewrite Hp).
    rewrite bind_unfold. unfold syscall.
    destruct (copy2 (st_fs st) p rd) as [e1|fs1] eqn:E1; [unchanged |].
    destruct (copy2_file _ _ _ _ Hc E1) as [Hc1 Hl1]. cbn [st_fs].
    destruct (os_unlink fs1 p) as [e2|fs2] eqn:E2; cbn [fst st_fs].
    + split; [done |]. intros q. destruct (Hl1 q) as [|[]]; auto.
    + destruct (os_unlink_file _ _ _ Hc1 E2) as [Hc2 Hl2].
      split; [done |]. intros q.
      destruct (Hl2 q) as [->|[]]; [| by auto].
      destruct (Hl1 q) as [|[]]; auto.
  - cbn [fst st_fs]. by apply os_rename_file.
Qed.

(** [shutil.move] of a file: whether it succeeds or not, the tree stays
    closed, and only the source and the destination can have changed. *)
Lemma shutil_move_moved (p d : Path) (st : state) :
  closed (st_fs st) → lookup (st_fs st) p = Some File → p ≠ [] →
  closed (st_fs (shutil_move p d st).1)
  ∧ ∀ q, lookup (st_fs (shutil_move p d st).1) q = lookup (st_fs st) q
         ∨ (q = p ∧ lookup (st_fs (shutil_move p d st).1) q = None)
         ∨ ((q = d ∨ q = d // name p)
            ∧ lookup (st_fs (shutil_move p d st).1) q = Some File).
Proof.
  intros Hc Hp Hne. unfold shutil_move. rewrite bind_unfold. unfold get_fs.
  assert (is_dir (st_fs st) d && bool_decide (p = d) = false) as ->.
  { apply andb_false_iff. destruct (decide (p = d)) as [<-|];
      [left; unfold is_dir; by rewrite Hp |
       right; by apply bool_decide_eq_false_2]. }
  rewrite bind_unfold.
  destruct (is_dir (st_fs st) d).
  - destruct (exists_ (st_fs st) (d // name p)); [unchanged |].
    unfold mret at 1, M_ret at 1.
    destruct (rename_or_copy p (d // name p) st Hc Hp Hne) as [Hc' Hl].
    split; [done |]. intros q. destruct (Hl q) as [|[|[]]]; auto.
  - unfold mret at 1, M_ret at 1.
    destruct (rename_or_copy p d st Hc Hp Hne) as [Hc' Hl].
    split; [done |]. intros q. destruct (Hl q) as [|[|[]]]; auto.
Qed.

End MoveEffect.

Section LiveEffect.
Import PyStr Pathlib PathlibFacts Fs FsFacts Run RunFacts.

(** A live call of [move_file] for a file: whatever happens, the tree
    stays closed and changes as a move does. *)
Lemma move_file_live_effect (p dest : Path) (overwrite verbose : bool)
    (st : state) :
  closed (st_fs st) → lookup (st_fs st) p = Some File → p ≠ [] →
  ∃ d, safe_destination (st_fs st) dest overwrite = Some d
       ∧ closed (st_fs (move_file p dest false overwrite verbose st).1)
       ∧ moved p d (st_fs st)
           (st_fs (move_file p dest false overwrite verbose st).1).
Proof.
  intros Hc Hp Hne.
  destruct (safe_destination_returns (st_fs st) dest overwrite) as [d Hd].
  exists d. split; [done |].
  rewrite move_file_unfold, Hd. cbv zeta.
  destruct (mkdir (st_fs st) (parent d) true true) as [e|fs1] eqn:Emk.
  { cbn [fst announced st_fs]. split; [done |]. intros q. by left. }
  destruct (mkdir_grows _ _ _ _ _ Emk) as [_ Hgrow].
  pose proof (mkdir_closed _ _ _ _ _ Hc Emk) as Hc1.
  set (st1 := Build_state fs1 _ _).
  assert (lookup (st_fs st1) p = Some File) as Hp1.
  { cbn [st1 st_fs]. destruct (Hgrow p) as [->|(E & _)]; congruence. }
  destruct (shutil_move_moved p d st1 Hc1 Hp1 Hne) as [Hc2 Hl].
  assert (closed (st_fs (shutil_move p d st1).1)
          ∧ moved p d (st_fs st) (st_fs (shutil_move p d st1).1)) as Hres.
  { split; [done |]. intros q.
    destruct (Hl q) as [E|[|]]; [| by auto..].
    rewrite E. cbn [st1 st_fs].
    destruct (Hgrow q) as [|]; auto. }
  by destruct (shutil_move p d st1) as [st3 [[]| e |]].
Qed.

(** What a move leaves in place. *)
Lemma moved_persists (p d : Path) (fs fs' : FS) (q : Path) :
  moved p d fs fs' → q ≠ p → exists_ fs q = true → exists_ fs' q = true.
Proof.
  intros Hm Hq. unfold exists_.
  destruct (Hm q) as [->|[[? _]|[[_ ->]|(-> & _ & _)]]]; done.
Qed.

End LiveEffect.

Section Agreement.
Import PyStr PyStrFacts Pathlib PathlibFacts Fs FsFacts Run RunFacts.

Variable guess_type : string → option string.
Variable target : Path.
Variables overwrite verbose skip_hidden : bool.

Abbreviation planned := (planned_destination guess_type target).

Lemma real_name_spec (s : string) : real_name s = true → s ≠ "" ∧ s ≠ ".".
Proof.
  unfold real_name. rewrite andb_true_iff, !negb_true_iff.
  intros [H1 H2]. split; intros ->; done.
Qed.

(** The candidates of conflict resolution for a planned destination are
    three parts below the target, the first a category name. *)
Lemma planned_candidates (p : Path) :
  real_name (name p) = true →
  ∃ c e, c ∈ category_names
         ∧ planned p = target ++ [c; e; name p]
         ∧ ∀ j, ∃ s, numbered (planned p) j = target ++ [c; e; s].
Proof.
  intros [Hn1 Hn2]%real_name_spec.
  exists (get_category guess_type p).1, (get_category guess_type p).2.
  split; [apply get_category_names |].
  pose proof (planned_destination_parts guess_type target p Hn1 Hn2) as Hp.
  split; [done |]. intros j. rewrite numbered_parts, Hp.
  eexists.
  change (target ++ [?c; ?e; name p]) with (target ++ [c; e] ++ [name p]).
  rewrite (assoc_L (++)), parent_snoc by (left; by destruct target).
  by rewrite <- (assoc_L (++)).
Qed.

Lemma resolved_parts (fs : FS) (p d : Path) :
  real_name (name p) = true →
  safe_destination fs (planned p) overwrite = Some d →
  ∃ c e s, c ∈ category_names ∧ d = target ++ [c; e; s].
Proof.
  intros (c & e & Hc & Hp & Hnum)%planned_candidates Hd.
  exists c, e. unfold safe_destination in Hd. destruct (_ || _).
  - injection Hd as <-. eauto.
  - apply safe_destination_loop_Some in Hd as (k & _ & -> & _).
    destruct (Hnum k) as [s ->]. eauto.
Qed.

Lemma deep_in_category (c e s : string) :
  c ∈ category_names →
  in_category_folder target (target ++ [c; e; s]) = true.
Proof. intros Hc. by apply in_category_folder_below. Qed.

Lemma deep_join_in_category (c e s n : string) :
  c ∈ category_names →
  in_category_folder target ((target ++ [c; e; s]) // n) = true
  ∧ ((target ++ [c; e; s]) // n = target ++ [c; e; s]
     ∨ length ((target ++ [c; e; s]) // n) = length target + 4).
Proof.
  intros Hc. unfold joinpath. destruct (_ || _).
  - split; [by apply deep_in_category | by left].
  - rewrite <- (assoc_L (++)). split.
    + by apply in_category_folder_below.
    + right. rewrite length_app. simpl. lia.
Qed.

(** What [safe_destination] returns without overwrite is free. *)
Lemma safe_destination_free (fs : FS) (dest d : Path) :
  safe_destination fs dest false = Some d → exists_ fs d = false.
Proof.
  unfold safe_destination. cbn [orb].
  destruct (exists_ fs dest) eqn:E; cbn [negb].
  - by intros (k & _ & -> & Hfree & _)%safe_destination_loop_Some.
  - by intros [= <-].
Qed.

(** Conflict resolution gives the same path on a second tree that has every
    candidate the first tree has and does not have the result. *)
Lemma safe_destination_agree (fs fs' : FS) (dest d : Path) :
  safe_destination fs dest false = Some d →
  (exists_ fs dest = true → exists_ fs' dest = true) →
  (∀ j, exists_ fs (numbered dest j) = true →
        exists_ fs' (numbered dest j) = true) →
  exists_ fs' d = false →
  safe_destination fs' dest false = Some d.
Proof.
  unfold safe_destination. cbn [orb].
  destruct (exists_ fs dest) eqn:E; cbn [negb].
  - intros (k & Hk & -> & Hfree & Hbelow)%safe_destination_loop_Some
      Hdest Hnum Hfree'.
    rewrite Hdest by done. cbn [negb].
    destruct (safe_destination_loop_returns fs' dest) as [r Hr].
    rewrite Hr. f_equal.
    apply safe_destination_loop_Some in Hr
      as (k' & Hk' & -> & Hfree2 & Hbelow2).
    f_equal. destruct (Nat.lt_trichotomy k' k) as [Hlt|[->|Hlt]]; [| done |].
    + rewrite Hnum in Hfree2; [done |]. apply Hbelow. lia.
    + rewrite Hbelow2 in Hfree'; [done |]. lia.
  - intros [= <-] _ _ ->. done.
Qed.

Lemma plan_cons (fs : FS) (p : Path) (ps : list Path) :
  plan guess_type fs target overwrite skip_hidden (p :: ps)
  = (if eligible fs target skip_hidden p
     then match safe_destination fs (planned p) overwrite with
          | Some d => [(p, d)]
          | None => []
          end
     else [])
    ++ plan guess_type fs target overwrite skip_hidden ps.
Proof.
  unfold plan. cbn [omap list_omap].
  destruct (eligible fs target skip_hidden p); [| done].
  by destruct (safe_destination fs (planned p) overwrite).
Qed.

(** The decisions of a dry pass are the plan on the tree it starts from. *)
Lemma organize_paths_dry_run_plan (ps : list Path) (st : state) :
  decisions (organize_paths guess_type target true overwrite verbose
               skip_hidden ps st).1
  = decisions st ++ plan guess_type (st_fs st) target overwrite skip_hidden ps.
Proof.
  revert st. induction ps as [|p ps IH]; intros st.
  { by rewrite app_nil_r. }
  rewrite organize_paths_cons.
  destruct (visit_dry_run guess_type target overwrite verbose skip_hidden
              p st) as [Hfs Hret].
  pose proof (visit_records guess_type target true overwrite verbose
                skip_hidden p st) as Hv.
  destruct (visit _ _ _ _ _ _ p st) as [st' o]. cbn [fst snd] in *. subst o.
  rewrite IH, Hfs, plan_cons, (assoc_L (++)). f_equal.
  unfold decisions. rewrite Hv, fmap_app. f_equal.
  unfold eligible.
  destruct (is_dir (st_fs st) p); cbn [orb negb andb]; [done |].
  destruct (skip_hidden && has_hidden_part p); cbn [orb negb andb]; [done |].
  destruct (in_category_folder target p); cbn [orb negb andb]; [done |].
  by destruct (safe_destination _ _ _).
Qed.

End Agreement.

Section LiveFollowsPlan.
Import PyStr PyStrFacts Pathlib PathlibFacts Fs FsFacts Run RunFacts.

Variable guess_type : string → option string.
Variable target : Path.
Variables overwrite verbose skip_hidden : bool.
Variable fs0 : FS.

Abbreviation planned := (planned_destination guess_type target).
Abbreviation plan0 := (plan guess_type fs0 target overwrite skip_hidden).
Abbreviation live :=
  (organize_paths guess_type target false overwrite verbose skip_hidden).

(** A live pass over [ps], from a state whose tree differs from [fs0] by
    the moves made so far, to the destinations [taken]: its sources follow
    the plan on [fs0], and so do its destinations when overwriting is on or
    no destination of the plan is taken twice. *)
Lemma live_follows_plan (ps : list Path) (st : state) (taken : list Path) :
  NoDup ps →
  (∀ q, q ∈ ps →
     is_Some (lookup fs0 q) ∧ q ≠ [] ∧ real_name (name q) = true) →
  closed (st_fs st) →
  (∀ q, q ∈ ps → in_category_folder target q = false →
     lookup (st_fs st) q = lookup fs0 q) →
  (∀ q, in_category_folder target q = true → exists_ fs0 q = true →
     exists_ (st_fs st) q = true) →
  (∀ q, length q = length target + 3 → exists_ (st_fs st) q = true →
     exists_ fs0 q = true ∨ q ∈ taken) →
  ∃ new,
    decisions (live ps st).1 = decisions st ++ new
    ∧ new.*1 `prefix_of` (plan0 ps).*1
    ∧ ((live ps st).2 = Returned tt → new.*1 = (plan0 ps).*1)
    ∧ (overwrite = true ∨ NoDup (taken ++ (plan0 ps).*2) →
       new `prefix_of` plan0 ps
       ∧ ((live ps st).2 = Returned tt → new = plan0 ps)).
Proof.
  revert st taken.
  induction ps as [|p ps IH]; intros st taken Hnd Hps Hc Hsame Hkeep Hnew.
  { exists []. rewrite app_nil_r. by repeat split. }
  apply NoDup_cons in Hnd as [Hp Hnd].
  destruct (Hps p) as ([n Hn] & Hpne & Hname); [by left |].
  assert (∀ q, q ∈ ps →
            is_Some (lookup fs0 q) ∧ q ≠ [] ∧ real_name (name q) = true)
    as Hps' by (intros q Hq; apply Hps; by right).
  rewrite organize_paths_cons, plan_cons.
  (* the visits that skip *)
  assert (eligible fs0 target skip_hidden p = false →
          is_dir (st_fs st) p = true
          ∨ skip_hidden && has_hidden_part p = true
          ∨ in_category_folder target p = true →
          ∃ new,
            decisions
              (match visit guess_type target false overwrite verbose
                       skip_hidden p st with
               | (st', Returned _) => live ps st'
               | (st', Raised e) => (st', Raised e)
               | (st', Diverged) => (st', Diverged)
               end).1 = decisions st ++ new
            ∧ new.*1 `prefix_of` (plan0 ps).*1
            ∧ ((match visit guess_type target false overwrite verbose
                        skip_hidden p st with
                | (st', Returned _) => live ps st'
                | (st', Raised e) => (st', Raised e)
                | (st', Diverged) => (st', Diverged)
                end).2 = Returned tt → new.*1 = (plan0 ps).*1)
            ∧ (overwrite = true ∨ NoDup (taken ++ (plan0 ps).*2) →
               new `prefix_of` plan0 ps
               ∧ ((match visit guess_type target false overwrite verbose
                           skip_hidden p st with
                   | (st', Returned _) => live ps st'
                   | (st', Raised e) => (st', Raised e)
                   | (st', Diverged) => (st', Diverged)
                   end).2 = Returned tt → new = plan0 ps))) as Hskip.
  { intros _ Hs.
    destruct (visit_skips guess_type target false overwrite verbose
                skip_hidden p st Hs) as (Hfs & Hrec & Hret).
    destruct (visit _ _ _ _ _ _ p st) as [st' o]. cbn [fst snd] in *.
    subst o.
    destruct (IH st' taken) as (new & Hdec & H1 & H2 & H3); try done.
    - by rewrite Hfs.
    - rewrite Hfs. intros q Hq. apply Hsame. by right.
    - by rewrite Hfs.
    - by rewrite Hfs.
    - exists new. unfold decisions in *. by rewrite <- Hrec. }
  destruct (skip_hidden && has_hidden_part p) eqn:Ehid.
  { assert (eligible fs0 target skip_hidden p = false) as Hel.
    { unfold eligible. rewrite Ehid. apply andb_false_iff. left.
      apply andb_false_r. }
    rewrite Hel. apply Hskip; auto. }
  destruct (in_category_folder target p) eqn:Ecat.
  { assert (eligible fs0 target skip_hidden p = false) as Hel.
    { unfold eligible. rewrite Ecat. apply andb_false_r. }
    rewrite Hel. apply Hskip; auto. }
  assert (lookup (st_fs st) p = lookup fs0 p) as Hlp.
  { apply Hsame; [by left | done]. }
  destruct (is_dir fs0 p) eqn:Edir.
  { assert (eligible fs0 target skip_hidden p = false) as Hel.
    { unfold eligible. by rewrite Edir. }
    rewrite Hel. apply Hskip; [done |]. left.
    unfold is_dir in *. by rewrite Hlp. }
  (* the visit that moves *)
  assert (eligible fs0 target skip_hidden p = true) as ->.
  { unfold eligible. by rewrite Edir, Ehid, Ecat. }
  assert (lookup (st_fs st) p = Some File) as Hfile.
  { rewrite Hlp. unfold is_dir in Edir. rewrite Hn in *. by destruct n. }
  rewrite visit_moves; [| unfold is_dir; by rewrite Hfile | done..].
  destruct (safe_destination_returns fs0 (planned p) overwrite) as [dD HdD].
  rewrite HdD.
  destruct (move_file_live_effect p (planned p) overwrite verbose st
              Hc Hfile Hpne) as (dL & HdL & Hc' & Hmoved).
  pose proof (move_file_records false overwrite verbose p (planned p) dL st
                HdL) as Hrec.
  pose proof (move_file_returns_or_raises false overwrite verbose p
                (planned p) st) as Hret.
  destruct (resolved_parts guess_type target overwrite _ _ _ Hname HdL)
    as (c & e & s & Hcat & HdLparts).
  destruct (planned_candidates guess_type target p Hname)
    as (c' & e' & Hcat' & Hplanned & Hnumbered).
  (* the live destination is the planned one *)
  assert (overwrite = true ∨ NoDup (taken ++ dD :: (plan0 ps).*2) →
          dL = dD) as Hagree.
  { intros [->|Hnd'].
    - unfold safe_destination in *. cbn [orb] in *. congruence.
    - destruct overwrite.
      { unfold safe_destination in *. cbn [orb] in *. congruence. }
      assert (safe_destination (st_fs st) (planned p) false = Some dD) as E;
        [| congruence].
      apply (safe_destination_agree fs0); [done | | |].
      + apply Hkeep. rewrite Hplanned. by apply deep_in_category.
      + intros j. apply Hkeep. destruct (Hnumbered j) as [s' ->].
        by apply deep_in_category.
      + destruct (exists_ (st_fs st) dD) eqn:Eex; [| done].
        destruct (resolved_parts guess_type target false fs0 p dD Hname HdD)
          as (c2 & e2 & s2 & _ & ->).
        destruct (Hnew (target ++ [c2; e2; s2])) as [Hex|Hin]; [| done | |].
        * rewrite length_app. simpl. lia.
        * by rewrite (safe_destination_free _ _ _ HdD) in Hex.
        * apply NoDup_app in Hnd' as (_ & Hdisj & _).
          destruct (Hdisj _ Hin). by left. }
  destruct (move_file p (planned p) false overwrite verbose st)
    as [st' [[]| err |]]; cbn [fst snd] in *; [| | done].
  - (* the call returns: the pass goes on *)
    destruct (IH st' (taken ++ [dL])) as (new & Hdec & H1 & H2 & H3);
      try done.
    + intros q Hq Hqcat.
      assert (q ≠ p) as Hqp by (intros ->; done).
      destruct (Hps' q Hq) as ([m Hm] & _ & _).
      assert (lookup (st_fs st) q = lookup fs0 q) as Hq0.
      { apply Hsame; [by right | done]. }
      destruct (Hmoved q) as [E|[[? _]|[[[E|E] _]|(E & _)]]];
        [congruence | done | | | congruence].
      * rewrite E, HdLparts, deep_in_category in Hqcat; done.
      * rewrite E, HdLparts in Hqcat.
        by rewrite (proj1 (deep_join_in_category target c e s (name p) Hcat))
          in Hqcat.
    + intros q Hqcat Hq0.
      apply (moved_persists p dL (st_fs st)); [done | | by apply Hkeep].
      intros ->. congruence.
    + intros q Hlen Hq. unfold exists_ in Hq.
      destruct (Hmoved q) as [E|[[_ E]|[[[E|E] _]|(_ & _ & Hu)]]].
      * rewrite E in Hq. destruct (Hnew q Hlen) as [|]; [done | by left |].
        right. apply elem_of_app. by left.
      * by rewrite E in Hq.
      * right. apply elem_of_app. right. rewrite E. by left.
      * destruct (deep_join_in_category target c e s (name p) Hcat)
          as [_ [E'|E']].
        -- right. apply elem_of_app. right.
           rewrite E, HdLparts, E', <- HdLparts. by left.
        -- rewrite E, HdLparts in Hlen. lia.
      * apply under_length in Hu. rewrite HdLparts in Hu.
        change (target ++ [c; e; s]) with (target ++ [c; e] ++ [s]) in Hu.
        rewrite (assoc_L (++)), parent_snoc in Hu
          by (left; by destruct target).
        rewrite length_app in Hu. simpl in Hu. lia.
    + exists ((p, dL) :: new). unfold decisions in *.
      rewrite Hdec, Hrec, fmap_app, <- (assoc_L (++)).
      split; [done |]. cbn [fmap list_fmap fst app].
      split; [by apply prefix_cons |].
      split; [intros Hr; by rewrite H2 |].
      intros HQ. rewrite (Hagree HQ) in *.
      destruct H3 as [H3 H4].
      { destruct HQ as [|HQ]; [by left | right].
        cbn [fmap list_fmap snd app] in HQ.
        by rewrite <- (assoc_L (++)). }
      split; [by apply prefix_cons |]. intros Hr. by rewrite H4.
  - (* [Path.mkdir] raises: the pass ends here *)
    exists [(p, dL)]. unfold decisions. rewrite Hrec, fmap_app.
    split; [done |]. cbn [fmap list_fmap fst app].
    split; [apply prefix_cons, prefix_nil |].
    split; [done |]. intros HQ. rewrite (Hagree HQ).
    split; [apply prefix_cons, prefix_nil | done].
Qed.

End LiveFollowsPlan.

Section DryVersusLive.
Import PyStr PyStrFacts Pathlib PathlibFacts Fs FsFacts Run RunFacts.

Variable guess_type : string → option string.

Lemma parent_long (a b : string) (l : Path) :
  parent (a :: b :: l) ≠ a :: b :: l.
Proof.
  change (parent (a :: b :: l)) with (removelast (a :: b :: l)).
  intros E. apply (f_equal length) in E.
  rewrite removelast_firstn_len, length_take in E. simpl in E. lia.
Qed.

Lemma below_not_root (p target : Path) (x : string) (rest : Path) :
  relative_to p target = Some (x :: rest) → p ≠ [] ∧ parent p ≠ p.
Proof.
  unfold relative_to. destruct target as [|t target].
  - destruct (is_absolute p) eqn:E; [done |]. intros [= ->].
    split; [done |]. destruct rest; [| apply parent_long].
    unfold parent. simpl in E. by rewrite E.
  - case_bool_decide as Ht; [| done]. intros [= Hd].
    destruct p as [|a [|b p]]; [done | | split; [done | apply parent_long]].
    destruct target; simpl in Ht; [| done].
    injection Ht as ->. done.
Qed.

Lemma iterator_entries (fs : FS) (target : Path) (recursive : bool) :
  well_formed fs = true →
  NoDup (iterator fs target recursive)
  ∧ ∀ q, q ∈ iterator fs target recursive →
         is_Some (lookup fs q) ∧ q ≠ [] ∧ real_name (name q) = true.
Proof.
  intros Hwf. split.
  - unfold iterator, rglob, iterdir.
    destruct recursive; by apply NoDup_filter, well_formed_NoDup.
  - intros q Hq.
    destruct (iterator_below fs target recursive q Hq) as (x & rest & Hrel).
    destruct (below_not_root _ _ _ _ Hrel) as [Hne Hpar].
    assert (q ∈ fs.*1) as Hin.
    { unfold iterator, rglob, iterdir in Hq.
      destruct recursive; by apply list_elem_of_filter in Hq as [_ ?]. }
    split; [by apply elem_lookup_Some |]. split; [done |].
    by destruct (well_formed_entry fs q Hwf Hin) as [|[_ ?]].
Qed.

(** X15: over a well-formed tree and a target that is a directory, the
    decisions of a dry pass are the plan resolved against the starting
    tree; a live pass takes up the same sources in the same order, all of
    them when it returns and the first of them when [Path.mkdir] ends it;
    and it takes the same decisions, destinations included, when
    overwriting is on or when no two decisions of the dry pass have the
    same destination. *)
Theorem live_pass_follows_dry_plan (fs : FS) (target : Path)
    (recursive overwrite verbose skip_hidden : bool) :
  well_formed fs = true → is_dir fs target = true →
  let dry := organize_directory guess_type target recursive true overwrite
               verbose skip_hidden (start fs) in
  let live := organize_directory guess_type target recursive false overwrite
                verbose skip_hidden (start fs) in
  decisions dry.1
  = plan guess_type fs target overwrite skip_hidden
      (iterator fs target recursive)
  ∧ (decisions live.1).*1 `prefix_of` (decisions dry.1).*1
  ∧ (live.2 = Returned tt → (decisions live.1).*1 = (decisions dry.1).*1)
  ∧ (overwrite = true ∨ NoDup (decisions dry.1).*2 →
     decisions live.1 `prefix_of` decisions dry.1
     ∧ (live.2 = Returned tt → decisions live.1 = decisions dry.1)).
Proof.
  intros Hwf Hdir. cbv zeta. rewrite !organize_directory_unfold.
  change (st_fs (start fs)) with fs.
  rewrite Hdir, (is_dir_exists _ _ Hdir). cbn [negb orb].
  rewrite organize_paths_dry_run_plan.
  change (decisions (start fs)) with (@nil (Path * Path)).
  change (st_fs (start fs)) with fs. rewrite app_nil_l.
  destruct (iterator_entries fs target recursive Hwf) as [Hnd Hin].
  destruct (live_follows_plan guess_type target overwrite verbose skip_hidden
              fs (iterator fs target recursive) (start fs) [])
    as (new & Hdec & H1 & H2 & H3); try done.
  - by apply well_formed_closed.
  - intros q _ Hq. by left.
  - change (decisions (start fs)) with (@nil (Path * Path)) in Hdec.
    rewrite app_nil_l in Hdec. rewrite Hdec.
    split; [done |]. split; [done |]. split; [done |].
    intros HQ. apply H3. by rewrite app_nil_l.
Qed.

End DryVersusLive.

Lemma live_pass_follows_dry_plan_witness :
  let dry := organize_directory no_type root true true false true true
               (start fs_spec) in
  let live := organize_directory no_type root true false false true true
                (start fs_spec) in
  decisions live.1 = decisions dry.1.
Proof.
  destruct (live_pass_follows_dry_plan no_type fs_spec root true false true true)
    as (_ & _ & _ & H).
  - vm_compute. reflexivity.
  - vm_compute. reflexivity.
  - cbv zeta. destruct H as [_ H].
    + right. refine (bool_decide_unpack _ _). vm_compute. exact I.
    + apply H. vm_compute. reflexivity.
Defined.
